(** * rentZone: booking availability, conflict check and auto-rejection

    A shallow embedding of the request handlers of the rentZone backend that
    touch the [bookings] collection:

    - the owner-bookings handler (PUT: accept / reject / cancel / complete),
    - the booking-request handler (POST, renter side),
    - the user-profile bookings handler (POST, renter side),
    - the house-details handler (GET, availability calendar).

    A MongoDB collection is a finite map from [_id] to document ([gmap]);
    [Date] values are milliseconds since the epoch ([Z]); the process runs in
    UTC, so [setDate(getDate() + n)] adds [n] days of 86 400 000 ms.  The
    clock ([new Date()]) is an input of each handler; the reads of the clock
    made inside one invocation are taken at the same instant.  The
    notification and web-socket collections are written by the handlers but
    read by none of the operations below; they are not part of the state. *)

From stdpp Require Import gmap strings list fin_maps pretty.
From Stdlib Require Import ZArith Lia.

#[local] Set Warnings "-clear-no-such-hyp".

Local Open Scope string_scope.
Local Open Scope Z_scope.

(** ** Data model *)

Abbreviation ObjectId := N (only parsing).
Abbreviation Date := Z (only parsing).

Inductive Status := pending | confirmed | active | completed | cancelled | rejected.

#[global] Instance Status_eq_dec : EqDecision Status.
Proof. solve_decision. Defined.

(** The string stored in the [status] field. *)
Definition status_name (s : Status) : string :=
  match s with
  | pending => "pending" | confirmed => "confirmed" | active => "active"
  | completed => "completed" | cancelled => "cancelled" | rejected => "rejected"
  end.

(** One element of [statusHistory], as pushed by the owner-bookings handler. *)
Record HistoryEntry := mkHistoryEntry {
  from : Status;
  to : Status;
  h_action : string;
  by_ : ObjectId;
  h_reason : option string;
  h_notes : option string;
  at_ : Date
}.

(** A document of the [bookings] collection.  An absent or null field is
    [None]; an absent [statusHistory] is the empty list
    ([booking.statusHistory || []]).  The name, contact and money fields
    written at creation are read by no status operation and are left out. *)
Record Booking := mkBooking {
  houseId : ObjectId;
  ownerId : ObjectId;
  renterId : ObjectId;
  checkInDate : Date;
  checkOutDate : Date;
  status : Status;
  statusHistory : list HistoryEntry;
  updatedAt : Date;
  confirmedAt : option Date;
  confirmedBy : option ObjectId;
  rejectedAt : option Date;
  rejectionReason : option string;
  cancelledAt : option Date;
  cancelledBy : option ObjectId;
  cancellationReason : option string;
  completedAt : option Date;
  completedBy : option ObjectId;
  completionNotes : option string
}.

(** An element of [house.viewedBy]. *)
Record View := mkView {
  v_userId : option ObjectId;
  viewedAt : Date;
  userType : string
}.

(** A document of the [houses] collection (the fields the handlers read). *)
Record House := mkHouse {
  house_ownerId : ObjectId;
  house_status : string;
  isActive : bool;
  isAvailable : bool;
  price_amount : Z;
  views : Z;
  viewedBy : list View
}.

(** The database: the three collections the handlers below read or write.
    Of a user document only its existence matters here. *)
Record Db := mkDb {
  bookings : gmap N Booking;
  houses : gmap N House;
  users : gset N
}.

(** The payload of a verified bearer token. *)
Record Token := mkToken {
  userId : ObjectId;
  role : string
}.

(** ** Responses *)

Record Conflict := mkConflict {
  c_id : ObjectId;
  c_checkIn : Date;
  c_checkOut : Date;
  c_status : Status
}.

Record CalendarEntry := mkCalendarEntry {
  date : Date;
  available : bool;
  price : Z
}.

Inductive Body :=
| ErrorBody (error : string)
| ConflictBody (error : string) (conflictingBookings : list Conflict)
| ConflictDatesBody (error : string) (existingCheckIn existingCheckOut : Date)
| UpdatedBody (message : string) (booking : option Booking) (action : string)
    (newStatus : Status)
| CreatedBody (message : string) (bookingId : ObjectId) (booking : Booking)
| DetailsBody (house_views : Z) (calendar : list CalendarEntry)
    (bookedDates : list (Date * Date)).

Record Response := mkResponse {
  statusCode : Z;
  body : Body
}.

(** ** Collection operations *)

(** [Array.prototype.includes] on an array of strings. *)
Definition includes (l : list string) (s : string) : bool :=
  bool_decide (s ∈ l).

(** [collection.find(q).toArray()]: the documents matching [q].  The order
    of the result is that of [map_to_list], not the store's natural order;
    [findOne] with a filter that several documents match takes the head of
    this list. *)
Definition find {A} (q : ObjectId → A → bool) (m : gmap N A) : list (N * A) :=
  List.filter (λ d, q d.1 d.2) (map_to_list m).

(** [collection.updateMany(q, {$set: ...})]: [set] applied to every matching
    document. *)
Definition updateMany {A} (q : ObjectId → A → bool) (set : A → A)
    (m : gmap N A) : gmap N A :=
  map_imap (λ i d, Some (if q i d then set d else d)) m.

(** [collection.insertOne(doc)], with [id] the [_id] generated for it: a
    duplicate key is refused. *)
Definition insertOne {A} (id : ObjectId) (doc : A) (m : gmap N A)
    : option (gmap N A) :=
  match m !! id with
  | Some _ => None
  | None => Some (<[id := doc]> m)
  end.

(** The range clause every overlap query carries:
    [{checkInDate: {$lte: hi}, checkOutDate: {$gte: lo}}]. *)
Definition rangeClause (lo hi : Date) (b : Booking) : bool :=
  (checkInDate b <=? hi) && (checkOutDate b >=? lo).

(** [status: {$in: [...]}]. *)
Definition statusIn (l : list Status) (b : Booking) : bool :=
  bool_decide (status b ∈ l).

(** ** owner-bookings, PUT *)

Definition validActions : list string := ["accept"; "reject"; "cancel"; "complete"].

Definition stateTransition (s : Status) : list string :=
  match s with
  | pending => ["accept"; "reject"; "cancel"]
  | confirmed => ["cancel"; "active"; "complete"]
  | active => ["complete"]
  | completed => []
  | cancelled => []
  | rejected => []
  end.

(** The [updateFields] object handed to [$set].  [None] is a key the object
    does not have; a key whose value is [undefined] is stored as null. *)
Record UpdateFields := mkUpdateFields {
  u_updatedAt : Date;
  u_status : Status;
  u_statusHistory : list HistoryEntry;
  u_confirmedAt : option Date;
  u_confirmedBy : option ObjectId;
  u_rejectedAt : option Date;
  u_rejectionReason : option (option string);
  u_cancelledAt : option Date;
  u_cancelledBy : option ObjectId;
  u_cancellationReason : option (option string);
  u_completedAt : option Date;
  u_completedBy : option ObjectId;
  u_completionNotes : option (option string)
}.

(** A key of [$set] that is present overwrites the stored field. *)
Definition setKey {A} (new : option A) (old : option A) : option A :=
  match new with Some v => Some v | None => old end.

Definition setNullable {A} (new : option (option A)) (old : option A) : option A :=
  match new with Some v => v | None => old end.

(** [{$set: updateFields}] on one document. *)
Definition applySet (u : UpdateFields) (b : Booking) : Booking :=
  {| houseId := houseId b;
     ownerId := ownerId b;
     renterId := renterId b;
     checkInDate := checkInDate b;
     checkOutDate := checkOutDate b;
     status := u_status u;
     statusHistory := u_statusHistory u;
     updatedAt := u_updatedAt u;
     confirmedAt := setKey (u_confirmedAt u) (confirmedAt b);
     confirmedBy := setKey (u_confirmedBy u) (confirmedBy b);
     rejectedAt := setKey (u_rejectedAt u) (rejectedAt b);
     rejectionReason := setNullable (u_rejectionReason u) (rejectionReason b);
     cancelledAt := setKey (u_cancelledAt u) (cancelledAt b);
     cancelledBy := setKey (u_cancelledBy u) (cancelledBy b);
     cancellationReason := setNullable (u_cancellationReason u) (cancellationReason b);
     completedAt := setKey (u_completedAt u) (completedAt b);
     completedBy := setKey (u_completedBy u) (completedBy b);
     completionNotes := setNullable (u_completionNotes u) (completionNotes b) |}.

(** The [$set] of the auto-rejection: status, [rejectedAt],
    [rejectionReason], [updatedAt]. *)
Definition autoRejectReason : string :=
  "Dates no longer available (booking accepted for another renter)".

Definition setRejected (now : Date) (b : Booking) : Booking :=
  {| houseId := houseId b;
     ownerId := ownerId b;
     renterId := renterId b;
     checkInDate := checkInDate b;
     checkOutDate := checkOutDate b;
     status := rejected;
     statusHistory := statusHistory b;
     updatedAt := now;
     confirmedAt := confirmedAt b;
     confirmedBy := confirmedBy b;
     rejectedAt := Some now;
     rejectionReason := Some autoRejectReason;
     cancelledAt := cancelledAt b;
     cancelledBy := cancelledBy b;
     cancellationReason := cancellationReason b;
     completedAt := completedAt b;
     completedBy := completedBy b;
     completionNotes := completionNotes b |}.

(** [findOne({_id, ownerId})]. *)
Definition findOwned (id owner : ObjectId) (m : gmap N Booking) : option Booking :=
  match m !! id with
  | Some b => if decide (ownerId b = owner) then Some b else None
  | None => None
  end.

(** [findOneAndUpdate({_id, ownerId}, {$set: updateFields},
    {returnDocument: 'after'})]: the filter names the document and its owner,
    nothing else. *)
Definition findOneAndUpdate (id owner : ObjectId) (u : UpdateFields)
    (m : gmap N Booking) : gmap N Booking * option Booking :=
  match findOwned id owner m with
  | Some b => (<[id := applySet u b]> m, Some (applySet u b))
  | None => (m, None)
  end.

(** The overlap filter of the accept check and of the cascade: another
    booking of the same house, in one of [statuses], whose dates meet the
    range clause for the dates of [booking]. *)
Definition overlapQuery (id : ObjectId) (booking : Booking) (statuses : list Status)
    (i : ObjectId) (b : Booking) : bool :=
  bool_decide (i ≠ id) && bool_decide (houseId b = houseId booking)
  && statusIn statuses b
  && rangeClause (checkInDate booking) (checkOutDate booking) b.

Section OwnerBookings.
Variable now : Date.

(** The [switch (action)] that fills [updateFields], and the history entry
    pushed after it.  [booking] is the document read by [findOne]. *)
Definition buildUpdate (caller : ObjectId) (action : string)
    (reason notes : option string) (booking : Booking) : UpdateFields :=
  let newStatus :=
    if decide (action = "accept") then confirmed
    else if decide (action = "reject") then rejected
    else if decide (action = "cancel") then cancelled
    else if decide (action = "complete") then completed
    else status booking in
  let entry := mkHistoryEntry (status booking) newStatus action caller reason notes now in
  {| u_updatedAt := now;
     u_status := newStatus;
     u_statusHistory := statusHistory booking ++ [entry];
     u_confirmedAt := if decide (action = "accept") then Some now else None;
     u_confirmedBy := if decide (action = "accept") then Some caller else None;
     u_rejectedAt := if decide (action = "reject") then Some now else None;
     u_rejectionReason := if decide (action = "reject") then Some reason else None;
     u_cancelledAt := if decide (action = "cancel") then Some now else None;
     u_cancelledBy := if decide (action = "cancel") then Some caller else None;
     u_cancellationReason := if decide (action = "cancel") then Some reason else None;
     u_completedAt := if decide (action = "complete") then Some now else None;
     u_completedBy := if decide (action = "complete") then Some caller else None;
     u_completionNotes := if decide (action = "complete") then Some notes else None |}.

(** The cascade inside the notification block: the matching pending
    bookings are fetched, then updated by [_id: {$in: ...}]. *)
Definition cascadeNotified (id : ObjectId) (booking : Booking)
    (m : gmap N Booking) : gmap N Booking :=
  let otherPendingBookings := find (overlapQuery id booking [pending]) m in
  if bool_decide (otherPendingBookings = []) then m
  else updateMany (λ i _, bool_decide (i ∈ otherPendingBookings.*1))
         (setRejected now) m.

(** The cascade after the notification block: one [updateMany] with the
    overlap filter. *)
Definition cascade (id : ObjectId) (booking : Booking)
    (m : gmap N Booking) : gmap N Booking :=
  updateMany (overlapQuery id booking [pending]) (setRejected now) m.

Definition conflictOf (d : N * Booking) : Conflict :=
  mkConflict d.1 (checkInDate d.2) (checkOutDate d.2) (status d.2).

(** The PUT branch of the handler.  [decoded] is the verified token
    ([None]: [verifyToken] threw); [bookingId] is the path parameter
    ([None]: missing or not a valid ObjectId); [action], [reason] and [notes]
    are read from the body, a JSON object; [notified] tells whether the
    notification block ran up to its cascade without throwing. *)
Definition ownerBookingsPut (notified : bool) (decoded : option Token)
    (bookingId : option ObjectId) (action : string)
    (reason notes : option string) (db : Db) : Response * Db :=
  match decoded with
  | None => (mkResponse 401 (ErrorBody "Unauthorized - Invalid or missing token"), db)
  | Some tok =>
    if bool_decide (role tok ≠ "owner" ∧ role tok ≠ "admin") then
      (mkResponse 403 (ErrorBody "Only owners and admins can manage bookings"), db)
    else
    let caller := userId tok in
    match bookingId with
    | None => (mkResponse 400 (ErrorBody "Valid booking ID is required"), db)
    | Some id =>
      if negb (includes validActions action) then
        (mkResponse 400
           (ErrorBody "Invalid action. Must be one of: accept, reject, cancel, complete"),
         db)
      else
      match findOwned id caller (bookings db) with
      | None => (mkResponse 404 (ErrorBody "Booking not found"), db)
      | Some booking =>
        if negb (includes (stateTransition (status booking)) action) then
          (mkResponse 400
             (ErrorBody ("Cannot " +:+ action +:+ " booking with status: "
                         +:+ status_name (status booking))),
           db)
        else
        let updateFields := buildUpdate caller action reason notes booking in
        let overlappingBookings :=
          if decide (action = "accept")
          then find (overlapQuery id booking [confirmed; active]) (bookings db)
          else [] in
        if negb (bool_decide (overlappingBookings = [])) then
          (mkResponse 409
             (ConflictBody
                "Cannot accept booking due to date conflicts with existing bookings"
                (conflictOf <$> overlappingBookings)),
           db)
        else
        let '(updated, result) := findOneAndUpdate id caller updateFields (bookings db) in
        let afterBlock :=
          if notified && bool_decide (action = "accept")
          then cascadeNotified id booking updated else updated in
        let final :=
          if decide (action = "accept")
          then cascade id booking afterBlock else afterBlock in
        (mkResponse 200
           (UpdatedBody
              (if decide (action = "accept") then "Booking request accepted"
               else if decide (action = "reject") then "Booking request rejected"
               else if decide (action = "cancel") then "Booking cancelled"
               else "Booking marked as completed")
              result action (u_status updateFields)),
         mkDb final (houses db) (users db))
      end
    end
  end.
End OwnerBookings.

(** ** Dates *)

Definition msPerDay : Z := 86400000.

(** [d.setDate(d.getDate() + n)]. *)
Definition addDays (d : Date) (n : Z) : Date := d + n * msPerDay.

(** [today.setHours(0, 0, 0, 0)]. *)
Definition startOfDay (d : Date) : Date := d - d mod msPerDay.

(** [findOne] on [houses] with the filter
    [{_id, status: 'approved', isActive: true, 'availability.isAvailable': true}]. *)
Definition findBookable (id : ObjectId) (m : gmap N House) : option House :=
  match m !! id with
  | Some h =>
      if bool_decide (house_status h = "approved") && isActive h && isAvailable h
      then Some h else None
  | None => None
  end.

(** The filter of the availability check made when a booking is created. *)
Definition availabilityQuery (house : ObjectId) (checkIn checkOut : Date)
    (_ : ObjectId) (b : Booking) : bool :=
  bool_decide (houseId b = house)
  && statusIn [pending; confirmed; active] b
  && rangeClause checkIn checkOut b.

(** The document both creation handlers insert. *)
Definition newBooking (house owner renter : ObjectId) (checkIn checkOut now : Date)
    : Booking :=
  {| houseId := house; ownerId := owner; renterId := renter;
     checkInDate := checkIn; checkOutDate := checkOut;
     status := pending; statusHistory := []; updatedAt := now;
     confirmedAt := None; confirmedBy := None;
     rejectedAt := None; rejectionReason := None;
     cancelledAt := None; cancelledBy := None; cancellationReason := None;
     completedAt := None; completedBy := None; completionNotes := None |}.

(** [!x] for a JSON number that may be missing. *)
Definition falsy (x : option Z) : bool :=
  match x with None => true | Some n => n =? 0 end.

(** ** booking-request, POST *)

Section BookingRequest.
Variable now : Date.
(** [d.setMonth(d.getMonth() + n)], calendar arithmetic of the runtime. *)
Variable addMonths : Date → Z → Date.

(** The fields read from the request body: [houseId] a valid ObjectId,
    [moveInDate] a date that parses, [duration] a JSON integer. *)
Record RequestBody := mkRequestBody {
  rq_houseId : option ObjectId;
  moveInDate : option Date;
  duration : option Z;
  durationType : string
}.

Definition computeCheckOut (checkIn : Date) (n : Z) (ty : string) : Date :=
  if decide (ty = "days") then addDays checkIn n
  else if decide (ty = "weeks") then addDays checkIn (n * 7)
  else addMonths checkIn n.

(** [newId] is the [_id] the driver generates for the inserted document. *)
Definition bookingRequestPost (decoded : option Token) (rq : RequestBody)
    (newId : ObjectId) (db : Db) : Response * Db :=
  match decoded with
  | None => (mkResponse 401 (ErrorBody "Unauthorized - Invalid or missing token"), db)
  | Some tok =>
    if bool_decide (role tok ≠ "renter") then
      (mkResponse 403 (ErrorBody "Only renters can submit booking requests"), db)
    else
    match rq_houseId rq, moveInDate rq with
    | Some hid, Some checkIn =>
      if falsy (duration rq) then
        (mkResponse 400
           (ErrorBody "Missing required fields: houseId, moveInDate, duration"), db)
      else
      match findBookable hid (houses db) with
      | None => (mkResponse 404 (ErrorBody "Property not available for booking"), db)
      | Some house =>
        let checkOut :=
          computeCheckOut checkIn (default 0 (duration rq)) (durationType rq) in
        let today := startOfDay now in
        if checkIn <? today then
          (mkResponse 400 (ErrorBody "Move-in date must be in the future"), db)
        else
        match find (availabilityQuery hid checkIn checkOut) (bookings db) with
        | existing :: _ =>
          (mkResponse 409
             (ConflictDatesBody "Property not available for selected dates"
                (checkInDate existing.2) (checkOutDate existing.2)), db)
        | [] =>
          if bool_decide (userId tok ∈ users db) then
            let doc := newBooking hid (house_ownerId house) (userId tok)
                         checkIn checkOut now in
            match insertOne newId doc (bookings db) with
            | Some inserted =>
              (mkResponse 201
                 (CreatedBody "Booking request submitted successfully" newId doc),
               mkDb inserted (houses db) (users db))
            | None => (mkResponse 500 (ErrorBody "Internal server error"), db)
            end
          else
            (* [renter] is null: reading [renter.firstName] throws *)
            (mkResponse 500 (ErrorBody "Internal server error"), db)
        end
      end
    | _, _ =>
      (mkResponse 400
         (ErrorBody "Missing required fields: houseId, moveInDate, duration"), db)
    end
  end.
End BookingRequest.

(** ** user-profile bookings, POST *)

Section UserBookings.
Variable now : Date.

Record CreateBody := mkCreateBody {
  cb_houseId : option ObjectId;
  cb_checkInDate : option Date;
  cb_checkOutDate : option Date;
  guests : option Z
}.

Definition userBookingsPost (decoded : option Token) (rq : CreateBody)
    (newId : ObjectId) (db : Db) : Response * Db :=
  match decoded with
  | None => (mkResponse 401 (ErrorBody "Unauthorized - Invalid or missing token"), db)
  | Some tok =>
    if bool_decide (role tok ≠ "renter") then
      (mkResponse 403 (ErrorBody "Only renters can access bookings"), db)
    else
    match cb_houseId rq, cb_checkInDate rq, cb_checkOutDate rq with
    | Some hid, Some checkIn, Some checkOut =>
      if falsy (guests rq) then
        (mkResponse 400
           (ErrorBody "Missing required fields: houseId, checkInDate, checkOutDate, guests"),
         db)
      else
      match findBookable hid (houses db) with
      | None => (mkResponse 404 (ErrorBody "Property not available for booking"), db)
      | Some house =>
        match find (availabilityQuery hid checkIn checkOut) (bookings db) with
        | _ :: _ =>
          (mkResponse 409 (ErrorBody "Property not available for selected dates"), db)
        | [] =>
          let doc := newBooking hid (house_ownerId house) (userId tok)
                       checkIn checkOut now in
          match insertOne newId doc (bookings db) with
          | Some inserted =>
            (mkResponse 201
               (CreatedBody "Booking request created successfully" newId doc),
             mkDb inserted (houses db) (users db))
          | None => (mkResponse 500 (ErrorBody "Internal server error"), db)
          end
        end
      end
    | _, _, _ =>
      (mkResponse 400
         (ErrorBody "Missing required fields: houseId, checkInDate, checkOutDate, guests"),
       db)
    end
  end.
End UserBookings.

(** ** user-profile bookings, PUT *)

(** What the renter's PUT answers: an error, or the message and the
    document returned by the update. *)
Inductive RenterBody :=
| RenterError (error : string)
| RenterUpdated (message : string) (booking : option Booking).

Record RenterResponse := mkRenterResponse {
  r_statusCode : Z;
  r_body : RenterBody
}.

(** The fields read from the body of the renter's PUT. *)
Record RenterUpdate := mkRenterUpdate {
  ru_action : string;
  ru_reason : option string;
  ru_checkInDate : option Date;
  ru_checkOutDate : option Date
}.

(** [findOne({_id, renterId})]. *)
Definition findRented (id renter : ObjectId) (m : gmap N Booking) : option Booking :=
  match m !! id with
  | Some b => if decide (renterId b = renter) then Some b else None
  | None => None
  end.

Section UserBookingsPut.
Variable now : Date.

(** [{$set: {status: 'cancelled', cancellationReason, cancelledAt, updatedAt}}]. *)
Definition setCancelled (reason : option string) (b : Booking) : Booking :=
  {| houseId := houseId b;
     ownerId := ownerId b;
     renterId := renterId b;
     checkInDate := checkInDate b;
     checkOutDate := checkOutDate b;
     status := cancelled;
     statusHistory := statusHistory b;
     updatedAt := now;
     confirmedAt := confirmedAt b;
     confirmedBy := confirmedBy b;
     rejectedAt := rejectedAt b;
     rejectionReason := rejectionReason b;
     cancelledAt := Some now;
     cancelledBy := cancelledBy b;
     cancellationReason := reason;
     completedAt := completedAt b;
     completedBy := completedBy b;
     completionNotes := completionNotes b |}.

(** [{$set: {checkInDate, checkOutDate, updatedAt}}]. *)
Definition setDates (checkIn checkOut : Date) (b : Booking) : Booking :=
  {| houseId := houseId b;
     ownerId := ownerId b;
     renterId := renterId b;
     checkInDate := checkIn;
     checkOutDate := checkOut;
     status := status b;
     statusHistory := statusHistory b;
     updatedAt := now;
     confirmedAt := confirmedAt b;
     confirmedBy := confirmedBy b;
     rejectedAt := rejectedAt b;
     rejectionReason := rejectionReason b;
     cancelledAt := cancelledAt b;
     cancelledBy := cancelledBy b;
     cancellationReason := cancellationReason b;
     completedAt := completedAt b;
     completedBy := completedBy b;
     completionNotes := completionNotes b |}.

(** [findOneAndUpdate({_id, renterId}, {$set: ...}, {returnDocument: 'after'})]. *)
Definition updateRented (id renter : ObjectId) (set : Booking → Booking)
    (m : gmap N Booking) : gmap N Booking * option Booking :=
  match findRented id renter m with
  | Some b => (<[id := set b]> m, Some (set b))
  | None => (m, None)
  end.

(** The PUT branch of the renter's bookings handler; the booking is looked
    up before the action is examined. *)
Definition userBookingsPut (decoded : option Token) (bookingId : option ObjectId)
    (rq : RenterUpdate) (db : Db) : RenterResponse * Db :=
  match decoded with
  | None =>
    (mkRenterResponse 401 (RenterError "Unauthorized - Invalid or missing token"), db)
  | Some tok =>
    if bool_decide (role tok ≠ "renter") then
      (mkRenterResponse 403 (RenterError "Only renters can access bookings"), db)
    else
    let renter := userId tok in
    match bookingId with
    | None => (mkRenterResponse 400 (RenterError "Valid booking ID is required"), db)
    | Some id =>
      match findRented id renter (bookings db) with
      | None => (mkRenterResponse 404 (RenterError "Booking not found"), db)
      | Some booking =>
        let write (set : Booking → Booking) :=
          let '(updated, result) := updateRented id renter set (bookings db) in
          (mkRenterResponse 200
             (RenterUpdated ("Booking " +:+ ru_action rq +:+ " successful") result),
           mkDb updated (houses db) (users db)) in
        if decide (ru_action rq = "cancel") then
          if decide (status booking = cancelled) then
            (mkRenterResponse 400 (RenterError "Booking is already cancelled"), db)
          else if decide (status booking = completed) then
            (mkRenterResponse 400 (RenterError "Cannot cancel completed booking"), db)
          else write (setCancelled (ru_reason rq))
        else if decide (ru_action rq = "update_dates") then
          if decide (status booking ≠ pending) then
            (mkRenterResponse 400
               (RenterError "Can only update dates for pending bookings"), db)
          else
          match ru_checkInDate rq, ru_checkOutDate rq with
          | Some checkIn, Some checkOut => write (setDates checkIn checkOut)
          | _, _ =>
            (mkRenterResponse 400
               (RenterError "checkInDate and checkOutDate are required"), db)
          end
        else (mkRenterResponse 400 (RenterError "Invalid action"), db)
      end
    end
  end.
End UserBookingsPut.

(** ** house-details, GET *)

Section HouseDetails.
Variable now : Date.

(** [{$inc: {views: 1}, $push: {viewedBy: {...}}}] on one house. *)
Definition recordView (decoded : option Token) (h : House) : House :=
  {| house_ownerId := house_ownerId h;
     house_status := house_status h;
     isActive := isActive h;
     isAvailable := isAvailable h;
     price_amount := price_amount h;
     views := views h + 1;
     viewedBy := viewedBy h ++
       [mkView (userId <$> decoded) now
          (match decoded with
           | Some tok => if decide (role tok = "") then "guest" else role tok
           | None => "guest"
           end)] |}.

(** The filter of the [bookedDates] query. *)
Definition bookedQuery (house : ObjectId) (today ninetyDaysLater : Date)
    (_ : ObjectId) (b : Booking) : bool :=
  bool_decide (houseId b = house)
  && statusIn [confirmed; active] b
  && rangeClause today ninetyDaysLater b.

(** The test of [bookedDates.some(...)]. *)
Definition isBooked (bookedDates : list (N * Booking)) (currentDate : Date) : bool :=
  existsb (λ d, (currentDate >=? checkInDate d.2) && (currentDate <=? checkOutDate d.2))
    bookedDates.

(** The [while (currentDate <= ninetyDaysLater)] loop; [None] when [fuel]
    iterations do not reach the end of the loop. *)
Fixpoint calendarLoop (fuel : nat) (bookedDates : list (N * Booking)) (amount : Z)
    (ninetyDaysLater currentDate : Date) : option (list CalendarEntry) :=
  match fuel with
  | O => None
  | S fuel' =>
    if currentDate <=? ninetyDaysLater then
      cons (mkCalendarEntry currentDate (negb (isBooked bookedDates currentDate)) amount)
        <$> calendarLoop fuel' bookedDates amount ninetyDaysLater (addDays currentDate 1)
    else Some []
  end.

(** The calendar of the next 90 days, from [today]. *)
Definition availabilityCalendar (house : ObjectId) (amount : Z) (today : Date)
    (m : gmap N Booking) : list CalendarEntry :=
  let ninetyDaysLater := addDays today 90 in
  let bookedDates := find (bookedQuery house today ninetyDaysLater) m in
  default [] (calendarLoop 92 bookedDates amount ninetyDaysLater today).

(** The path parameter: [None] when missing, [Some None] when present but
    not a valid ObjectId. *)
Definition houseDetailsGet (houseId : option (option ObjectId))
    (decoded : option Token) (db : Db) : Response * Db :=
  match houseId with
  | None => (mkResponse 400 (ErrorBody "House ID is required"), db)
  | Some None => (mkResponse 400 (ErrorBody "Invalid house ID format"), db)
  | Some (Some hid) =>
    match houses db !! hid with
    | None => (mkResponse 404 (ErrorBody "House not found"), db)
    | Some stored =>
      let house := recordView decoded stored in
      let db' := mkDb (bookings db) (<[hid := house]> (houses db)) (users db) in
      let privileged :=
        match decoded with
        | Some tok => bool_decide (role tok = "owner" ∨ role tok = "admin")
        | None => false
        end in
      if negb privileged
         && negb (bool_decide (house_status house = "approved")
                  && isActive house && isAvailable house)
      then (mkResponse 404 (ErrorBody "Property not available"), db')
      else
      let today := now in
      let ninetyDaysLater := addDays today 90 in
      let bookedDates := find (bookedQuery hid today ninetyDaysLater) (bookings db) in
      let calendar := availabilityCalendar hid (price_amount house) today (bookings db) in
      (mkResponse 200
         (DetailsBody (views house) (take 30 calendar)
            ((λ d, (checkInDate d.2, checkOutDate d.2)) <$> bookedDates)),
       db')
    end
  end.
End HouseDetails.

(** ** house-delete, DELETE *)

(** What the delete handler answers.  [activeBookings] is the number of
    pending, confirmed or active bookings counted before the deletion. *)
Inductive DeleteBody :=
| DeleteError (error : string)
| DeleteRefused (error : string) (activeBookings : nat)
| Deleted (message : string) (houseId : ObjectId) (bookingsCancelled : nat).

Record DeleteResponse := mkDeleteResponse {
  d_statusCode : Z;
  d_body : DeleteBody
}.

(** The fields read from the body ([event.body || '{}']); [forceDelete] is
    tested for truth. *)
Record DeleteRequest := mkDeleteRequest {
  forceDelete : bool;
  adminNotes : option string
}.

(** [collection.countDocuments(q)]. *)
Definition countDocuments {A} (q : ObjectId → A → bool) (m : gmap N A) : nat :=
  length (find q m).

(** [{houseId, status: {$in: ['pending', 'confirmed', 'active']}}]. *)
Definition openQuery (house : ObjectId) (_ : ObjectId) (b : Booking) : bool :=
  bool_decide (houseId b = house) && statusIn [pending; confirmed; active] b.

(** [x || fallback] on a string that may be missing. *)
Definition orElse (x : option string) (fallback : string) : string :=
  match x with
  | Some s => if decide (s = "") then fallback else s
  | None => fallback
  end.

Section HouseDelete.
Variable now : Date.

(** The [$set] that cancels the bookings of a deleted house.  The key
    [cancelledByEmail] has no field in [Booking]. *)
Definition setCancelledByAdmin (admin : ObjectId) (notes : option string)
    (b : Booking) : Booking :=
  {| houseId := houseId b;
     ownerId := ownerId b;
     renterId := renterId b;
     checkInDate := checkInDate b;
     checkOutDate := checkOutDate b;
     status := cancelled;
     statusHistory := statusHistory b;
     updatedAt := now;
     confirmedAt := confirmedAt b;
     confirmedBy := confirmedBy b;
     rejectedAt := rejectedAt b;
     rejectionReason := rejectionReason b;
     cancelledAt := Some now;
     cancelledBy := Some admin;
     cancellationReason :=
       Some ("Property deleted by admin: " +:+ orElse notes "No reason provided");
     completedAt := completedAt b;
     completedBy := completedBy b;
     completionNotes := completionNotes b |}.

(** The soft delete, [{$set: {status: 'deleted', isActive: false, ...}}]; the
    keys [deletedAt], [deletedBy], [deletedByEmail], [deleteReason],
    [updatedAt] and [auditTrail] have no field in [House]. *)
Definition softDelete (h : House) : House :=
  {| house_ownerId := house_ownerId h;
     house_status := "deleted";
     isActive := false;
     isAvailable := isAvailable h;
     price_amount := price_amount h;
     views := views h;
     viewedBy := viewedBy h |}.

(** The handler.  The [favorites] collection, which it empties of the
    deleted house, is not part of [Db]. *)
Definition houseDelete (decoded : option Token) (houseId : option ObjectId)
    (rq : DeleteRequest) (db : Db) : DeleteResponse * Db :=
  match decoded with
  | None =>
    (mkDeleteResponse 401 (DeleteError "Unauthorized - Invalid or missing token"), db)
  | Some tok =>
    if bool_decide (role tok ≠ "owner" ∧ role tok ≠ "admin") then
      (mkDeleteResponse 403
         (DeleteError "Only owners and admins can delete house listings"), db)
    else
    match houseId with
    | None => (mkDeleteResponse 400 (DeleteError "Valid house ID is required"), db)
    | Some hid =>
      match houses db !! hid with
      | None => (mkDeleteResponse 404 (DeleteError "House not found"), db)
      | Some existingHouse =>
        if bool_decide (house_ownerId existingHouse ≠ userId tok ∧ role tok ≠ "admin") then
          (mkDeleteResponse 403
             (DeleteError "You do not have permission to delete this house"), db)
        else
        let activeBookings := countDocuments (openQuery hid) (bookings db) in
        if bool_decide (0 < activeBookings)%nat && bool_decide (role tok ≠ "admin") then
          (mkDeleteResponse 400
             (DeleteRefused "Cannot delete property with active bookings" activeBookings),
           db)
        else
        let forced := bool_decide (role tok = "admin") && bool_decide (0 < activeBookings)%nat in
        if forced && negb (forceDelete rq) then
          (mkDeleteResponse 400
             (DeleteRefused "Property has active bookings" activeBookings), db)
        else
        let cancelled :=
          if forced
          then updateMany (openQuery hid)
                 (setCancelledByAdmin (userId tok) (adminNotes rq)) (bookings db)
          else bookings db in
        (mkDeleteResponse 200 (Deleted "House deleted successfully" hid activeBookings),
         mkDb cancelled (<[hid := softDelete existingHouse]> (houses db)) (users db))
      end
    end
  end.
End HouseDelete.

(** ** recommendations: the diversity pass *)

(** A scored recommendation, as the diversity pass reads it: the property's
    [_id] and its [propertyType] (the key an absent type gives is
    ["undefined"]). *)
Record Rec := mkRec {
  rec_id : ObjectId;
  propertyType : string
}.

(** The [for (const rec of sortedRecs)] loop of [getHybridRecommendations]:
    a property is kept while fewer than two of its type are kept; the loop is
    left as soon as [finalRecs] has [limit] elements, a test made at the end
    of every round. *)
Fixpoint diversifyLoop (limit : Z) (recs : list Rec)
    (propertyTypeCount : gmap string nat) (finalRecs : list Rec) : list Rec :=
  match recs with
  | [] => finalRecs
  | rec :: rest =>
    let count := default 0%nat (propertyTypeCount !! propertyType rec) in
    let kept := bool_decide (count < 2)%nat in
    let propertyTypeCount' :=
      if kept then <[propertyType rec := S count]> propertyTypeCount
      else <[propertyType rec := count]> propertyTypeCount in
    let finalRecs' := if kept then (finalRecs ++ [rec])%list else finalRecs in
    if Z.of_nat (length finalRecs') >=? limit then finalRecs'
    else diversifyLoop limit rest propertyTypeCount' finalRecs'
  end.

(** [finalRecs.some(f => f.property._id.toString() === rec.property._id.toString())]. *)
Definition chosen (finalRecs : list Rec) (rec : Rec) : bool :=
  existsb (λ f, bool_decide (rec_id f = rec_id rec)) finalRecs.

(** The diversity pass and the filling up that follows it, from
    [sortedRecs] to the list that is returned. *)
Definition diversify (limit : Z) (sortedRecs : list Rec) : list Rec :=
  let finalRecs := diversifyLoop limit sortedRecs ∅ [] in
  if Z.of_nat (length finalRecs) <? limit then
    let remaining :=
      take (Z.to_nat (limit - Z.of_nat (length finalRecs)))
        (List.filter (λ rec, negb (chosen finalRecs rec)) sortedRecs) in
    (finalRecs ++ remaining)%list
  else finalRecs.

(** ** The booking store as a transition system *)

(** A booking that holds its dates. *)
Definition occupied (b : Booking) : Prop := status b ∈ [confirmed; active].

(** A caller the owner-bookings handler lets in. *)
Definition privileged (tok : Token) : Prop := role tok = "owner" ∨ role tok = "admin".

(** One request served: a booking request, a booking created from the
    renter's profile, or an owner action (accept, reject, cancel, complete;
    any other action string is refused by the handler). *)
Inductive step (db : Db) : Db → Prop :=
| step_booking_request now addMonths decoded rq newId :
    step db (bookingRequestPost now addMonths decoded rq newId db).2
| step_user_booking now decoded rq newId :
    step db (userBookingsPost now decoded rq newId db).2
| step_owner_action now notified decoded bookingId action reason notes :
    step db (ownerBookingsPut now notified decoded bookingId action reason notes db).2.

(** Every request that writes to the store: the steps above, the renter's
    PUT (cancel, change of dates), the deletion of a house and the reading of
    a house's details. *)
Inductive anyStep (db : Db) : Db → Prop :=
| any_step db' : step db db' → anyStep db db'
| any_renter_update now decoded bookingId rq :
    anyStep db (userBookingsPut now decoded bookingId rq db).2
| any_house_delete now decoded houseId rq :
    anyStep db (houseDelete now decoded houseId rq db).2
| any_house_details now houseId decoded :
    anyStep db (houseDetailsGet now houseId decoded db).2.

(** How one request may change the document under id [j], from [o] to [o']:
    a document is never removed, and never changes house, renter or owner;
    a new document is pending; an existing one stays as it is, or, not being
    completed or cancelled yet, ends (rejected, cancelled, completed) with its
    dates, or stays pending (its dates may change), or is the pending booking
    [target] that becomes
    confirmed, with its dates, when no occupied booking of its house met its
    range clause in [m], the bookings before the request. *)
Definition docDelta (m : gmap N Booking) (target : option N) (j : N)
    (o o' : option Booking) : Prop :=
  match o, o' with
  | None, None => True
  | None, Some b' => status b' = pending
  | Some _, None => False
  | Some b, Some b' =>
    houseId b' = houseId b ∧ renterId b' = renterId b ∧ ownerId b' = ownerId b ∧
    (b' = b
     ∨ (status b ≠ completed ∧ status b ≠ cancelled ∧
        status b' ∈ [rejected; cancelled; completed] ∧
        checkInDate b' = checkInDate b ∧ checkOutDate b' = checkOutDate b)
     ∨ (status b = pending ∧ status b' = pending)
     ∨ (status b = pending ∧ status b' = confirmed ∧
        checkInDate b' = checkInDate b ∧ checkOutDate b' = checkOutDate b ∧
        target = Some j ∧
        ∀ k B, k ≠ j → m !! k = Some B → houseId B = houseId b → occupied B →
               ¬ (checkInDate B ≤ checkOutDate b ∧ checkInDate b ≤ checkOutDate B)))
  end.

(** A house that is closed: stored as deleted and inactive, with no pending,
    confirmed or active booking. *)
Definition closedHouse (hid : ObjectId) (db : Db) : Prop :=
  (∃ h, houses db !! hid = Some h ∧ house_status h = "deleted" ∧ isActive h = false) ∧
  ∀ j b, bookings db !! j = Some b → houseId b = hid →
         status b ∉ [pending; confirmed; active].

(** What a sequence of requests may have done to a document: it is still
    there, with its house, renter and owner; it is active only if it was;
    and it is untouched if it was completed or cancelled. *)
Definition docHistory (o o' : option Booking) : Prop :=
  match o, o' with
  | Some b, Some b' =>
    houseId b' = houseId b ∧ renterId b' = renterId b ∧ ownerId b' = ownerId b ∧
    (status b = active ∨ status b' ≠ active) ∧
    (status b = completed ∨ status b = cancelled → b' = b)
  | Some _, None => False
  | None, Some b' => status b' ≠ active
  | None, None => True
  end.

(** No two occupied bookings of one house meet each other's range clause. *)
Definition disjointOccupied (m : gmap N Booking) : Prop :=
  ∀ i j b1 b2,
    i ≠ j → m !! i = Some b1 → m !! j = Some b2 →
    houseId b1 = houseId b2 → occupied b1 → occupied b2 →
    ¬ (checkInDate b1 ≤ checkOutDate b2 ∧ checkInDate b2 ≤ checkOutDate b1).

(** What a creation handler can do to the store: nothing, or insert one
    pending document under a fresh id. *)
Definition insertsPending (db db' : Db) (newId : ObjectId) : Prop :=
  db' = db ∨
  ∃ doc, status doc = pending ∧ bookings db !! newId = None ∧
         db' = mkDb (<[newId := doc]> (bookings db)) (houses db) (users db).

(** The calendar a response carries, if any. *)
Definition calendarOf (r : Response) : option (list CalendarEntry) :=
  match body r with
  | DetailsBody _ calendar _ => Some calendar
  | _ => None
  end.

(** ** Sample data *)

(** Midnight UTC of the [n]-th of March 2025. *)
Definition march (n : Z) : Date := 1740787200000 + (n - 1) * msPerDay.

Definition sampleBooking (house owner renter : ObjectId) (checkIn checkOut : Date)
    (s : Status) : Booking :=
  {| houseId := house; ownerId := owner; renterId := renter;
     checkInDate := checkIn; checkOutDate := checkOut;
     status := s; statusHistory := []; updatedAt := march 1;
     confirmedAt := None; confirmedBy := None;
     rejectedAt := None; rejectionReason := None;
     cancelledAt := None; cancelledBy := None; cancellationReason := None;
     completedAt := None; completedBy := None; completionNotes := None |}.

Definition sampleHouse : House :=
  {| house_ownerId := 100; house_status := "approved"; isActive := true;
     isAvailable := true; price_amount := 45000; views := 0; viewedBy := [] |}.

Definition ownerToken : Token := mkToken 100 "owner".
Definition adminToken : Token := mkToken 900 "admin".
Definition renterToken : Token := mkToken 200 "renter".

(** House 7 with a confirmed stay 1 to 10 March and a pending request for
    10 to 15 March. *)
Definition abuttingDb : Db :=
  mkDb (<[1%N := sampleBooking 7 100 200 (march 1) (march 10) confirmed]>
        (<[2%N := sampleBooking 7 100 201 (march 10) (march 15) pending]> ∅))
    {[7%N := sampleHouse]} {[200%N; 201%N]}.

(** House 7 with four pending requests: 10 to 20 March, 20 to 25 March,
    12 to 14 March and 26 to 30 March. *)
Definition pendingDb : Db :=
  mkDb (<[1%N := sampleBooking 7 100 200 (march 10) (march 20) pending]>
        (<[2%N := sampleBooking 7 100 201 (march 20) (march 25) pending]>
         (<[3%N := sampleBooking 7 100 202 (march 12) (march 14) pending]>
          (<[4%N := sampleBooking 7 100 203 (march 26) (march 30) pending]> ∅))))
    {[7%N := sampleHouse]} {[200%N; 201%N; 202%N; 203%N]}.

(** [pendingDb] after the owner accepted request 1 on the 2nd of March, and
    then request 4 on the 3rd. *)
Definition acceptedOnce : Db :=
  (ownerBookingsPut (march 2) true (Some ownerToken) (Some 1%N) "accept" None None
     pendingDb).2.

Definition acceptedTwice : Db :=
  (ownerBookingsPut (march 3) true (Some ownerToken) (Some 4%N) "accept" None None
     acceptedOnce).2.

(** House 7 with one confirmed stay from the 6th to the 11th of March. *)
Definition calendarDb : Db :=
  mkDb {[1%N := sampleBooking 7 100 200 (march 6) (march 11) confirmed]}
    {[7%N := sampleHouse]} {[200%N]}.

(** House 7 with a completed, a rejected, a cancelled, a confirmed and a
    pending booking. *)
Definition settledDb : Db :=
  mkDb (<[1%N := sampleBooking 7 100 200 (march 1) (march 5) completed]>
        (<[2%N := sampleBooking 7 100 201 (march 6) (march 8) rejected]>
         (<[3%N := sampleBooking 7 100 202 (march 6) (march 8) cancelled]>
          (<[4%N := sampleBooking 7 100 200 (march 10) (march 15) confirmed]>
           (<[5%N := sampleBooking 7 100 201 (march 20) (march 25) pending]> ∅)))))
    {[7%N := sampleHouse]} {[200%N; 201%N; 202%N]}.

(** [settledDb] after renter 200 cancelled the confirmed booking 4, and then
    an admin deleted house 7 by force. *)
Definition renterCancelled : Db :=
  (userBookingsPut (march 2) (Some renterToken) (Some 4%N)
     (mkRenterUpdate "cancel" (Some "change of plans") None None) settledDb).2.

Definition houseDeleted : Db :=
  (houseDelete (march 3) (Some adminToken) (Some 7%N) (mkDeleteRequest true None)
     renterCancelled).2.

(** House 7 with no booking. *)
Definition emptyDb : Db := mkDb ∅ {[7%N := sampleHouse]} {[200%N]}.

(** ** admin-login, POST

    The handler works on the [users] collection only; of a user it reads and
    writes the fields below.  Its other writes, the entries of [system_logs]
    and the stored refresh token, are outside this model, and so are the two
    tokens of the 200 answer. *)

Module AdminLogin.

(** A user document.  [loginAttempts] and [lastFailedLogin] are [None] when
    the document has no such field. *)
Record Account := mkAccount {
  email : string;
  role : string;
  password : string;
  loginAttempts : option Z;
  lastFailedLogin : option Date;
  isSuspended : bool;
  isActive : bool;
  lastLogin : option Date;
  lastLoginIP : option string
}.

Record LoginBody := mkLoginBody {
  error : string;
  message : option string
}.

Inductive LoginAnswer :=
| LoginFailed (body : LoginBody)
| LoginSuccessful (adminId : ObjectId) (adminEmail : string) (at_ : Date).

Record LoginResponse := mkLoginResponse {
  l_statusCode : Z;
  l_body : LoginAnswer
}.

Definition MAX_LOGIN_ATTEMPTS : Z := 5.
Definition LOCKOUT_DURATION_MINUTES : Z := 30.

(** [!x] of a string read from the body: the key is missing or the string is
    empty. *)
Definition missing (x : option string) : bool :=
  match x with None => true | Some s => bool_decide (s = "") end.

(** [collection.findOne(q)]. *)
Definition findOne {A} (q : ObjectId → A → bool) (m : gmap N A) : option (N * A) :=
  head (find q m).

(** [collection.updateOne({_id}, u)]: [u] applied to the stored document. *)
Definition updateOne {A} (id : ObjectId) (u : A → A) (m : gmap N A) : gmap N A :=
  alter u id m.

(** [{email, role: 'admin'}]. *)
Definition adminQuery (e : string) (_ : ObjectId) (a : Account) : bool :=
  bool_decide (email a = e) && bool_decide (role a = "admin").

(** [{$set: {loginAttempts: 0}}]. *)
Definition resetAttempts (a : Account) : Account :=
  {| email := email a; role := role a; password := password a;
     loginAttempts := Some 0;
     lastFailedLogin := lastFailedLogin a;
     isSuspended := isSuspended a; isActive := isActive a;
     lastLogin := lastLogin a; lastLoginIP := lastLoginIP a |}.

(** [{$inc: {loginAttempts: 1}, $set: {lastFailedLogin: new Date()}}]; [$inc]
    of a missing field sets it to the increment. *)
Definition failedLogin (now : Date) (a : Account) : Account :=
  {| email := email a; role := role a; password := password a;
     loginAttempts := Some (default 0 (loginAttempts a) + 1);
     lastFailedLogin := Some now;
     isSuspended := isSuspended a; isActive := isActive a;
     lastLogin := lastLogin a; lastLoginIP := lastLoginIP a |}.

(** [{$set: {loginAttempts: 0, lastLogin: new Date(), lastLoginIP}}]. *)
Definition successfulLogin (now : Date) (ipAddress : string) (a : Account) : Account :=
  {| email := email a; role := role a; password := password a;
     loginAttempts := Some 0;
     lastFailedLogin := lastFailedLogin a;
     isSuspended := isSuspended a; isActive := isActive a;
     lastLogin := Some now; lastLoginIP := Some ipAddress |}.

(** [admin.loginAttempts >= MAX_LOGIN_ATTEMPTS]; false of a missing field. *)
Definition attemptsReached (a : Account) : bool :=
  match loginAttempts a with
  | Some n => MAX_LOGIN_ATTEMPTS <=? n
  | None => false
  end.

(** [lockoutTime]: [lastFailedLogin] plus the lockout, in milliseconds; of a
    missing field an invalid date, here [None]. *)
Definition lockoutTime (a : Account) : option Date :=
  (λ t, t + LOCKOUT_DURATION_MINUTES * 60000) <$> lastFailedLogin a.

(** [new Date() < lockoutTime]; false of an invalid date. *)
Definition stillLocked (now : Date) (a : Account) : bool :=
  match lockoutTime a with
  | Some l => now <? l
  | None => false
  end.

(** [Math.ceil((lockoutTime - new Date()) / 60000)]. *)
Definition minutesLeft (now : Date) (l : Date) : Z :=
  - ((- (l - now)) / 60000).

(** [MAX_LOGIN_ATTEMPTS - (admin.loginAttempts + 1)], computed from the
    document as it was read; of a missing field not a number, here [None]. *)
Definition remainingAttempts (a : Account) : option Z :=
  (λ n, MAX_LOGIN_ATTEMPTS - (n + 1)) <$> loginAttempts a.

Definition invalidPasswordMessage (remaining : option Z) : string :=
  match remaining with
  | Some r =>
    if 0 <? r then "Invalid password. " ++ pretty r ++ " attempts remaining."
    else "Invalid password. Account will be locked."
  | None => "Invalid password. Account will be locked."
  end.

Definition failed (code : Z) (e : string) (m : option string) : LoginResponse :=
  mkLoginResponse code (LoginFailed (mkLoginBody e m)).

Section Handler.
(** [bcrypt.compare] and [String.prototype.toLowerCase]. *)
Variable compare : string → string → bool.
Variable toLowerCase : string → string.
Variable now : Date.
Variable ipAddress : string.

(** The handler from the password check on; [admin] is the document as it
    was read, [users] the collection after the lock check. *)
Definition verifyPassword (id : ObjectId) (admin : Account) (p : string)
    (users : gmap N Account) : LoginResponse * gmap N Account :=
  if isSuspended admin then
    (failed 403 "Account suspended"
       (Some "Your admin account has been suspended. Contact system administrator."),
     users)
  else if negb (isActive admin) then
    (failed 403 "Account inactive" (Some "Your admin account is not active."), users)
  else if negb (compare p (password admin)) then
    (failed 401 "Invalid credentials"
       (Some (invalidPasswordMessage (remainingAttempts admin))),
     updateOne id (failedLogin now) users)
  else
    (mkLoginResponse 200 (LoginSuccessful id (email admin) now),
     updateOne id (successfulLogin now ipAddress) users).

Definition handler (e p : option string) (users : gmap N Account)
    : LoginResponse * gmap N Account :=
  match e, p with
  | Some e, Some p =>
    if missing (Some e) || missing (Some p) then
      (failed 400 "Email and password are required" None, users)
    else
      match findOne (adminQuery (toLowerCase e)) users with
      | None =>
        (failed 401 "Invalid credentials"
           (Some "Admin account not found or invalid credentials"), users)
      | Some (id, admin) =>
        if attemptsReached admin then
          if stillLocked now admin then
            (failed 423 "Account locked"
               (Some ("Too many failed login attempts. Please try again in "
                      ++ pretty (minutesLeft now (default 0 (lockoutTime admin)))
                      ++ " minutes.")),
             users)
          else verifyPassword id admin p (updateOne id resetAttempts users)
        else verifyPassword id admin p users
      end
  | _, _ => (failed 400 "Email and password are required" None, users)
  end.

End Handler.

(** The store after a run of login attempts for one email, each with its
    time and password. *)
Definition attempts (compare : string → string → bool) (toLowerCase : string → string)
    (ipAddress : string) (e : string) (tries : list (Date * string))
    (users : gmap N Account) : gmap N Account :=
  foldl (λ u t, (handler compare toLowerCase t.1 ipAddress (Some e) (Some t.2) u).2)
    users tries.

(** What a login never changes of an account. *)
Definition sameIdentity (a a' : Account) : Prop :=
  email a' = email a ∧ role a' = role a ∧ password a' = password a ∧
  isSuspended a' = isSuspended a ∧ isActive a' = isActive a.

(** Sample data: one admin whose password is [secret], compared in clear. *)
Definition sampleCompare (p h : string) : bool := bool_decide (p = h).
Definition sampleLower (s : string) : string := s.
Definition sampleAdmin (n : option Z) (t : option Date) : Account :=
  mkAccount "root@rentzone.lk" "admin" "secret" n t false true None None.
Definition sampleUsers (n : option Z) (t : option Date) : gmap N Account :=
  {[900%N := sampleAdmin n t]}.

End AdminLogin.

(** ** user-profile, GET and PUT

    The fields of a user the handler reads or writes; a body that parses,
    its fields strings where present. *)

Module UserProfile.

Record User := mkUser {
  email : string;
  role : string;
  password : string;
  firstName : option string;
  lastName : option string;
  phone : option string;
  profileImage : option string;
  isSuspended : bool;
  isActive : bool;
  updatedAt : option Date
}.

(** The request body; [None] is a key the body does not have. *)
Record Body := mkBody {
  b_firstName : option string;
  b_lastName : option string;
  b_phone : option string;
  b_profileImage : option string;
  currentPassword : option string;
  newPassword : option string
}.

(** The outcome of the [Authorization] header: no header, a header that does
    not start with [Bearer ], a token [jwt.verify] refuses as invalid or as
    expired, or the verified [userId]. *)
Inductive Auth :=
| NoHeader
| NoBearer
| JsonWebTokenError
| TokenExpiredError
| Verified (userId : ObjectId).

(** [userResponse]: the document without its password and flags. *)
Record UserResponse := mkUserResponse {
  r_id : ObjectId;
  r_email : string;
  r_role : string;
  r_firstName : option string;
  r_lastName : option string;
  r_phone : option string;
  r_profileImage : option string;
  r_updatedAt : option Date
}.

Inductive ProfileBody :=
| ProfileError (error message : string)
| ProfileOk (message : string) (user : UserResponse).

Record ProfileResponse := mkProfileResponse {
  p_statusCode : Z;
  p_body : ProfileBody
}.

Definition refused (code : Z) (e m : string) : ProfileResponse :=
  mkProfileResponse code (ProfileError e m).

Definition userResponse (id : ObjectId) (u : User) : UserResponse :=
  mkUserResponse id (email u) (role u) (firstName u) (lastName u) (phone u)
    (profileImage u) (updatedAt u).

(** The answers to a request whose token does not verify. *)
Definition unauthorized (auth : Auth) : ProfileResponse :=
  match auth with
  | NoHeader =>
    refused 401 "Unauthorized"
      "No authentication token provided. Please add Authorization header."
  | NoBearer => refused 401 "Unauthorized" "No authentication token provided"
  | JsonWebTokenError =>
    refused 401 "Invalid token" "The provided authentication token is invalid"
  | TokenExpiredError =>
    refused 401 "Token expired" "Your session has expired. Please log in again."
  | Verified _ => refused 401 "Unauthorized" "No authentication token provided"
  end.

Definition userNotFound : ProfileResponse :=
  refused 404 "User not found" "The requested user profile does not exist".

(** A string of the body in a condition: true unless missing or empty. *)
Definition truthy (x : option string) : bool :=
  match x with None => false | Some s => negb (bool_decide (s = "")) end.

(** [updateFields]: the keys to [$set]. *)
Record UpdateFields := mkUpdateFields {
  uf_firstName : option string;
  uf_lastName : option string;
  uf_phone : option string;
  uf_profileImage : option string;
  uf_password : option string
}.

(** The loop over [allowedFields]. *)
Definition allowed (body : Body) : UpdateFields :=
  mkUpdateFields (b_firstName body) (b_lastName body) (b_phone body)
    (b_profileImage body) None.

Definition withPassword (h : string) (uf : UpdateFields) : UpdateFields :=
  mkUpdateFields (uf_firstName uf) (uf_lastName uf) (uf_phone uf)
    (uf_profileImage uf) (Some h).

(** [Object.keys(updateFields).length === 0]. *)
Definition noKeys (uf : UpdateFields) : bool :=
  match uf_firstName uf, uf_lastName uf, uf_phone uf, uf_profileImage uf,
        uf_password uf with
  | None, None, None, None, None => true
  | _, _, _, _, _ => false
  end.

(** A key of [$set]: the new value if the key is there. *)
Definition setField (new : option string) (old : option string) : option string :=
  match new with Some v => Some v | None => old end.

(** [{$set: updateFields}], [updatedAt] included. *)
Definition set (now : Date) (uf : UpdateFields) (u : User) : User :=
  {| email := email u; role := role u;
     password := default (password u) (uf_password uf);
     firstName := setField (uf_firstName uf) (firstName u);
     lastName := setField (uf_lastName uf) (lastName u);
     phone := setField (uf_phone uf) (phone u);
     profileImage := setField (uf_profileImage uf) (profileImage u);
     isSuspended := isSuspended u; isActive := isActive u;
     updatedAt := Some now |}.

Definition profileGet (auth : Auth) (users : gmap N User) : ProfileResponse :=
  match auth with
  | Verified userId =>
    match users !! userId with
    | None => userNotFound
    | Some user =>
      if isSuspended user then
        refused 403 "Account suspended"
          "Your account has been suspended. Please contact support."
      else if negb (isActive user) then
        refused 403 "Account inactive"
          "Your account is not active. Please contact administrator."
      else
        mkProfileResponse 200
          (ProfileOk "Profile retrieved successfully" (userResponse userId user))
    end
  | _ => unauthorized auth
  end.

Section Put.
(** [bcrypt.compare], [bcrypt.hash(_, 10)] with the salt it draws, and the
    [length] of a string. *)
Variable compare : string → string → bool.
Variable hash : string → string.
Variable length : string → Z.
Variable now : Date.

(** The write and the answer, once [updateFields] is complete. *)
Definition update (userId : ObjectId) (uf : UpdateFields) (users : gmap N User)
    : ProfileResponse * gmap N User :=
  if noKeys uf then
    (refused 400 "No updates provided" "Please provide fields to update", users)
  else
    match users !! userId with
    | None => (userNotFound, users)
    | Some user =>
      (mkProfileResponse 200
         (ProfileOk "Profile updated successfully"
            (userResponse userId (set now uf user))),
       <[userId := set now uf user]> users)
    end.

Definition profilePut (auth : Auth) (body : option Body) (users : gmap N User)
    : ProfileResponse * gmap N User :=
  match auth with
  | Verified userId =>
    match body with
    | None => (refused 400 "Bad request" "Request body is required", users)
    | Some body =>
      if truthy (currentPassword body) && truthy (newPassword body) then
        match users !! userId with
        | None => (userNotFound, users)
        | Some user =>
          if negb (compare (default "" (currentPassword body)) (password user)) then
            (refused 401 "Invalid password" "Current password is incorrect", users)
          else if length (default "" (newPassword body)) <? 8 then
            (refused 400 "Password too short"
               "New password must be at least 8 characters long", users)
          else if compare (default "" (newPassword body)) (password user) then
            (refused 400 "Password unchanged"
               "New password must be different from current password", users)
          else
            update userId
              (withPassword (hash (default "" (newPassword body))) (allowed body))
              users
        end
      else if truthy (newPassword body) && negb (truthy (currentPassword body)) then
        (refused 400 "Missing current password"
           "Current password is required to set a new password", users)
      else update userId (allowed body) users
    end
  | _ => (unauthorized auth, users)
  end.

End Put.

(** What a profile update never changes of a user. *)
Definition sameAccount (u u' : User) : Prop :=
  email u' = email u ∧ role u' = role u ∧
  isSuspended u' = isSuspended u ∧ isActive u' = isActive u.

(** Sample data: passwords stored in clear, one suspended user. *)
Definition sampleCompare (p h : string) : bool := bool_decide (p = h).
Definition sampleHash (p : string) : string := p.
Definition sampleLength (s : string) : Z := Z.of_nat (String.length s).
Definition sampleUser (suspended : bool) : User :=
  mkUser "renter@rentzone.lk" "renter" "password1" (Some "Nimal") None None None
    suspended true None.
Definition sampleUsers (suspended : bool) : gmap N User :=
  {[200%N := sampleUser suspended]}.
Definition nameOnly (f : string) : Body :=
  mkBody (Some f) None None None None None.
Definition passwordOnly (c n : string) : Body :=
  mkBody None None None None (Some c) (Some n).

End UserProfile.

(** * Properties *)

(** ** Collections *)

Section Collections.
Context {A : Type}.
Implicit Types (m : gmap N A) (q : N → A → bool).

Lemma elem_of_find q m i d :
  (i, d) ∈ find q m ↔ m !! i = Some d ∧ q i d = true.
Proof.
  unfold find. rewrite list_elem_of_In, filter_In, <- list_elem_of_In.
  rewrite elem_of_map_to_list. reflexivity.
Qed.

Lemma find_nil q m :
  find q m = [] ↔ ∀ i d, m !! i = Some d → q i d = false.
Proof.
  split.
  - intros Hnil i d Hi. destruct (q i d) eqn:Hq; [|done].
    assert ((i, d) ∈ find q m) as Hin by (apply elem_of_find; done).
    rewrite Hnil in Hin. by apply not_elem_of_nil in Hin.
  - intros Hall. destruct (find q m) as [|[i d] l] eqn:Hf; [done|].
    assert ((i, d) ∈ find q m) as Hin by (rewrite Hf; left).
    apply elem_of_find in Hin as [Hi Hq]. rewrite (Hall _ _ Hi) in Hq. done.
Qed.

Lemma lookup_updateMany q (set : A → A) m i :
  updateMany q set m !! i = (λ d, if q i d then set d else d) <$> m !! i.
Proof. unfold updateMany. rewrite map_lookup_imap. by destruct (m !! i). Qed.

Lemma updateMany_ext q1 q2 (set : A → A) m :
  (∀ i d, m !! i = Some d → q1 i d = q2 i d) →
  updateMany q1 set m = updateMany q2 set m.
Proof.
  intros Hq. apply map_eq. intros i. rewrite !lookup_updateMany.
  destruct (m !! i) as [d|] eqn:Hi; [|done]. simpl. by rewrite (Hq i d).
Qed.

Lemma updateMany_none q (set : A → A) m :
  (∀ i d, m !! i = Some d → q i d = false) → updateMany q set m = m.
Proof.
  intros Hq. apply map_eq. intros i. rewrite lookup_updateMany.
  destruct (m !! i) as [d|] eqn:Hi; [|done]. simpl. by rewrite (Hq i d).
Qed.

Lemma insertOne_Some id (doc : A) m m' :
  insertOne id doc m = Some m' ↔ m !! id = None ∧ m' = <[id := doc]> m.
Proof.
  unfold insertOne. destruct (m !! id); split; try naive_solver.
Qed.
End Collections.

(** ** The overlap test *)

Lemma rangeClause_spec lo hi b :
  rangeClause lo hi b = true ↔ checkInDate b ≤ hi ∧ lo ≤ checkOutDate b.
Proof. unfold rangeClause. rewrite andb_true_iff. lia. Qed.

Lemma statusIn_spec l b : statusIn l b = true ↔ status b ∈ l.
Proof. unfold statusIn. apply bool_decide_eq_true. Qed.

Lemma overlapQuery_spec id booking statuses i b :
  overlapQuery id booking statuses i b = true ↔
  i ≠ id ∧ houseId b = houseId booking ∧ status b ∈ statuses ∧
  checkInDate b ≤ checkOutDate booking ∧ checkInDate booking ≤ checkOutDate b.
Proof.
  unfold overlapQuery.
  rewrite !andb_true_iff, !bool_decide_eq_true, statusIn_spec, rangeClause_spec.
  tauto.
Qed.

Lemma availabilityQuery_spec house checkIn checkOut i b :
  availabilityQuery house checkIn checkOut i b = true ↔
  houseId b = house ∧ status b ∈ [pending; confirmed; active] ∧
  checkInDate b ≤ checkOut ∧ checkIn ≤ checkOutDate b.
Proof.
  unfold availabilityQuery.
  rewrite !andb_true_iff, !bool_decide_eq_true, statusIn_spec, rangeClause_spec.
  tauto.
Qed.

Lemma occupied_iff b : occupied b ↔ status b = confirmed ∨ status b = active.
Proof. unfold occupied. rewrite !elem_of_cons, elem_of_nil. tauto. Qed.

(** ** The cascade *)

Lemma cascadeNotified_cascade now id booking m :
  cascadeNotified now id booking m = cascade now id booking m.
Proof.
  unfold cascadeNotified, cascade. case_bool_decide as Hnil.
  - symmetry. apply updateMany_none. by apply find_nil.
  - apply updateMany_ext. intros i d Hi.
    destruct (overlapQuery id booking [pending] i d) eqn:Hq.
    + apply bool_decide_eq_true. apply list_elem_of_fmap. exists (i, d).
      split; [done|]. by apply elem_of_find.
    + apply bool_decide_eq_false. intros Hin.
      apply list_elem_of_fmap in Hin as [[j d'] [-> Hin]].
      apply elem_of_find in Hin as [Hj Hq']. simpl in *. congruence.
Qed.

Lemma lookup_cascade now id booking m i :
  cascade now id booking m !! i =
  (λ d, if overlapQuery id booking [pending] i d then setRejected now d else d)
    <$> m !! i.
Proof. apply lookup_updateMany. Qed.

Lemma cascade_idemp now id booking m :
  cascade now id booking (cascade now id booking m) = cascade now id booking m.
Proof.
  apply updateMany_none. intros i d. rewrite lookup_cascade.
  destruct (m !! i) as [d0|]; [|done]. simpl. intros [= <-].
  destruct (overlapQuery id booking [pending] i d0) eqn:Hq; [|done].
  apply not_true_iff_false. rewrite overlapQuery_spec. simpl.
  rewrite list_elem_of_singleton. naive_solver.
Qed.

(** ** owner-bookings, PUT: the outcomes *)

Lemma findOwned_Some id owner m b :
  findOwned id owner m = Some b ↔ m !! id = Some b ∧ ownerId b = owner.
Proof.
  unfold findOwned. destruct (m !! id) as [b'|]; [|split; [done|by intros [? _]]].
  destruct (decide (ownerId b' = owner)); split; intros H; try done.
  - by injection H as ->.
  - by destruct H as [[= ->] _].
  - by destruct H as [[= ->] ?].
Qed.

Lemma findOwned_None id owner m :
  findOwned id owner m = None ↔ ∀ b, m !! id = Some b → ownerId b ≠ owner.
Proof.
  unfold findOwned. destruct (m !! id) as [b'|]; [|by split].
  destruct (decide (ownerId b' = owner)) as [Ho|Ho]; split; try done.
  - intros H. by destruct (H b' eq_refl).
  - by intros _ b [= <-].
Qed.

Lemma includes_true l s : includes l s = true ↔ s ∈ l.
Proof. apply bool_decide_eq_true. Qed.

Lemma validActions_cases action :
  action ∈ validActions ↔
  action = "accept" ∨ action = "reject" ∨ action = "cancel" ∨ action = "complete".
Proof. unfold validActions. rewrite !elem_of_cons, elem_of_nil. tauto. Qed.

(** The status an accepted action writes. *)
Lemma buildUpdate_status now caller action reason notes booking :
  action ∈ validActions →
  u_status (buildUpdate now caller action reason notes booking) =
    if decide (action = "accept") then confirmed
    else if decide (action = "reject") then rejected
    else if decide (action = "cancel") then cancelled
    else completed.
Proof.
  intros Hv. apply validActions_cases in Hv.
  destruct Hv as [-> | [-> | [-> | ->]]]; reflexivity.
Qed.

Lemma buildUpdate_occupied now caller action reason notes booking :
  action ∈ validActions →
  u_status (buildUpdate now caller action reason notes booking) ∈ [confirmed; active] →
  action = "accept".
Proof.
  intros Hv. apply validActions_cases in Hv.
  destruct Hv as [-> | [-> | [-> | ->]]]; [done| | |];
    simpl; rewrite !elem_of_cons, elem_of_nil; naive_solver.
Qed.

Lemma not_privileged tok :
  (role tok ≠ "owner" ∧ role tok ≠ "admin") ↔ ¬ privileged tok.
Proof.
  unfold privileged.
  destruct (decide (role tok = "owner")), (decide (role tok = "admin")); tauto.
Qed.

(** Every run of the handler either writes nothing, or is an accepted
    transition of a booking [A] found for the caller: the conditional write
    of [A], followed for an accept by the cascade. *)
Lemma ownerBookingsPut_cases now notified decoded bookingId action reason notes db :
  let r := ownerBookingsPut now notified decoded bookingId action reason notes db in
  (r.2 = db ∧ statusCode r.1 ≠ 200) ∨
  ∃ tok id A,
    decoded = Some tok ∧ bookingId = Some id ∧ privileged tok ∧
    findOwned id (userId tok) (bookings db) = Some A ∧
    action ∈ validActions ∧ action ∈ stateTransition (status A) ∧
    statusCode r.1 = 200 ∧
    let u := buildUpdate now (userId tok) action reason notes A in
    (action = "accept" ∧
     find (overlapQuery id A [confirmed; active]) (bookings db) = [] ∧
     r.2 = mkDb (cascade now id A (<[id := applySet u A]> (bookings db)))
             (houses db) (users db))
    ∨ (action ≠ "accept" ∧
       r.2 = mkDb (<[id := applySet u A]> (bookings db)) (houses db) (users db)).
Proof.
  unfold ownerBookingsPut.
  destruct decoded as [tok|]; [|by left].
  case_bool_decide as Hrole; [by left|].
  rewrite not_privileged in Hrole. apply dec_stable in Hrole.
  destruct bookingId as [id|]; [|by left].
  destruct (includes validActions action) eqn:Hvalid; simpl; [|by left].
  apply includes_true in Hvalid.
  destruct (findOwned id (userId tok) (bookings db)) as [A|] eqn:Hfind; [|by left].
  destruct (includes (stateTransition (status A)) action) eqn:Htrans; simpl; [|by left].
  apply includes_true in Htrans.
  unfold findOneAndUpdate. rewrite Hfind.
  destruct (decide (action = "accept")) as [Hacc|Hacc].
  - case_bool_decide as Hnil; simpl; [|by left].
    right. exists tok, id, A. repeat (split; [done|]). left.
    repeat (split; [done|]). simpl.
    rewrite (bool_decide_eq_true_2 _ Hacc), cascadeNotified_cascade.
    destruct notified; simpl; [|done]. by rewrite cascade_idemp.
  - rewrite (bool_decide_eq_true_2 ([] = []) eq_refl). simpl.
    right. exists tok, id, A. repeat (split; [done|]). right.
    split; [done|]. simpl. rewrite (bool_decide_eq_false_2 _ Hacc), andb_false_r. done.
Qed.

Section Accept.
Variables (now : Date) (notified : bool) (tok : Token) (id : ObjectId).
Variables (reason notes : option string) (db : Db) (A : Booking).
Hypothesis Hrole : privileged tok.
Hypothesis Hfound : bookings db !! id = Some A.
Hypothesis Howner : ownerId A = userId tok.

Let accept := ownerBookingsPut now notified (Some tok) (Some id) "accept" reason notes db.
Let conflicts := find (overlapQuery id A [confirmed; active]) (bookings db).

Lemma accept_reaches_lookup :
  accept =
    if negb (includes (stateTransition (status A)) "accept") then
      (mkResponse 400
         (ErrorBody ("Cannot accept booking with status: " +:+ status_name (status A))),
       db)
    else if negb (bool_decide (conflicts = [])) then
      (mkResponse 409
         (ConflictBody
            "Cannot accept booking due to date conflicts with existing bookings"
            (conflictOf <$> conflicts)), db)
    else
      let u := buildUpdate now (userId tok) "accept" reason notes A in
      (mkResponse 200
         (UpdatedBody "Booking request accepted" (Some (applySet u A)) "accept" confirmed),
       mkDb (cascade now id A (<[id := applySet u A]> (bookings db)))
         (houses db) (users db)).
Proof.
  subst accept conflicts. unfold ownerBookingsPut.
  rewrite bool_decide_eq_false_2 by (by rewrite not_privileged; intros []).
  assert (findOwned id (userId tok) (bookings db) = Some A) as Hf
    by (by apply findOwned_Some).
  rewrite Hf. simpl.
  destruct (includes (stateTransition (status A)) "accept"); simpl; [|done].
  case_bool_decide; simpl; [|done].
  unfold findOneAndUpdate. rewrite Hf. rewrite cascadeNotified_cascade.
  destruct notified; simpl; [|done]. by rewrite cascade_idemp.
Qed.

Lemma accept_pending_conflict :
  status A = pending → conflicts ≠ [] →
  accept =
    (mkResponse 409
       (ConflictBody
          "Cannot accept booking due to date conflicts with existing bookings"
          (conflictOf <$> conflicts)), db).
Proof.
  intros Hst Hc. rewrite accept_reaches_lookup, Hst. simpl.
  by rewrite bool_decide_eq_false_2.
Qed.

Lemma accept_pending_ok :
  status A = pending → conflicts = [] →
  accept =
    let u := buildUpdate now (userId tok) "accept" reason notes A in
    (mkResponse 200
       (UpdatedBody "Booking request accepted" (Some (applySet u A)) "accept" confirmed),
     mkDb (cascade now id A (<[id := applySet u A]> (bookings db)))
       (houses db) (users db)).
Proof.
  intros Hst Hc. rewrite accept_reaches_lookup, Hst. simpl.
  by rewrite bool_decide_eq_true_2.
Qed.

Lemma accept_not_pending :
  status A ≠ pending →
  accept =
    (mkResponse 400
       (ErrorBody ("Cannot accept booking with status: " +:+ status_name (status A))),
     db).
Proof.
  intros Hst. rewrite accept_reaches_lookup. by destruct (status A).
Qed.
End Accept.

(** ** Owner actions: scoping and transition errors *)

(** C10: a status update (accept, reject, cancel, complete) on an id for
    which the store holds no booking owned by the caller is answered with
    404 "Booking not found" and writes nothing; callers with the admin role
    are treated like owners. *)
Theorem status_update_scoped_to_owner now notified tok id action reason notes db :
  privileged tok →
  action ∈ validActions →
  (∀ b, bookings db !! id = Some b → ownerId b ≠ userId tok) →
  ownerBookingsPut now notified (Some tok) (Some id) action reason notes db =
    (mkResponse 404 (ErrorBody "Booking not found"), db).
Proof.
  intros Hrole Hvalid Hnone. unfold ownerBookingsPut.
  rewrite bool_decide_eq_false_2 by (by rewrite not_privileged; intros []).
  apply includes_true in Hvalid. rewrite Hvalid. simpl.
  apply findOwned_None in Hnone. by rewrite Hnone.
Qed.

Lemma status_update_scoped_to_owner_witness :
  ownerBookingsPut (march 2) true (Some adminToken) (Some 2%N) "accept" None None
    abuttingDb
  = (mkResponse 404 (ErrorBody "Booking not found"), abuttingDb).
Proof.
  apply status_update_scoped_to_owner.
  - right. reflexivity.
  - apply validActions_cases. left. reflexivity.
  - intros b Hb. vm_compute in Hb. injection Hb as <-. vm_compute. discriminate.
Defined.

(** C6: an attempt to accept a booking whose status is not pending fails
    and leaves the database as it was, whoever makes it; from the booking's
    owner (role owner or admin) the answer is 400 with the message "Cannot
    accept booking with status: <status>", which names the attempted action
    and the current status. *)
Theorem accept_non_pending_is_invalid_transition now notified decoded id reason notes db b :
  bookings db !! id = Some b →
  status b ≠ pending →
  (ownerBookingsPut now notified decoded (Some id) "accept" reason notes db).2 = db ∧
  statusCode (ownerBookingsPut now notified decoded (Some id) "accept" reason notes db).1
    ≠ 200 ∧
  ∀ tok, decoded = Some tok → privileged tok → ownerId b = userId tok →
    (ownerBookingsPut now notified decoded (Some id) "accept" reason notes db).1 =
      mkResponse 400
        (ErrorBody ("Cannot " +:+ "accept" +:+ " booking with status: "
                    +:+ status_name (status b))).
Proof.
  intros Hb Hst.
  assert ((ownerBookingsPut now notified decoded (Some id) "accept" reason notes db).2 = db
          ∧ statusCode
              (ownerBookingsPut now notified decoded (Some id) "accept" reason notes db).1
            ≠ 200) as [Hdb Hcode].
  { destruct (ownerBookingsPut_cases now notified decoded (Some id) "accept" reason notes db)
      as [Hfail | (tok & id' & A & _ & [= <-] & _ & Hfound & _ & Htrans & _)]; [done|].
    apply findOwned_Some in Hfound as [Hfound _].
    rewrite Hb in Hfound. injection Hfound as <-.
    destruct (status b); try done; simpl in Htrans;
      rewrite ?elem_of_cons, ?elem_of_nil in Htrans; naive_solver. }
  repeat split; [done..|].
  intros tok -> Hrole Howner.
  by rewrite (accept_not_pending now notified tok id reason notes db b).
Qed.

Lemma accept_non_pending_is_invalid_transition_witness :
  (ownerBookingsPut (march 2) true (Some ownerToken) (Some 1%N) "accept" None None
     abuttingDb).1
  = mkResponse 400 (ErrorBody "Cannot accept booking with status: confirmed").
Proof.
  destruct (accept_non_pending_is_invalid_transition (march 2) true (Some ownerToken) 1
              None None abuttingDb (sampleBooking 7 100 200 (march 1) (march 10) confirmed))
    as (_ & _ & Hresp).
  - vm_compute. reflexivity.
  - discriminate.
  - apply (Hresp ownerToken); [reflexivity | left; reflexivity | reflexivity].
Defined.

(** ** Accepting: the conflict check *)

(** C4, as the handler has it: accepting a pending booking of the caller
    is answered with 409 exactly when another booking of the same house
    that is confirmed or active meets the range clause for the dates of the
    accepted booking; pending bookings are not consulted.  The 409 response
    lists those bookings (id, check-in, check-out, status) and the database
    is left as it was. *)
Theorem accept_conflict_iff_occupied_overlap now notified tok id reason notes db A :
  privileged tok →
  bookings db !! id = Some A →
  ownerId A = userId tok →
  status A = pending →
  let r := ownerBookingsPut now notified (Some tok) (Some id) "accept" reason notes db in
  let conflicting j B :=
    j ≠ id ∧ bookings db !! j = Some B ∧ houseId B = houseId A ∧ occupied B ∧
    checkInDate B ≤ checkOutDate A ∧ checkInDate A ≤ checkOutDate B in
  (statusCode r.1 = 409 ↔ ∃ j B, conflicting j B) ∧
  (statusCode r.1 = 409 →
     r.2 = db ∧
     ∃ l, body r.1 =
            ConflictBody
              "Cannot accept booking due to date conflicts with existing bookings" l ∧
          ∀ c, c ∈ l ↔
               ∃ j B, conflicting j B ∧
                      c = mkConflict j (checkInDate B) (checkOutDate B) (status B)).
Proof.
  intros Hrole Hfound Howner Hpending r conflicting.
  set (conflicts := find (overlapQuery id A [confirmed; active]) (bookings db)).
  assert (∀ j B, (j, B) ∈ conflicts ↔ conflicting j B) as Hin.
  { intros j B. subst conflicts conflicting. rewrite elem_of_find, overlapQuery_spec.
    unfold occupied. tauto. }
  destruct (decide (conflicts = [])) as [Hnil|Hcons].
  - assert (statusCode r.1 = 200) as Hok
      by (subst r; rewrite (accept_pending_ok now notified tok id reason notes db A); done).
    split.
    + split; [rewrite Hok; discriminate|].
      intros (j & B & Hc). apply Hin in Hc. rewrite Hnil in Hc.
      by apply not_elem_of_nil in Hc.
    + rewrite Hok. discriminate.
  - assert (r = (mkResponse 409
                   (ConflictBody
                      "Cannot accept booking due to date conflicts with existing bookings"
                      (conflictOf <$> conflicts)), db)) as Hr
      by (subst r; apply accept_pending_conflict; done).
    rewrite Hr. simpl. split.
    + split; [|done]. intros _.
      destruct conflicts as [|[j B] l] eqn:Hc; [done|].
      exists j, B. apply Hin. left.
    + intros _. split; [done|]. eexists. split; [done|].
      intros c. rewrite list_elem_of_fmap. split.
      * intros ([j B] & -> & Hc). exists j, B. split; [by apply Hin|done].
      * intros (j & B & Hc & ->). exists (j, B). split; [done|by apply Hin].
Qed.

Lemma accept_conflict_iff_occupied_overlap_witness :
  (ownerBookingsPut (march 2) true (Some ownerToken) (Some 2%N) "accept" None None
     abuttingDb).2 = abuttingDb.
Proof.
  destruct (accept_conflict_iff_occupied_overlap (march 2) true ownerToken 2 None None
              abuttingDb (sampleBooking 7 100 201 (march 10) (march 15) pending))
    as [_ Hconflict].
  - left. reflexivity.
  - vm_compute. reflexivity.
  - reflexivity.
  - reflexivity.
  - apply Hconflict. vm_compute. reflexivity.
Defined.

(** C4, as the claim has it, fails: a pending request for 12 to 14 March
    lies inside the accepted request for 10 to 20 March, and the accept is
    answered with 200, not with a conflict. *)
Lemma accept_ignores_pending_overlap :
  bookings pendingDb !! 3%N
    = Some (sampleBooking 7 100 202 (march 12) (march 14) pending) ∧
  (march 10 < march 14 ∧ march 12 < march 20) ∧
  statusCode
    (ownerBookingsPut (march 2) true (Some ownerToken) (Some 1%N) "accept" None None
       pendingDb).1 = 200 ∧
  status <$>
    bookings (ownerBookingsPut (march 2) true (Some ownerToken) (Some 1%N) "accept"
                None None pendingDb).2 !! 1%N = Some confirmed.
Proof. vm_compute. repeat split; reflexivity. Qed.

(** C1, as the handler has it: every overlap query (creation, accept,
    cascade) carries the closed range clause [checkIn ≤ hi ∧ lo ≤ checkOut].
    A confirmed or active booking of the same house that meets the clause of
    the accepted booking is a conflict: the accept is answered with 409 and
    writes nothing.  In particular, when each of the two bookings has its
    check-in not after its check-out, a booking whose check-out is the
    check-in of the accepted one, or whose check-in is its check-out, is such
    a conflict.  (The handlers do not compare check-in and check-out; see
    [inverted_abutting_accept_succeeds] for a range stored backwards.) *)
Theorem abutting_bookings_conflict now notified tok id reason notes db A j B :
  privileged tok →
  bookings db !! id = Some A →
  ownerId A = userId tok →
  status A = pending →
  j ≠ id →
  bookings db !! j = Some B →
  houseId B = houseId A →
  occupied B →
  (∀ lo hi b, rangeClause lo hi b = true ↔ checkInDate b ≤ hi ∧ lo ≤ checkOutDate b) ∧
  (checkInDate B ≤ checkOutDate A ∧ checkInDate A ≤ checkOutDate B →
   availabilityQuery (houseId A) (checkInDate A) (checkOutDate A) j B = true ∧
   overlapQuery id A [confirmed; active] j B = true ∧
   (∀ B', status B' = pending → houseId B' = houseId B →
          checkInDate B' = checkInDate B → checkOutDate B' = checkOutDate B →
          overlapQuery id A [pending] j B' = true) ∧
   statusCode
     (ownerBookingsPut now notified (Some tok) (Some id) "accept" reason notes db).1
     = 409 ∧
   (ownerBookingsPut now notified (Some tok) (Some id) "accept" reason notes db).2 = db) ∧
  (checkInDate A ≤ checkOutDate A →
   checkInDate B ≤ checkOutDate B →
   checkOutDate B = checkInDate A ∨ checkOutDate A = checkInDate B →
   statusCode
     (ownerBookingsPut now notified (Some tok) (Some id) "accept" reason notes db).1
     = 409 ∧
   (ownerBookingsPut now notified (Some tok) (Some id) "accept" reason notes db).2 = db).
Proof.
  intros Hrole Hfound Howner Hpending Hne HB Hhouse Hocc.
  assert (checkInDate B ≤ checkOutDate A ∧ checkInDate A ≤ checkOutDate B →
          statusCode
            (ownerBookingsPut now notified (Some tok) (Some id) "accept" reason notes
               db).1 = 409 ∧
          (ownerBookingsPut now notified (Some tok) (Some id) "accept" reason notes
             db).2 = db) as Hrefused.
  { intros Hclosed.
    assert ((j, B) ∈ find (overlapQuery id A [confirmed; active]) (bookings db)) as Hin.
    { apply elem_of_find. split; [done|]. by apply overlapQuery_spec. }
    rewrite (accept_pending_conflict now notified tok id reason notes db A); [done..|].
    intros Hnil. rewrite Hnil in Hin. by apply not_elem_of_nil in Hin. }
  split; [apply rangeClause_spec|]. split.
  - intros Hclosed. split.
    { apply availabilityQuery_spec. unfold occupied in Hocc.
      rewrite !elem_of_cons in *. tauto. }
    split; [by apply overlapQuery_spec|].
    split; [|by apply Hrefused].
    intros B' Hst Hh Hi Ho. apply overlapQuery_spec.
    rewrite Hst, Hh, Hi, Ho, list_elem_of_singleton. tauto.
  - intros HA_le HB_le Habut. apply Hrefused. lia.
Qed.

Lemma abutting_bookings_conflict_witness :
  (ownerBookingsPut (march 2) true (Some ownerToken) (Some 2%N) "accept" None None
     abuttingDb).2 = abuttingDb ∧
  statusCode
    (ownerBookingsPut (march 2) true (Some ownerToken) (Some 2%N) "accept" None None
       abuttingDb).1 = 409.
Proof.
  destruct (abutting_bookings_conflict (march 2) true ownerToken 2 None None abuttingDb
              (sampleBooking 7 100 201 (march 10) (march 15) pending) 1
              (sampleBooking 7 100 200 (march 1) (march 10) confirmed))
    as (_ & _ & Habut).
  - left. reflexivity.
  - vm_compute. reflexivity.
  - reflexivity.
  - reflexivity.
  - discriminate.
  - vm_compute. reflexivity.
  - reflexivity.
  - apply occupied_iff. left. reflexivity.
  - destruct Habut as [Hcode Hdb].
    + vm_compute. discriminate.
    + vm_compute. discriminate.
    + left. reflexivity.
    + split; assumption.
Defined.

(** The order of check-in and check-out matters to the above.  A request for
    the 10th of March with a duration of -3 days is stored as the range from
    the 10th back to the 7th; beside a confirmed stay from the 8th to the
    10th it does not meet the closed clause, although its check-in is the
    check-out of the stay, and accepting it is answered with 200. *)
Lemma inverted_abutting_accept_succeeds :
  let db :=
    mkDb (<[1%N := sampleBooking 7 100 200 (march 8) (march 10) confirmed]>
          (<[2%N := sampleBooking 7 100 201 (march 10) (march 7) pending]> ∅))
      {[7%N := sampleHouse]} {[200%N; 201%N]} in
  statusCode
    (ownerBookingsPut (march 2) true (Some ownerToken) (Some 2%N) "accept" None None
       db).1 = 200 ∧
  status <$>
    bookings (ownerBookingsPut (march 2) true (Some ownerToken) (Some 2%N) "accept"
                None None db).2 !! 2%N = Some confirmed.
Proof. vm_compute. split; reflexivity. Qed.

(** C1, as the claim has it, fails: the stay 1 to 10 March and the request
    10 to 15 March do not overlap as half-open ranges, the handler's filter
    matches the stay all the same, and accepting the request is refused. *)
Lemma abutting_accept_is_refused :
  ¬ (march 10 < march 10 ∧ march 1 < march 15) ∧
  overlapQuery 2 (sampleBooking 7 100 201 (march 10) (march 15) pending)
    [confirmed; active] 1 (sampleBooking 7 100 200 (march 1) (march 10) confirmed) = true ∧
  ownerBookingsPut (march 2) true (Some ownerToken) (Some 2%N) "accept" None None
    abuttingDb
  = (mkResponse 409
       (ConflictBody "Cannot accept booking due to date conflicts with existing bookings"
          [mkConflict 1 (march 1) (march 10) confirmed]),
     abuttingDb).
Proof.
  split; [intros [H _]; revert H; apply Z.lt_irrefl|].
  split; vm_compute; reflexivity.
Qed.

(** ** Accepting: the auto-rejection *)

Lemma setRejected_statusHistory now b :
  statusHistory (setRejected now b) = statusHistory b.
Proof. reflexivity. Qed.

(** C3, as the handler has it: when accepting a pending booking [A]
    succeeds, [A] is confirmed, and every other booking [B] is rewritten
    according to the cascade filter: if [B] is pending, of the same house, and
    meets the closed range clause for the dates of [A], it becomes rejected
    with the reason "Dates no longer available (booking accepted for another
    renter)", its house and dates kept; otherwise [B] is left as it was. *)
Theorem accept_rejects_overlapping_pending now notified tok id reason notes db A j B :
  privileged tok →
  bookings db !! id = Some A →
  ownerId A = userId tok →
  status A = pending →
  statusCode
    (ownerBookingsPut now notified (Some tok) (Some id) "accept" reason notes db).1 = 200 →
  j ≠ id →
  bookings db !! j = Some B →
  let db' := (ownerBookingsPut now notified (Some tok) (Some id) "accept" reason notes db).2 in
  let matched :=
    houseId B = houseId A ∧ status B = pending ∧
    checkInDate B ≤ checkOutDate A ∧ checkInDate A ≤ checkOutDate B in
  status <$> bookings db' !! id = Some confirmed ∧
  (matched →
     ∃ B', bookings db' !! j = Some B' ∧ status B' = rejected ∧
           rejectionReason B' =
             Some "Dates no longer available (booking accepted for another renter)" ∧
           houseId B' = houseId B ∧ renterId B' = renterId B ∧
           checkInDate B' = checkInDate B ∧ checkOutDate B' = checkOutDate B) ∧
  (¬ matched → bookings db' !! j = Some B).
Proof.
  intros Hrole Hfound Howner Hpending Hok Hne HB db' matched.
  assert (find (overlapQuery id A [confirmed; active]) (bookings db) = []) as Hnil.
  { destruct (decide (find (overlapQuery id A [confirmed; active]) (bookings db) = []))
      as [|Hcons]; [done|].
    rewrite (accept_pending_conflict now notified tok id reason notes db A) in Hok; done. }
  subst db'.
  rewrite (accept_pending_ok now notified tok id reason notes db A) by done.
  simpl. rewrite !lookup_cascade, lookup_insert_eq, lookup_insert_ne, HB by done.
  simpl. split.
  { replace (overlapQuery id A [pending] id _) with false; [done|].
    symmetry. apply not_true_iff_false. rewrite overlapQuery_spec. tauto. }
  assert (overlapQuery id A [pending] j B = true ↔ matched) as Hq.
  { subst matched. rewrite overlapQuery_spec, list_elem_of_singleton. tauto. }
  split.
  - intros Hm. apply Hq in Hm. rewrite Hm. eexists. split; [done|]. done.
  - intros Hm. destruct (overlapQuery id A [pending] j B); [|done].
    exfalso. apply Hm, Hq. done.
Qed.

Lemma accept_rejects_overlapping_pending_witness :
  bookings
    (ownerBookingsPut (march 2) true (Some ownerToken) (Some 1%N) "accept" None None
       pendingDb).2 !! 4%N
  = Some (sampleBooking 7 100 203 (march 26) (march 30) pending).
Proof.
  destruct (accept_rejects_overlapping_pending (march 2) true ownerToken 1 None None
              pendingDb (sampleBooking 7 100 200 (march 10) (march 20) pending) 4
              (sampleBooking 7 100 203 (march 26) (march 30) pending))
    as (_ & _ & Hkept).
  - left. reflexivity.
  - vm_compute. reflexivity.
  - reflexivity.
  - reflexivity.
  - vm_compute. reflexivity.
  - discriminate.
  - vm_compute. reflexivity.
  - apply Hkept. intros (_ & _ & Hle & _). vm_compute in Hle. apply Hle. reflexivity.
Defined.

(** C3, as the claim has it, fails: the pending request for 20 to 25 March
    does not overlap the accepted request for 10 to 20 March as a half-open
    range, and it is not left unchanged: the cascade rejects it. *)
Lemma abutting_pending_is_rejected :
  bookings pendingDb !! 2%N
    = Some (sampleBooking 7 100 201 (march 20) (march 25) pending) ∧
  ¬ (march 10 < march 25 ∧ march 20 < march 20) ∧
  statusCode
    (ownerBookingsPut (march 2) true (Some ownerToken) (Some 1%N) "accept" None None
       pendingDb).1 = 200 ∧
  status <$>
    bookings (ownerBookingsPut (march 2) true (Some ownerToken) (Some 1%N) "accept"
                None None pendingDb).2 !! 2%N = Some rejected.
Proof.
  split; [vm_compute; reflexivity|].
  split; [intros [_ H]; revert H; apply Z.lt_irrefl|].
  split; vm_compute; reflexivity.
Qed.

(** The overlapping request for 12 to 14 March is rejected by the same
    accept, and its [statusHistory] is as it was. *)
Lemma cascade_leaves_history :
  (λ b, (status b, statusHistory b)) <$>
    bookings (ownerBookingsPut (march 2) true (Some ownerToken) (Some 1%N) "accept"
                None None pendingDb).2 !! 3%N = Some (rejected, []).
Proof. vm_compute. reflexivity. Qed.

(** ** Accepting: the write *)

Lemma findOneAndUpdate_other id owner u m j :
  j ≠ id → (findOneAndUpdate id owner u m).1 !! j = m !! j.
Proof.
  intros Hne. unfold findOneAndUpdate. destruct (findOwned id owner m); simpl; [|done].
  by rewrite lookup_insert_ne.
Qed.

Lemma findOneAndUpdate_not_owned id owner u m :
  (∀ b, m !! id = Some b → ownerId b ≠ owner) → findOneAndUpdate id owner u m = (m, None).
Proof.
  intros Hno. unfold findOneAndUpdate. apply findOwned_None in Hno. by rewrite Hno.
Qed.

(** C5, as the handler has it: the write that confirms a booking filters on
    [_id] and [ownerId] only.  Whatever the stored status of the caller's
    booking is when the write runs, its status becomes confirmed; the
    documents under other ids are not touched.  ([snapshot] is the document
    the handler read earlier, on which it checked the status.) *)
Theorem confirmation_write_ignores_stored_status now caller reason notes snapshot id m b :
  m !! id = Some b →
  ownerId b = caller →
  status <$>
    (findOneAndUpdate id caller (buildUpdate now caller "accept" reason notes snapshot) m).1
      !! id = Some confirmed ∧
  ∀ j, j ≠ id →
    (findOneAndUpdate id caller (buildUpdate now caller "accept" reason notes snapshot) m).1
      !! j = m !! j.
Proof.
  intros Hb Ho. split; [|intros j Hne; by apply findOneAndUpdate_other].
  unfold findOneAndUpdate.
  rewrite (proj2 (findOwned_Some id caller m b)) by done.
  simpl. by rewrite lookup_insert_eq.
Qed.

Lemma confirmation_write_ignores_stored_status_witness :
  status <$>
    (findOneAndUpdate 1 100
       (buildUpdate (march 2) 100 "accept" None None
          (sampleBooking 7 100 200 (march 10) (march 20) pending))
       {[1%N := sampleBooking 7 100 200 (march 10) (march 20) cancelled]}).1 !! 1%N
  = Some confirmed.
Proof.
  apply (confirmation_write_ignores_stored_status (march 2) 100 None None
           (sampleBooking 7 100 200 (march 10) (march 20) pending) 1
           {[1%N := sampleBooking 7 100 200 (march 10) (march 20) cancelled]}
           (sampleBooking 7 100 200 (march 10) (march 20) cancelled)).
  - vm_compute. reflexivity.
  - reflexivity.
Defined.

(** C5, as the claim has it, fails: the booking was read while pending and
    has been cancelled since; the write built from that read turns the stored
    status from cancelled to confirmed. *)
Lemma confirmation_write_overwrites_cancelled :
  status <$>
    ({[1%N := sampleBooking 7 100 200 (march 10) (march 20) cancelled]} : gmap N Booking)
      !! 1%N = Some cancelled ∧
  status <$>
    (findOneAndUpdate 1 100
       (buildUpdate (march 2) 100 "accept" None None
          (sampleBooking 7 100 200 (march 10) (march 20) pending))
       {[1%N := sampleBooking 7 100 200 (march 10) (march 20) cancelled]}).1 !! 1%N
  ≠ Some cancelled.
Proof. split; [vm_compute; reflexivity|]. vm_compute. discriminate. Qed.

(** ** Occupied bookings never overlap *)

Lemma bookingRequestPost_inserts now addMonths decoded rq newId db :
  insertsPending db (bookingRequestPost now addMonths decoded rq newId db).2 newId.
Proof.
  unfold bookingRequestPost.
  repeat (case_match; simpl; try (by left)).
  match goal with
  | H : insertOne _ _ _ = Some _ |- _ => apply insertOne_Some in H as [Hfresh ->]
  end.
  right. eexists. split; [|split; [exact Hfresh|reflexivity]]. reflexivity.
Qed.

Lemma userBookingsPost_inserts now decoded rq newId db :
  insertsPending db (userBookingsPost now decoded rq newId db).2 newId.
Proof.
  unfold userBookingsPost.
  repeat (case_match; simpl; try (by left)).
  match goal with
  | H : insertOne _ _ _ = Some _ |- _ => apply insertOne_Some in H as [Hfresh ->]
  end.
  right. eexists. split; [|split; [exact Hfresh|reflexivity]]. reflexivity.
Qed.

(** Where the occupied bookings of the next state come from: an occupied
    booking was occupied already, with the same house and dates, or it is the
    one booking [target] the step confirmed, and then no occupied booking of
    its house met its range clause before the step. *)
Lemma step_occupied_origin db db' :
  step db db' →
  ∃ target : option N,
    ∀ j b', bookings db' !! j = Some b' → occupied b' →
      ∃ b, bookings db !! j = Some b ∧
           houseId b' = houseId b ∧ checkInDate b' = checkInDate b ∧
           checkOutDate b' = checkOutDate b ∧
           (occupied b ∨
            (target = Some j ∧
             ∀ k B, k ≠ j → bookings db !! k = Some B → houseId B = houseId b →
                    occupied B →
                    ¬ (checkInDate B ≤ checkOutDate b ∧ checkInDate b ≤ checkOutDate B))).
Proof.
  assert (∀ db1 newId, insertsPending db db1 newId →
            ∀ j b', bookings db1 !! j = Some b' → occupied b' →
              ∃ b, bookings db !! j = Some b ∧
                   houseId b' = houseId b ∧ checkInDate b' = checkInDate b ∧
                   checkOutDate b' = checkOutDate b ∧ occupied b) as Hcreate.
  { intros db1 newId [-> | (doc & Hdoc & Hfresh & ->)] j b' Hj Hocc.
    - by exists b'.
    - simpl in Hj. destruct (decide (j = newId)) as [->|Hne].
      + rewrite lookup_insert_eq in Hj. injection Hj as <-.
        apply occupied_iff in Hocc. rewrite Hdoc in Hocc. naive_solver.
      + rewrite lookup_insert_ne in Hj by done. by exists b'. }
  intros [now addMonths decoded rq newId | now decoded rq newId
         | now notified decoded bookingId action reason notes].
  - exists None. intros j b' Hj Hocc.
    destruct (Hcreate _ newId (bookingRequestPost_inserts _ _ _ _ _ _) j b' Hj Hocc)
      as (b & ? & ? & ? & ? & ?).
    exists b. tauto.
  - exists None. intros j b' Hj Hocc.
    destruct (Hcreate _ newId (userBookingsPost_inserts _ _ _ _ _) j b' Hj Hocc)
      as (b & ? & ? & ? & ? & ?).
    exists b. tauto.
  - destruct (ownerBookingsPut_cases now notified decoded bookingId action reason notes db)
      as [[-> _] | (tok & id & A & _ & _ & _ & Hfound & Hvalid & _ & _ & Hwrite)].
    { exists None. intros j b' Hj Hocc. exists b'. tauto. }
    apply findOwned_Some in Hfound as [Hfound _].
    exists (Some id). intros j b' Hj Hocc.
    destruct Hwrite as [(-> & Hnil & Hdb) | (Hother & Hdb)];
      rewrite Hdb in Hj; simpl in Hj.
    + rewrite lookup_cascade in Hj. destruct (decide (j = id)) as [->|Hne].
      * rewrite lookup_insert_eq in Hj. simpl in Hj.
        replace (overlapQuery id A [pending] id _) with false in Hj.
        2:{ symmetry. apply not_true_iff_false. rewrite overlapQuery_spec. tauto. }
        injection Hj as <-. exists A. repeat (split; [done|]). right.
        split; [done|]. intros k B Hk HB Hhouse HoccB Hclosed.
        rewrite find_nil in Hnil. specialize (Hnil k B HB).
        apply not_true_iff_false in Hnil. apply Hnil, overlapQuery_spec. tauto.
      * rewrite lookup_insert_ne in Hj by done.
        destruct (bookings db !! j) as [b|] eqn:Hb; [|done]. simpl in Hj.
        destruct (overlapQuery id A [pending] j b).
        -- injection Hj as <-. apply occupied_iff in Hocc. naive_solver.
        -- injection Hj as ->. exists b'. tauto.
    + destruct (decide (j = id)) as [->|Hne].
      * rewrite lookup_insert_eq in Hj. injection Hj as <-.
        unfold occupied in Hocc. simpl in Hocc.
        by apply buildUpdate_occupied in Hocc.
      * rewrite lookup_insert_ne in Hj by done. exists b'. tauto.
Qed.

Lemma step_disjointOccupied db db' :
  step db db' → disjointOccupied (bookings db) → disjointOccupied (bookings db').
Proof.
  intros Hstep Hinv i j b1' b2' Hij H1 H2 Hhouse Hocc1 Hocc2.
  destruct (step_occupied_origin db db' Hstep) as [target Horigin].
  destruct (Horigin i b1' H1 Hocc1) as (b1 & Hb1 & Hh1 & Hi1 & Ho1 & Hfrom1).
  destruct (Horigin j b2' H2 Hocc2) as (b2 & Hb2 & Hh2 & Hi2 & Ho2 & Hfrom2).
  rewrite Hi1, Ho1, Hi2, Ho2.
  assert (houseId b1 = houseId b2) as Hh by congruence.
  destruct Hfrom1 as [Hold1 | [Ht1 Hnew1]], Hfrom2 as [Hold2 | [Ht2 Hnew2]].
  - by apply (Hinv i j).
  - intros [? ?]. apply (Hnew2 i b1); [done..|]. lia.
  - intros [? ?]. apply (Hnew1 j b2); [done..|]. lia.
  - congruence.
Qed.

Lemma reachable_disjointOccupied db0 db :
  rtc step db0 db → disjointOccupied (bookings db0) → disjointOccupied (bookings db).
Proof.
  induction 1 as [|db1 db2 db3 Hstep _ IH]; [done|].
  intros Hinv. apply IH. by apply (step_disjointOccupied db1).
Qed.

(** C2: from a store without confirmed or active bookings, after any
    sequence of booking requests and owner actions (accept, reject, cancel,
    complete), two distinct bookings of one house that are confirmed or
    active do not overlap: not ([b1.checkIn < b2.checkOut] and
    [b2.checkIn < b1.checkOut]). *)
Theorem confirmed_bookings_never_overlap db0 db i j b1 b2 :
  (∀ k b, bookings db0 !! k = Some b → ¬ occupied b) →
  rtc step db0 db →
  i ≠ j →
  bookings db !! i = Some b1 →
  bookings db !! j = Some b2 →
  houseId b1 = houseId b2 →
  occupied b1 →
  occupied b2 →
  ¬ (checkInDate b1 < checkOutDate b2 ∧ checkInDate b2 < checkOutDate b1).
Proof.
  intros Hinit Hreach Hij H1 H2 Hhouse Hocc1 Hocc2 [Hlt1 Hlt2].
  assert (disjointOccupied (bookings db0)) as Hinv0.
  { intros k l c1 c2 _ Hk _ _ Hc1 _. by destruct (Hinit k c1 Hk). }
  apply (reachable_disjointOccupied db0 db Hreach Hinv0 i j b1 b2); try done. lia.
Qed.

Lemma confirmed_bookings_never_overlap_witness :
  ¬ (march 10 < march 30 ∧ march 26 < march 20).
Proof.
  refine (confirmed_bookings_never_overlap pendingDb acceptedTwice 1 4
            (applySet (buildUpdate (march 2) 100 "accept" None None
                         (sampleBooking 7 100 200 (march 10) (march 20) pending))
               (sampleBooking 7 100 200 (march 10) (march 20) pending))
            (applySet (buildUpdate (march 3) 100 "accept" None None
                         (sampleBooking 7 100 203 (march 26) (march 30) pending))
               (sampleBooking 7 100 203 (march 26) (march 30) pending))
            _ _ _ _ _ _ _ _).
  - intros k b Hk. unfold pendingDb in Hk. simpl in Hk.
    rewrite !lookup_insert_Some, lookup_empty in Hk.
    rewrite occupied_iff.
    destruct Hk as [[_ <-] | [_ [[_ <-] | [_ [[_ <-] | [_ [[_ <-] | [_ Hk]]]]]]]];
      simpl; try discriminate Hk; intros [H | H]; discriminate H.
  - apply (rtc_l step pendingDb acceptedOnce); [apply step_owner_action|].
    apply (rtc_l step acceptedOnce acceptedTwice); [apply step_owner_action|].
    apply rtc_refl.
  - discriminate.
  - vm_compute. reflexivity.
  - vm_compute. reflexivity.
  - reflexivity.
  - apply occupied_iff. left. reflexivity.
  - apply occupied_iff. left. reflexivity.
Defined.

(** ** The availability calendar *)

Section Calendar.
Variables (bookedDates : list (N * Booking)) (amount : Z).

(** The entry the loop pushes for [currentDate]. *)
Let entryAt (currentDate : Date) : CalendarEntry :=
  mkCalendarEntry currentDate (negb (isBooked bookedDates currentDate)) amount.

(** The loop ends by its own test after [n] rounds, when [n] days from
    [currentDate] pass the bound; it pushes one entry per day. *)
Lemma calendarLoop_days (n : nat) :
  ∀ fuel ninetyDaysLater currentDate,
    (n < fuel)%nat →
    addDays currentDate (Z.of_nat n - 1) ≤ ninetyDaysLater < addDays currentDate (Z.of_nat n) →
    calendarLoop fuel bookedDates amount ninetyDaysLater currentDate
    = Some ((λ k : nat, entryAt (addDays currentDate (Z.of_nat k))) <$> seq 0 n).
Proof.
  unfold addDays, msPerDay.
  induction n as [|n IH]; intros fuel ninety cur Hfuel Hbound;
    (destruct fuel as [|fuel]; [lia|]); simpl.
  - rewrite (proj2 (Z.leb_gt _ _)) by lia. done.
  - rewrite (proj2 (Z.leb_le _ _)) by lia.
    unfold addDays, msPerDay in *. rewrite (IH fuel ninety) by lia. simpl.
    rewrite <- fmap_S_seq, <- list_fmap_compose. f_equal. f_equal.
    + subst entryAt. simpl. by rewrite Z.add_0_r.
    + apply list_fmap_ext. intros _ k _. simpl. f_equal. lia.
Qed.

Lemma isBooked_spec currentDate :
  isBooked bookedDates currentDate = true ↔
  ∃ d, d ∈ bookedDates ∧ checkInDate d.2 ≤ currentDate ≤ checkOutDate d.2.
Proof.
  unfold isBooked. rewrite existsb_exists. split.
  - intros (d & Hin & Hd). exists d. rewrite list_elem_of_In.
    apply andb_true_iff in Hd as [H1 H2]. apply Z.geb_le in H1. apply Z.leb_le in H2.
    done.
  - intros (d & Hin & H1 & H2). exists d. rewrite <- list_elem_of_In.
    split; [done|]. apply andb_true_iff. by rewrite Z.geb_le, Z.leb_le.
Qed.
End Calendar.

Lemma availabilityCalendar_entries house amount today m :
  availabilityCalendar house amount today m
  = (λ k : nat,
       mkCalendarEntry (addDays today (Z.of_nat k))
         (negb (isBooked (find (bookedQuery house today (addDays today 90)) m)
                  (addDays today (Z.of_nat k))))
         amount) <$> seq 0 91.
Proof.
  unfold availabilityCalendar.
  rewrite (calendarLoop_days _ _ 91); [done|lia|]. unfold addDays, msPerDay. lia.
Qed.

(** A day of the calendar is booked when an occupied booking of the house
    has it between its check-in and its check-out, both ends included. *)
Lemma calendar_day_booked house today m (k : nat) :
  (k < 91)%nat →
  isBooked (find (bookedQuery house today (addDays today 90)) m) (addDays today (Z.of_nat k)) = true ↔
  ∃ i b, m !! i = Some b ∧ houseId b = house ∧ occupied b ∧
         checkInDate b ≤ addDays today (Z.of_nat k) ≤ checkOutDate b.
Proof.
  intros Hk. rewrite isBooked_spec. split.
  - intros ([i b] & Hin & Hd). apply elem_of_find in Hin as [Hi Hq].
    exists i, b. unfold bookedQuery in Hq.
    rewrite !andb_true_iff, bool_decide_eq_true, statusIn_spec in Hq. tauto.
  - intros (i & b & Hi & Hh & Hocc & Hd). exists (i, b). split; [|done].
    apply elem_of_find. split; [done|]. unfold bookedQuery.
    rewrite !andb_true_iff, bool_decide_eq_true, statusIn_spec, rangeClause_spec.
    unfold addDays, msPerDay in *. simpl. repeat split; try done; lia.
Qed.

Lemma houseDetailsGet_calendar now hid decoded db cal :
  calendarOf (houseDetailsGet now (Some (Some hid)) decoded db).1 = Some cal →
  ∃ stored, houses db !! hid = Some stored ∧
            cal = take 30 (availabilityCalendar hid (price_amount stored) now (bookings db)).
Proof.
  unfold houseDetailsGet. destruct (houses db !! hid) as [stored|]; [|done].
  case_match; [done|]. unfold calendarOf. simpl. intros [= <-]. by exists stored.
Qed.

Lemma houseDetailsGet_entry now hid decoded db cal (k : nat) :
  calendarOf (houseDetailsGet now (Some (Some hid)) decoded db).1 = Some cal →
  (k < 30)%nat →
  ∃ e, cal !! k = Some e ∧
       date e = addDays now (Z.of_nat k) ∧
       (available e = false ↔
        ∃ i b, bookings db !! i = Some b ∧ houseId b = hid ∧ occupied b ∧
               checkInDate b ≤ date e ≤ checkOutDate b).
Proof.
  intros Hcal Hk. apply houseDetailsGet_calendar in Hcal as (stored & _ & ->).
  rewrite availabilityCalendar_entries, lookup_take_lt, list_lookup_fmap by done.
  rewrite lookup_seq_lt by lia. simpl. eexists. split; [done|]. simpl.
  split; [done|]. rewrite <- calendar_day_booked by lia.
  by destruct (isBooked _ _).
Qed.

(** Away from the check-out instants the closed test and the half-open one
    agree. *)
Lemma calendar_half_open_off_boundary now hid decoded db cal (k : nat) :
  calendarOf (houseDetailsGet now (Some (Some hid)) decoded db).1 = Some cal →
  (k < 30)%nat →
  (∀ i b, bookings db !! i = Some b → houseId b = hid → occupied b →
          checkOutDate b ≠ addDays now (Z.of_nat k)) →
  ∃ e, cal !! k = Some e ∧
       (available e = false ↔
        ∃ i b, bookings db !! i = Some b ∧ houseId b = hid ∧ occupied b ∧
               checkInDate b ≤ date e < checkOutDate b).
Proof.
  intros Hcal Hk Hoff.
  destruct (houseDetailsGet_entry now hid decoded db cal k Hcal Hk) as (e & He & Hd & Hiff).
  exists e. split; [done|]. rewrite Hiff, Hd. split.
  - intros (i & b & Hb & Hh & Hocc & H1 & H2). exists i, b.
    specialize (Hoff i b Hb Hh Hocc). repeat split; try done. lia.
  - intros (i & b & Hb & Hh & Hocc & H1 & H2). exists i, b. repeat split; try done. lia.
Qed.

(** C7, as the handler has it: entry [k] of the calendar in the response
    (k = 0..29) is the instant [k] days after the request, and it is marked
    unavailable exactly when some confirmed or active booking of the house
    has that instant in the closed interval [checkIn, checkOut].  In
    particular, with a single confirmed booking from day 5 to day 10 (at the
    time of day of the request), exactly the days 5 to 10 are unavailable:
    the check-out day is unavailable too. *)
Theorem calendar_marks_closed_interval now hid decoded db cal (k : nat) :
  calendarOf (houseDetailsGet now (Some (Some hid)) decoded db).1 = Some cal →
  (k < 30)%nat →
  ∃ e, cal !! k = Some e ∧
       date e = addDays now (Z.of_nat k) ∧
       (available e = false ↔
        ∃ i b, bookings db !! i = Some b ∧ houseId b = hid ∧ occupied b ∧
               checkInDate b ≤ date e ≤ checkOutDate b) ∧
       (∀ i b, bookings db = {[i := b]} → houseId b = hid → status b = confirmed →
               checkInDate b = addDays now 5 → checkOutDate b = addDays now 10 →
               (available e = false ↔ (5 ≤ k ≤ 10)%nat)).
Proof.
  intros Hcal Hk.
  destruct (houseDetailsGet_entry now hid decoded db cal k Hcal Hk) as (e & He & Hd & Hiff).
  exists e. repeat (split; [done|]).
  intros i b Hm Hh Hst Hin Hout. rewrite Hiff, Hd, Hm. split.
  - intros (j & b' & Hj & _ & _ & Hday). apply lookup_singleton_Some in Hj as [_ <-].
    rewrite Hin, Hout in Hday. unfold addDays, msPerDay in Hday. lia.
  - intros Hday. exists i, b. rewrite lookup_singleton_eq, Hin, Hout, occupied_iff.
    unfold addDays, msPerDay. repeat split; try done; [by left|lia..].
Qed.

Lemma calendar_marks_closed_interval_witness :
  ∃ e, take 30 (availabilityCalendar 7 45000 (march 1) (bookings calendarDb)) !! 10%nat
       = Some e ∧ available e = false.
Proof.
  destruct (calendar_marks_closed_interval (march 1) 7 None calendarDb
              (take 30 (availabilityCalendar 7 45000 (march 1) (bookings calendarDb)))
              10) as (e & He & _ & _ & Hsingle).
  - vm_compute. reflexivity.
  - lia.
  - exists e. split; [exact He|].
    apply (Hsingle 1%N (sampleBooking 7 100 200 (march 6) (march 11) confirmed));
      try reflexivity. lia.
Defined.

(** C7, as the claim has it, fails: with a confirmed stay from the 6th to
    the 11th of March and a request at midnight of the 1st, day 10 is the 11th
    of March, the check-out day; it is outside the half-open stay and the
    calendar marks it unavailable. *)
Lemma checkout_day_is_unavailable :
  ¬ (march 6 ≤ addDays (march 1) 10 < march 11) ∧
  (calendarOf (houseDetailsGet (march 1) (Some (Some 7%N)) None calendarDb).1
     ≫= (.!! 10%nat))
  = Some (mkCalendarEntry (march 11) false 45000).
Proof. split; [vm_compute; intros [_ H]; discriminate H|]. vm_compute. reflexivity. Qed.

(** ** house-details: what the read writes *)

Lemma houseDetailsGet_found now hid decoded db stored :
  houses db !! hid = Some stored →
  let house := recordView now decoded stored in
  houseDetailsGet now (Some (Some hid)) decoded db =
    ((houseDetailsGet now (Some (Some hid)) decoded db).1,
     mkDb (bookings db) (<[hid := house]> (houses db)) (users db)) ∧
  calendarOf (houseDetailsGet now (Some (Some hid)) decoded db).1 =
    if negb match decoded with
            | Some tok => bool_decide (role tok = "owner" ∨ role tok = "admin")
            | None => false
            end
       && negb (bool_decide (house_status stored = "approved")
                && isActive stored && isAvailable stored)
    then None
    else Some (take 30 (availabilityCalendar hid (price_amount stored) now (bookings db))).
Proof.
  intros Hstored. unfold houseDetailsGet. rewrite Hstored. simpl.
  by case_match.
Qed.

(** C8, as the handler has it: serving the house details (and with them
    the calendar) leaves the bookings, the users and every other house as
    they were, and records the view on the house that is shown: its [views]
    is one more than before and [viewedBy] has one more entry at its end,
    with the caller (none for a guest), the time of the request and the
    caller's role ([guest] without one); the other fields of the house are
    kept, and a house that is not stored is not created.  Serving the same
    request again at the same instant gives the same calendar. *)
Theorem house_details_writes_only_the_view now houseId decoded db :
  bookings (houseDetailsGet now houseId decoded db).2 = bookings db ∧
  users (houseDetailsGet now houseId decoded db).2 = users db ∧
  (∀ h, houseId ≠ Some (Some h) →
        houses (houseDetailsGet now houseId decoded db).2 !! h = houses db !! h) ∧
  (∀ h, houseId = Some (Some h) →
        match houses db !! h with
        | None => houses (houseDetailsGet now houseId decoded db).2 !! h = None
        | Some stored =>
          ∃ shown,
            houses (houseDetailsGet now houseId decoded db).2 !! h = Some shown ∧
            views shown = views stored + 1 ∧
            viewedBy shown =
              (viewedBy stored ++
               [mkView (userId <$> decoded) now
                  (match decoded with
                   | Some tok => if decide (role tok = "") then "guest" else role tok
                   | None => "guest"
                   end)])%list ∧
            house_ownerId shown = house_ownerId stored ∧
            house_status shown = house_status stored ∧
            isActive shown = isActive stored ∧
            isAvailable shown = isAvailable stored ∧
            price_amount shown = price_amount stored
        end) ∧
  calendarOf (houseDetailsGet now houseId decoded
                (houseDetailsGet now houseId decoded db).2).1
  = calendarOf (houseDetailsGet now houseId decoded db).1.
Proof.
  destruct houseId as [[hid|]|]; try (by repeat split).
  destruct (houses db !! hid) as [stored|] eqn:Hstored.
  2:{ assert (houseDetailsGet now (Some (Some hid)) decoded db
              = (mkResponse 404 (ErrorBody "House not found"), db)) as Hnone
        by (unfold houseDetailsGet; by rewrite Hstored).
      rewrite Hnone. cbn [fst snd]. rewrite Hnone. repeat split; try done.
      intros h [= <-]. by rewrite Hstored. }
  destruct (houseDetailsGet_found now hid decoded db stored Hstored) as [Hdb Hcal].
  rewrite Hdb. cbn [fst snd bookings houses users].
  split; [done|]. split; [done|].
  split; [intros h Hh; rewrite lookup_insert_ne; congruence|].
  split.
  { intros h [= <-]. rewrite Hstored, lookup_insert_eq.
    exists (recordView now decoded stored). by repeat split. }
  rewrite Hcal.
  destruct (houseDetailsGet_found now hid decoded
              (mkDb (bookings db) (<[hid := recordView now decoded stored]> (houses db))
                 (users db))
              (recordView now decoded stored)) as [_ Hcal2].
  { simpl. by rewrite lookup_insert_eq. }
  rewrite Hcal2. done.
Qed.

(** C8, as the claim has it, fails: a guest looks at house 7, whose view
    counter is 0; after the request the stored house has one view. *)
Lemma house_details_counts_the_view :
  views <$> houses calendarDb !! 7%N = Some 0 ∧
  views <$> houses (houseDetailsGet (march 1) (Some (Some 7%N)) None calendarDb).2 !! 7%N
  = Some 1 ∧
  houses (houseDetailsGet (march 1) (Some (Some 7%N)) None calendarDb).2
  ≠ houses calendarDb.
Proof.
  split; [vm_compute; reflexivity|]. split; [vm_compute; reflexivity|].
  intros Heq. apply (f_equal (λ m : gmap N House, views <$> m !! 7%N)) in Heq.
  vm_compute in Heq. discriminate Heq.
Qed.

(** ** Creating a booking: the date range *)

(** A request whose [duration] is the number 0 fails the presence test of
    the required fields. *)
Lemma zero_duration_is_missing_field now addMonths tok rq newId db :
  role tok = "renter" →
  duration rq = Some 0 →
  bookingRequestPost now addMonths (Some tok) rq newId db =
    (mkResponse 400 (ErrorBody "Missing required fields: houseId, moveInDate, duration"),
     db).
Proof.
  intros Hrole Hd. unfold bookingRequestPost.
  rewrite bool_decide_eq_false_2 by (intros H; by apply H).
  rewrite Hd. simpl. by repeat case_match.
Qed.




(** The creation from the renter's profile takes the two dates as they
    come: a stay that ends when it starts is inserted as well. *)
Lemma empty_range_is_booked :
  (λ b, (checkInDate b, checkOutDate b, status b)) <$>
    bookings
      (userBookingsPost (march 1) (Some renterToken)
         (mkCreateBody (Some 7%N) (Some (march 10)) (Some (march 10)) (Some 2))
         1 emptyDb).2 !! 1%N
  = Some (march 10, march 10, pending).
Proof. vm_compute. reflexivity. Qed.

(** * Further properties *)

(** ** The renter's PUT and the deletion of a house: the outcomes *)

Lemma findRented_Some id renter m b :
  findRented id renter m = Some b ↔ m !! id = Some b ∧ renterId b = renter.
Proof.
  unfold findRented. destruct (m !! id) as [b'|]; [|split; [done|by intros [? _]]].
  destruct (decide (renterId b' = renter)); split; intros H; try done.
  - by injection H as ->.
  - by destruct H as [[= ->] _].
  - by destruct H as [[= ->] ?].
Qed.

Lemma findRented_None id renter m :
  findRented id renter m = None ↔ ∀ b, m !! id = Some b → renterId b ≠ renter.
Proof.
  unfold findRented. destruct (m !! id) as [b'|]; [|by split].
  destruct (decide (renterId b' = renter)) as [Ho|Ho]; split; try done.
  - intros H. by destruct (H b' eq_refl).
  - by intros _ b [= <-].
Qed.

(** Every run of the renter's PUT either writes nothing, or rewrites the one
    booking [b] found for the caller: a cancel of a booking that is neither
    cancelled nor completed, or a change of dates of a pending booking. *)
Lemma userBookingsPut_cases now decoded bookingId rq db :
  let r := userBookingsPut now decoded bookingId rq db in
  (r.2 = db ∧ r_statusCode r.1 ≠ 200) ∨
  ∃ tok id b,
    decoded = Some tok ∧ role tok = "renter" ∧ bookingId = Some id ∧
    bookings db !! id = Some b ∧ renterId b = userId tok ∧
    ((ru_action rq = "cancel" ∧ status b ≠ cancelled ∧ status b ≠ completed ∧
      r = (mkRenterResponse 200
             (RenterUpdated "Booking cancel successful"
                (Some (setCancelled now (ru_reason rq) b))),
           mkDb (<[id := setCancelled now (ru_reason rq) b]> (bookings db))
             (houses db) (users db)))
     ∨ ∃ checkIn checkOut,
         ru_action rq = "update_dates" ∧ status b = pending ∧
         ru_checkInDate rq = Some checkIn ∧ ru_checkOutDate rq = Some checkOut ∧
         r = (mkRenterResponse 200
                (RenterUpdated "Booking update_dates successful"
                   (Some (setDates now checkIn checkOut b))),
              mkDb (<[id := setDates now checkIn checkOut b]> (bookings db))
                (houses db) (users db))).
Proof.
  unfold userBookingsPut.
  destruct decoded as [tok|]; [|by left].
  case_bool_decide as Hrole; [by left|].
  destruct bookingId as [id|]; [|by left].
  destruct (findRented id (userId tok) (bookings db)) as [b|] eqn:Hfind; [|by left].
  unfold updateRented. rewrite Hfind.
  apply findRented_Some in Hfind as [Hb Hrenter].
  destruct (decide (ru_action rq = "cancel")) as [Hcancel|Hcancel].
  { destruct (decide (status b = cancelled)); [by left|].
    destruct (decide (status b = completed)); [by left|].
    right. exists tok, id, b. repeat (split; [done|]). left.
    rewrite Hcancel. done. }
  destruct (decide (ru_action rq = "update_dates")) as [Hdates|Hdates]; [|by left].
  destruct (decide (status b ≠ pending)) as [|Hst]; [by left|].
  apply dec_stable in Hst.
  destruct (ru_checkInDate rq) as [checkIn|] eqn:Hin; [|by left].
  destruct (ru_checkOutDate rq) as [checkOut|] eqn:Hout; [|by left].
  right. exists tok, id, b. repeat (split; [done|]). right.
  exists checkIn, checkOut. rewrite Hdates. done.
Qed.

(** Every run of the delete handler either writes nothing, or soft-deletes
    the house found; the bookings are then as they were, or, for an admin who
    forces the deletion, cancelled where they were still open. *)
Lemma houseDelete_cases now decoded houseId rq db :
  let r := houseDelete now decoded houseId rq db in
  (r.2 = db ∧ d_statusCode r.1 ≠ 200) ∨
  ∃ tok hid existingHouse,
    decoded = Some tok ∧ houseId = Some hid ∧ houses db !! hid = Some existingHouse ∧
    (house_ownerId existingHouse = userId tok ∨ role tok = "admin") ∧
    d_statusCode r.1 = 200 ∧
    houses r.2 = <[hid := softDelete existingHouse]> (houses db) ∧
    users r.2 = users db ∧
    ((countDocuments (openQuery hid) (bookings db) = 0%nat ∧ bookings r.2 = bookings db)
     ∨ (role tok = "admin" ∧ forceDelete rq = true ∧
        bookings r.2 =
          updateMany (openQuery hid) (setCancelledByAdmin now (userId tok) (adminNotes rq))
            (bookings db))).
Proof.
  unfold houseDelete.
  destruct decoded as [tok|]; [|by left].
  case_bool_decide as Hrole; [by left|].
  destruct houseId as [hid|]; [|by left].
  destruct (houses db !! hid) as [existingHouse|] eqn:Hhouse; [|by left].
  case_bool_decide as Hperm; [by left|].
  assert (house_ownerId existingHouse = userId tok ∨ role tok = "admin") as Hmay.
  { destruct (decide (house_ownerId existingHouse = userId tok)); [by left|].
    destruct (decide (role tok = "admin")); [by right|]. by destruct Hperm. }
  destruct (decide (0 < countDocuments (openQuery hid) (bookings db))%nat) as [Hopen|Hnone].
  - rewrite (bool_decide_eq_true_2 _ Hopen). simpl.
    destruct (decide (role tok = "admin")) as [Hadmin|Hadmin].
    + rewrite (bool_decide_eq_false_2 (role tok ≠ "admin")) by (intros H; by apply H).
      rewrite (bool_decide_eq_true_2 _ Hadmin). simpl.
      destruct (forceDelete rq) eqn:Hforce; simpl; [|by left].
      right. exists tok, hid, existingHouse. repeat (split; [done|]). by right.
    + rewrite (bool_decide_eq_true_2 (role tok ≠ "admin")) by done. by left.
  - rewrite (bool_decide_eq_false_2 _ Hnone). simpl. rewrite andb_false_r. simpl.
    right. exists tok, hid, existingHouse. repeat (split; [done|]). left.
    split; [lia|done].
Qed.

Lemma houseDetailsGet_bookings now houseId decoded db :
  bookings (houseDetailsGet now houseId decoded db).2 = bookings db.
Proof.
  destruct houseId as [[hid|]|]; [|done..].
  destruct (houses db !! hid) as [stored|] eqn:Hstored.
  - destruct (houseDetailsGet_found now hid decoded db stored Hstored) as [-> _]. done.
  - unfold houseDetailsGet. by rewrite Hstored.
Qed.

(** ** What a request can do to a booking *)

Lemma docDelta_same m target j o : docDelta m target j o o.
Proof. destruct o as [b|]; simpl; [|done]. repeat split; try done. by left. Qed.

Lemma docDelta_ended m target j b b' :
  houseId b' = houseId b → renterId b' = renterId b → ownerId b' = ownerId b →
  checkInDate b' = checkInDate b → checkOutDate b' = checkOutDate b →
  status b' ∈ [rejected; cancelled; completed] →
  status b ≠ completed → status b ≠ cancelled →
  docDelta m target j (Some b) (Some b').
Proof. intros. simpl. repeat split; try done. right. by left. Qed.

Lemma stateTransition_open s action :
  action ∈ stateTransition s → s ≠ completed ∧ s ≠ cancelled.
Proof. destruct s; simpl; rewrite ?elem_of_nil; try done; by intros []. Qed.

Lemma openQuery_spec house i b :
  openQuery house i b = true ↔
  houseId b = house ∧ status b ∈ [pending; confirmed; active].
Proof.
  unfold openQuery. by rewrite andb_true_iff, bool_decide_eq_true, statusIn_spec.
Qed.

Lemma applySet_ended now caller action reason notes A :
  action ∈ validActions → action ≠ "accept" →
  status (applySet (buildUpdate now caller action reason notes A) A)
    ∈ [rejected; cancelled; completed].
Proof.
  intros Hv Hacc. apply validActions_cases in Hv.
  destruct Hv as [-> | [-> | [-> | ->]]]; [done| | |];
    simpl; rewrite !elem_of_cons; tauto.
Qed.

Lemma step_document db db' :
  step db db' →
  ∃ target, ∀ j, docDelta (bookings db) target j (bookings db !! j) (bookings db' !! j).
Proof.
  assert (∀ db1 newId, insertsPending db db1 newId →
            ∀ j, docDelta (bookings db) None j (bookings db !! j) (bookings db1 !! j))
    as Hcreate.
  { intros db1 newId [-> | (doc & Hdoc & Hfresh & ->)] j; [apply docDelta_same|].
    simpl. destruct (decide (j = newId)) as [->|Hne].
    - by rewrite lookup_insert_eq, Hfresh.
    - rewrite lookup_insert_ne by done. apply docDelta_same. }
  intros [now addMonths decoded rq newId | now decoded rq newId
         | now notified decoded bookingId action reason notes].
  - exists None. apply (Hcreate _ newId), bookingRequestPost_inserts.
  - exists None. apply (Hcreate _ newId), userBookingsPost_inserts.
  - destruct (ownerBookingsPut_cases now notified decoded bookingId action reason notes db)
      as [[-> _] | (tok & id & A & _ & _ & _ & Hfound & Hvalid & Htrans & _ & Hwrite)].
    { exists None. intros j. apply docDelta_same. }
    apply findOwned_Some in Hfound as [Hfound _].
    exists (Some id). intros j.
    destruct Hwrite as [(-> & Hnil & ->) | (Hother & ->)]; simpl.
    + rewrite lookup_cascade. destruct (decide (j = id)) as [->|Hne].
      * rewrite lookup_insert_eq, Hfound. simpl.
        replace (overlapQuery id A [pending] id _) with false.
        2:{ symmetry. apply not_true_iff_false. rewrite overlapQuery_spec. tauto. }
        repeat split; try done. do 3 right.
        assert (status A = pending) as Hpending.
        { destruct (status A); simpl in Htrans;
            rewrite ?elem_of_cons, ?elem_of_nil in Htrans; naive_solver. }
        repeat split; try done.
        intros k B Hk HB Hhouse HoccB Hclosed.
        rewrite find_nil in Hnil. specialize (Hnil k B HB).
        apply not_true_iff_false in Hnil. apply Hnil, overlapQuery_spec. tauto.
      * rewrite lookup_insert_ne by done.
        destruct (bookings db !! j) as [b|] eqn:Hb; [|done]. cbn [fmap option_fmap option_map].
        destruct (overlapQuery id A [pending] j b) eqn:Hq; [|apply docDelta_same].
        apply overlapQuery_spec in Hq as (_ & _ & Hst & _).
        apply list_elem_of_singleton in Hst.
        apply docDelta_ended; try done; [|by rewrite Hst..].
        simpl. rewrite !elem_of_cons. tauto.
    + destruct (decide (j = id)) as [->|Hne].
      * rewrite lookup_insert_eq, Hfound.
        destruct (stateTransition_open _ _ Htrans).
        apply docDelta_ended; try done. by apply applySet_ended.
      * rewrite lookup_insert_ne by done. apply docDelta_same.
Qed.

Lemma anyStep_document db db' :
  anyStep db db' →
  ∃ target, ∀ j, docDelta (bookings db) target j (bookings db !! j) (bookings db' !! j).
Proof.
  intros [db1 Hstep | now decoded bookingId rq | now decoded houseId rq
         | now houseId decoded].
  - by apply step_document.
  - exists None. intros j.
    destruct (userBookingsPut_cases now decoded bookingId rq db)
      as [[-> _] | (tok & id & b & _ & _ & _ & Hb & _ & Hwrite)]; [apply docDelta_same|].
    destruct Hwrite as [(_ & Hnc & Hnd & ->) | (checkIn & checkOut & _ & Hst & _ & _ & ->)];
      simpl; (destruct (decide (j = id)) as [->|Hne];
              [rewrite lookup_insert_eq, Hb
              |rewrite lookup_insert_ne by done; apply docDelta_same]).
    + apply docDelta_ended; try done. simpl. rewrite !elem_of_cons. tauto.
    + simpl. repeat split; try done. right. right. by left.
  - exists None. intros j.
    destruct (houseDelete_cases now decoded houseId rq db)
      as [[-> _] | (tok & hid & h & _ & _ & _ & _ & _ & _ & _ & Hwrite)];
      [apply docDelta_same|].
    destruct Hwrite as [[_ ->] | (_ & _ & ->)]; [apply docDelta_same|].
    rewrite lookup_updateMany. destruct (bookings db !! j) as [b|]; [|done].
    cbn [fmap option_fmap option_map].
    destruct (openQuery hid j b) eqn:Hq; [|apply docDelta_same].
    apply openQuery_spec in Hq as [_ Hst].
    apply docDelta_ended; try done.
    + simpl. rewrite !elem_of_cons. tauto.
    + intros Heq. rewrite Heq, !elem_of_cons, elem_of_nil in Hst. naive_solver.
    + intros Heq. rewrite Heq, !elem_of_cons, elem_of_nil in Hst. naive_solver.
  - exists None. intros j. rewrite houseDetailsGet_bookings. apply docDelta_same.
Qed.

(** ** The store under every writer *)

Lemma no_occupied_disjoint (m : gmap N Booking) :
  (∀ k b, m !! k = Some b → ¬ occupied b) → disjointOccupied m.
Proof. intros Hnone i j b1 b2 _ Hi _ _ Hocc _. by destruct (Hnone i b1 Hi). Qed.

Lemma anyStep_disjointOccupied db db' :
  anyStep db db' → disjointOccupied (bookings db) → disjointOccupied (bookings db').
Proof.
  intros Hstep Hinv i j b1' b2' Hij H1 H2 Hhouse Hocc1 Hocc2.
  destruct (anyStep_document db db' Hstep) as [target Hdelta].
  pose proof (Hdelta i) as Hi. pose proof (Hdelta j) as Hj.
  rewrite H1 in Hi. rewrite H2 in Hj.
  apply occupied_iff in Hocc1, Hocc2.
  destruct (bookings db !! i) as [b1|] eqn:Hb1; simpl in Hi;
    [|rewrite Hi in Hocc1; by destruct Hocc1].
  destruct (bookings db !! j) as [b2|] eqn:Hb2; simpl in Hj;
    [|rewrite Hj in Hocc2; by destruct Hocc2].
  destruct Hi as (Hh1 & _ & _ & Hi), Hj as (Hh2 & _ & _ & Hj).
  assert (houseId b1 = houseId b2) as Hh by congruence.
  assert (∀ b b' : Booking,
            status b' ∈ [rejected; cancelled; completed] →
            status b' = confirmed ∨ status b' = active → False) as Hended.
  { intros b b' Hin Hst. rewrite !elem_of_cons, elem_of_nil in Hin.
    intuition congruence. }
  assert (∀ b' : Booking,
            status b' = pending → status b' = confirmed ∨ status b' = active → False)
    as Hpend.
  { intros b' Hp [Hst | Hst]; rewrite Hp in Hst; discriminate Hst. }
  destruct Hi as [-> | [(_ & _ & Hin & _) | [[_ Hp] | (_ & _ & Hi1 & Ho1 & Ht1 & Hnew1)]]];
    [|by destruct (Hended b1 b1' Hin)|by destruct (Hpend b1' Hp)|];
    (destruct Hj as [-> | [(_ & _ & Hin & _) | [[_ Hp] | (_ & _ & Hi2 & Ho2 & Ht2 & Hnew2)]]];
     [|by destruct (Hended b2 b2' Hin)|by destruct (Hpend b2' Hp)|]).
  - apply (Hinv i j); try done; by apply occupied_iff.
  - rewrite Hi2, Ho2. intros [? ?].
    apply (Hnew2 i b1); try done; try (by apply occupied_iff); lia.
  - rewrite Hi1, Ho1. intros [? ?].
    apply (Hnew1 j b2); try done; try (by apply occupied_iff); lia.
  - congruence.
Qed.

(** X1: whatever requests are served (booking requests, owner actions, the
    renter's cancel and change of dates, the deletion of a house, the reading
    of a house's details), two distinct confirmed or active bookings of one
    house never meet each other's closed range clause, provided that held of
    the store at the start.  When each of the two has its check-in not after
    its check-out, one of them therefore ends strictly before the other
    begins; of a range stored backwards the clause says no such thing. *)
Theorem occupied_disjoint_under_every_writer db0 db i j b1 b2 :
  disjointOccupied (bookings db0) →
  rtc anyStep db0 db →
  i ≠ j →
  bookings db !! i = Some b1 →
  bookings db !! j = Some b2 →
  houseId b1 = houseId b2 →
  occupied b1 →
  occupied b2 →
  ¬ (checkInDate b1 ≤ checkOutDate b2 ∧ checkInDate b2 ≤ checkOutDate b1) ∧
  (checkInDate b1 ≤ checkOutDate b1 → checkInDate b2 ≤ checkOutDate b2 →
   checkOutDate b1 < checkInDate b2 ∨ checkOutDate b2 < checkInDate b1).
Proof.
  intros Hinv0 Hreach Hij H1 H2 Hh Ho1 Ho2.
  assert (¬ (checkInDate b1 ≤ checkOutDate b2 ∧ checkInDate b2 ≤ checkOutDate b1))
    as Hapart; [|split; [done|lia]].
  revert Hinv0 Hij H1 H2 Hh Ho1 Ho2.
  induction Hreach as [|db1 db2 db3 Hstep _ IH]; intros Hinv Hij H1 H2 Hh Ho1 Ho2.
  - by apply (Hinv i j).
  - apply IH; try done. by apply (anyStep_disjointOccupied db1).
Qed.

Lemma occupied_disjoint_under_every_writer_witness :
  ¬ (march 10 ≤ march 30 ∧ march 26 ≤ march 20) ∧
  (march 10 ≤ march 20 → march 26 ≤ march 30 →
   march 20 < march 26 ∨ march 30 < march 10).
Proof.
  refine (occupied_disjoint_under_every_writer pendingDb acceptedTwice 1 4
            (applySet (buildUpdate (march 2) 100 "accept" None None
                         (sampleBooking 7 100 200 (march 10) (march 20) pending))
               (sampleBooking 7 100 200 (march 10) (march 20) pending))
            (applySet (buildUpdate (march 3) 100 "accept" None None
                         (sampleBooking 7 100 203 (march 26) (march 30) pending))
               (sampleBooking 7 100 203 (march 26) (march 30) pending))
            _ _ _ _ _ _ _ _).
  - apply no_occupied_disjoint. intros k b Hk. unfold pendingDb in Hk. simpl in Hk.
    rewrite !lookup_insert_Some, lookup_empty in Hk. rewrite occupied_iff.
    destruct Hk as [[_ <-] | [_ [[_ <-] | [_ [[_ <-] | [_ [[_ <-] | [_ Hk]]]]]]]];
      simpl; try discriminate Hk; intros [H | H]; discriminate H.
  - apply (rtc_l anyStep pendingDb acceptedOnce);
      [apply any_step, step_owner_action|].
    apply (rtc_l anyStep acceptedOnce acceptedTwice);
      [apply any_step, step_owner_action|].
    apply rtc_refl.
  - discriminate.
  - vm_compute. reflexivity.
  - vm_compute. reflexivity.
  - reflexivity.
  - apply occupied_iff. left. reflexivity.
  - apply occupied_iff. left. reflexivity.
Defined.

Lemma reachable_document db0 db j :
  rtc anyStep db0 db → docHistory (bookings db0 !! j) (bookings db !! j).
Proof.
  intros Hreach.
  revert db Hreach.
  apply (rtc_ind_r (R := anyStep)
           (λ d, docHistory (bookings db0 !! j) (bookings d !! j)) db0).
  - destruct (bookings db0 !! j); [|done]. simpl. split; [done|].
    split; [done|]. split; [done|]. split; [|done].
    destruct (decide (status b = active)); [by left|by right].
  - intros db2 db3 _ Hstep IH.
    destruct (anyStep_document db2 db3 Hstep) as [target Hdelta].
    specialize (Hdelta j). unfold docHistory in *.
    assert (∀ b' : Booking, status b' ∈ [rejected; cancelled; completed] →
                            status b' ≠ active) as Hended.
    { intros b' Hin Heq. rewrite Heq, !elem_of_cons, elem_of_nil in Hin.
      intuition congruence. }
    destruct (bookings db0 !! j) as [b0|], (bookings db2 !! j) as [b|],
      (bookings db3 !! j) as [b'|]; simpl in Hdelta; try done.
    + destruct IH as (Hh & Hr & Ho & Hact & Hfinal).
      destruct Hdelta as (Hh' & Hr' & Ho' & Hcase).
      split; [congruence|]. split; [congruence|]. split; [congruence|].
      destruct Hcase as [-> | [(Hnd & Hnc & Hin & _) | [[Hp Hp'] | (Hp & Hc & _)]]].
      * done.
      * split; [right; by apply Hended|].
        intros Hst. rewrite (Hfinal Hst) in Hnd, Hnc. intuition congruence.
      * split; [right; by rewrite Hp'|].
        intros Hst. rewrite (Hfinal Hst) in Hp. intuition congruence.
      * split; [right; by rewrite Hc|].
        intros Hst. rewrite (Hfinal Hst) in Hp. intuition congruence.
    + destruct Hdelta as (_ & _ & _ & Hcase).
      destruct Hcase as [-> | [(_ & _ & Hin & _) | [[_ Hp'] | (_ & Hc & _)]]];
        [done|by apply Hended|by rewrite Hp'|by rewrite Hc].
    + by rewrite Hdelta.
Qed.

(** X2: no request ever removes a booking, and none changes the house, the
    renter or the owner of a booking: a booking of the store is found under
    the same id, with these three references, after any sequence of
    requests. *)
Theorem bookings_are_never_removed db0 db j b :
  rtc anyStep db0 db →
  bookings db0 !! j = Some b →
  ∃ b', bookings db !! j = Some b' ∧
        houseId b' = houseId b ∧ renterId b' = renterId b ∧ ownerId b' = ownerId b.
Proof.
  intros Hreach Hb. pose proof (reachable_document db0 db j Hreach) as Hdoc.
  rewrite Hb in Hdoc. unfold docHistory in Hdoc. destruct (bookings db !! j) as [b'|]; [|done].
  exists b'. tauto.
Qed.

Lemma settled_to_deleted : rtc anyStep settledDb houseDeleted.
Proof.
  apply (rtc_l anyStep settledDb renterCancelled); [apply any_renter_update|].
  apply (rtc_l anyStep renterCancelled houseDeleted); [apply any_house_delete|].
  apply rtc_refl.
Defined.

Lemma bookings_are_never_removed_witness :
  ∃ b', bookings houseDeleted !! 5%N = Some b' ∧
        houseId b' = 7%N ∧ renterId b' = 201%N ∧ ownerId b' = 100%N.
Proof.
  apply (bookings_are_never_removed settledDb houseDeleted 5
           (sampleBooking 7 100 201 (march 20) (march 25) pending)).
  - exact settled_to_deleted.
  - vm_compute. reflexivity.
Defined.

(** X3: a completed or cancelled booking is final: after any sequence of
    requests the document is exactly as it was (a rejected booking is not:
    the renter's cancel rewrites it). *)
Theorem completed_and_cancelled_are_final db0 db j b :
  rtc anyStep db0 db →
  bookings db0 !! j = Some b →
  status b = completed ∨ status b = cancelled →
  bookings db !! j = Some b.
Proof.
  intros Hreach Hb Hst. pose proof (reachable_document db0 db j Hreach) as Hdoc.
  rewrite Hb in Hdoc. unfold docHistory in Hdoc. destruct (bookings db !! j) as [b'|]; [|done].
  destruct Hdoc as (_ & _ & _ & _ & Hfinal). by rewrite (Hfinal Hst).
Qed.

Lemma completed_and_cancelled_are_final_witness :
  bookings houseDeleted !! 1%N
  = Some (sampleBooking 7 100 200 (march 1) (march 5) completed).
Proof.
  apply (completed_and_cancelled_are_final settledDb houseDeleted 1
           (sampleBooking 7 100 200 (march 1) (march 5) completed)).
  - exact settled_to_deleted.
  - vm_compute. reflexivity.
  - left. reflexivity.
Defined.

(** X4: no handler writes the status active: a booking that is active after
    any sequence of requests was active, under the same id, at the start. *)
Theorem active_is_never_written db0 db j b' :
  rtc anyStep db0 db →
  bookings db !! j = Some b' →
  (∀ b, bookings db0 !! j = Some b → status b ≠ active) →
  status b' ≠ active.
Proof.
  intros Hreach Hb' Hinit. pose proof (reachable_document db0 db j Hreach) as Hdoc.
  rewrite Hb' in Hdoc. unfold docHistory in Hdoc.
  destruct (bookings db0 !! j) as [b|] eqn:Hb; [|done].
  destruct Hdoc as (_ & _ & _ & [Hact | Hact] & _); [|done].
  by destruct (Hinit b eq_refl).
Qed.

Lemma active_is_never_written_witness :
  status (setCancelled (march 2) (Some "change of plans")
            (sampleBooking 7 100 200 (march 10) (march 15) confirmed)) ≠ active.
Proof.
  apply (active_is_never_written settledDb houseDeleted 4).
  - exact settled_to_deleted.
  - vm_compute. reflexivity.
  - intros b Hb. vm_compute in Hb. injection Hb as <-. discriminate.
Defined.

(** ** Owner actions: what a successful one writes *)

(** The booking an owner action is answered 200 for, as it is stored
    afterwards. *)
Lemma ownerBookingsPut_target now notified tok id action reason notes db A :
  bookings db !! id = Some A →
  statusCode
    (ownerBookingsPut now notified (Some tok) (Some id) action reason notes db).1 = 200 →
  action ∈ validActions ∧ action ∈ stateTransition (status A) ∧
  ownerId A = userId tok ∧
  bookings (ownerBookingsPut now notified (Some tok) (Some id) action reason notes db).2
    !! id
  = Some (applySet (buildUpdate now (userId tok) action reason notes A) A).
Proof.
  intros HA Hok.
  destruct (ownerBookingsPut_cases now notified (Some tok) (Some id) action reason notes db)
    as [[_ Hfail] | (tok' & id' & A' & [= <-] & [= <-] & _ & Hfound & Hvalid & Htrans & _
                     & Hwrite)]; [done|].
  apply findOwned_Some in Hfound as [Hfound Howner].
  rewrite HA in Hfound. injection Hfound as <-.
  repeat (split; [done|]).
  destruct Hwrite as [(-> & _ & ->) | (_ & ->)]; simpl.
  - rewrite lookup_cascade, lookup_insert_eq. simpl.
    replace (overlapQuery id A [pending] id _) with false; [done|].
    symmetry. apply not_true_iff_false. rewrite overlapQuery_spec. tauto.
  - by rewrite lookup_insert_eq.
Qed.

(** X5: an owner action answered with 200 appends exactly one entry to the
    booking's [statusHistory], after the entries it had: the entry records
    the status before, the status written, the action, the caller, the reason,
    the notes and the time.  The booking keeps its house, renter, owner and
    dates. *)
Theorem owner_action_appends_history now notified tok id action reason notes db A :
  bookings db !! id = Some A →
  statusCode
    (ownerBookingsPut now notified (Some tok) (Some id) action reason notes db).1 = 200 →
  ∃ A',
    bookings (ownerBookingsPut now notified (Some tok) (Some id) action reason notes db).2
      !! id = Some A' ∧
    statusHistory A' =
      (statusHistory A ++
         [mkHistoryEntry (status A) (status A') action (userId tok) reason notes now])%list ∧
    updatedAt A' = now ∧
    houseId A' = houseId A ∧ renterId A' = renterId A ∧ ownerId A' = ownerId A ∧
    checkInDate A' = checkInDate A ∧ checkOutDate A' = checkOutDate A.
Proof.
  intros HA Hok.
  destruct (ownerBookingsPut_target now notified tok id action reason notes db A HA Hok)
    as (_ & _ & _ & Hstored).
  eexists. split; [exact Hstored|]. done.
Qed.

Lemma owner_action_appends_history_witness :
  ∃ A',
    bookings (ownerBookingsPut (march 2) true (Some ownerToken) (Some 4%N) "complete"
                None (Some "keys returned") settledDb).2 !! 4%N = Some A' ∧
    statusHistory A' =
      [mkHistoryEntry confirmed (status A') "complete" 100 None
         (Some "keys returned") (march 2)].
Proof.
  destruct (owner_action_appends_history (march 2) true ownerToken 4 "complete" None
              (Some "keys returned") settledDb
              (sampleBooking 7 100 200 (march 10) (march 15) confirmed))
    as (A' & Hstored & Hhist & _).
  - vm_compute. reflexivity.
  - vm_compute. reflexivity.
  - exists A'. split; [exact Hstored | exact Hhist].
Defined.

(** An action of the transition table, asked by the booking's owner, is
    answered with 200; an accept needs the overlap query to find nothing. *)
Lemma ownerBookingsPut_allowed now notified tok id action reason notes db A :
  privileged tok →
  bookings db !! id = Some A →
  ownerId A = userId tok →
  action ∈ validActions →
  action ∈ stateTransition (status A) →
  (action = "accept" →
   find (overlapQuery id A [confirmed; active]) (bookings db) = []) →
  statusCode
    (ownerBookingsPut now notified (Some tok) (Some id) action reason notes db).1 = 200.
Proof.
  intros Hrole Hfound Howner Hvalid Htrans Hfree. unfold ownerBookingsPut.
  rewrite bool_decide_eq_false_2 by (by rewrite not_privileged; intros []).
  apply includes_true in Hvalid. rewrite Hvalid. cbn [negb].
  assert (findOwned id (userId tok) (bookings db) = Some A) as Hf
    by (by apply findOwned_Some).
  rewrite Hf. apply includes_true in Htrans. rewrite Htrans. cbn [negb].
  destruct (decide (action = "accept")) as [Hacc|Hacc].
  - rewrite (Hfree Hacc), (bool_decide_eq_true_2 ([] = []) eq_refl). cbn [negb].
    by destruct (findOneAndUpdate _ _ _ _).
  - rewrite (bool_decide_eq_true_2 ([] = []) eq_refl). cbn [negb].
    by destruct (findOneAndUpdate _ _ _ _).
Qed.

(** X6: the owner actions answered with 200 are exactly six transitions:
    accept, reject and cancel of a pending booking, cancel and complete of a
    confirmed one, complete of an active one.  An action answered with 200 is
    one of the six and stores the status that goes with it; and each of the
    six, asked by the booking's owner (role owner or admin), is answered with
    200, the accept provided no confirmed or active booking of the house meets
    its range clause.  A completed, cancelled or rejected booking admits
    none, and none stores the status active. *)
Theorem owner_transitions now notified tok id action reason notes db A :
  bookings db !! id = Some A →
  (statusCode
     (ownerBookingsPut now notified (Some tok) (Some id) action reason notes db).1 = 200 →
   ∃ A',
     bookings (ownerBookingsPut now notified (Some tok) (Some id) action reason notes db).2
       !! id = Some A' ∧
     ((action = "accept" ∧ status A = pending ∧ status A' = confirmed) ∨
      (action = "reject" ∧ status A = pending ∧ status A' = rejected) ∨
      (action = "cancel" ∧ (status A = pending ∨ status A = confirmed) ∧
       status A' = cancelled) ∨
      (action = "complete" ∧ (status A = confirmed ∨ status A = active) ∧
       status A' = completed))) ∧
  (privileged tok → ownerId A = userId tok →
   (action = "accept" ∧ status A = pending ∧
    find (overlapQuery id A [confirmed; active]) (bookings db) = []) ∨
   (action = "reject" ∧ status A = pending) ∨
   (action = "cancel" ∧ (status A = pending ∨ status A = confirmed)) ∨
   (action = "complete" ∧ (status A = confirmed ∨ status A = active)) →
   statusCode
     (ownerBookingsPut now notified (Some tok) (Some id) action reason notes db).1 = 200).
Proof.
  intros HA. split.
  - intros Hok.
    destruct (ownerBookingsPut_target now notified tok id action reason notes db A HA Hok)
      as (Hvalid & Htrans & _ & Hstored).
    eexists. split; [exact Hstored|].
    apply validActions_cases in Hvalid.
    destruct (status A) eqn:Hst; simpl in Htrans;
      rewrite ?elem_of_cons, ?elem_of_nil in Htrans;
      destruct Hvalid as [-> | [-> | [-> | ->]]]; simpl;
      try (exfalso; intuition congruence); tauto.
  - intros Hrole Howner Hcase.
    apply (ownerBookingsPut_allowed now notified tok id action reason notes db A);
      try done.
    + apply validActions_cases. tauto.
    + destruct Hcase as [(-> & -> & _) | [(-> & ->) | [(-> & [-> | ->]) | (-> & [-> | ->])]]];
        simpl; rewrite ?elem_of_cons; tauto.
    + intros ->.
      destruct Hcase as [(_ & _ & Hfree) | [(H & _) | [(H & _) | (H & _)]]];
        [done | discriminate H..].
Qed.

Lemma owner_transitions_witness :
  (∃ A',
     bookings (ownerBookingsPut (march 2) true (Some ownerToken) (Some 5%N) "reject"
                 (Some "renovation") None settledDb).2 !! 5%N = Some A' ∧
     status A' = rejected) ∧
  statusCode
    (ownerBookingsPut (march 2) true (Some ownerToken) (Some 5%N) "reject"
       (Some "renovation") None settledDb).1 = 200.
Proof.
  destruct (owner_transitions (march 2) true ownerToken 5 "reject" (Some "renovation")
              None settledDb (sampleBooking 7 100 201 (march 20) (march 25) pending))
    as [Honly Hevery].
  - vm_compute. reflexivity.
  - assert (statusCode
              (ownerBookingsPut (march 2) true (Some ownerToken) (Some 5%N) "reject"
                 (Some "renovation") None settledDb).1 = 200) as Hok.
    { apply Hevery; [left; reflexivity | reflexivity |].
      right. left. split; reflexivity. }
    split; [|exact Hok].
    destruct (Honly Hok) as (A' & Hstored & Hcase).
    exists A'. split; [exact Hstored|].
    destruct Hcase as [(H & _) | [(_ & _ & H) | [(H & _) | (H & _)]]];
      [discriminate H | exact H | discriminate H | discriminate H].
Defined.

(** X7: after an accept answered with 200, no pending booking of the same
    house is left whose dates meet the closed range of the accepted one: the
    requests still pending lie strictly before or strictly after it. *)
Theorem accept_leaves_no_competing_pending now notified tok id reason notes db A j B' :
  bookings db !! id = Some A →
  statusCode
    (ownerBookingsPut now notified (Some tok) (Some id) "accept" reason notes db).1 = 200 →
  bookings (ownerBookingsPut now notified (Some tok) (Some id) "accept" reason notes db).2
    !! j = Some B' →
  j ≠ id →
  houseId B' = houseId A →
  status B' = pending →
  checkOutDate B' < checkInDate A ∨ checkOutDate A < checkInDate B'.
Proof.
  intros HA Hok HB' Hne Hhouse Hpending.
  destruct (ownerBookingsPut_cases now notified (Some tok) (Some id) "accept" reason notes db)
    as [[_ Hfail] | (tok' & id' & A' & [= <-] & [= <-] & _ & Hfound & _ & _ & _ & Hwrite)];
    [done|].
  apply findOwned_Some in Hfound as [Hfound _].
  rewrite HA in Hfound. injection Hfound as <-.
  destruct Hwrite as [(_ & _ & Hdb) | (Hacc & _)]; [|done].
  rewrite Hdb in HB'. simpl in HB'.
  rewrite lookup_cascade, lookup_insert_ne in HB' by done.
  destruct (bookings db !! j) as [B|]; [|done]. simpl in HB'.
  destruct (overlapQuery id A [pending] j B) eqn:Hq.
  - injection HB' as <-. discriminate Hpending.
  - injection HB' as ->. apply not_true_iff_false in Hq.
    rewrite overlapQuery_spec, list_elem_of_singleton in Hq.
    destruct (decide (checkOutDate B' < checkInDate A)); [by left|].
    destruct (decide (checkOutDate A < checkInDate B')); [by right|].
    exfalso. apply Hq. repeat split; try done; lia.
Qed.

Lemma accept_leaves_no_competing_pending_witness :
  march 20 < march 26 ∨ march 30 < march 10.
Proof.
  assert (checkOutDate (sampleBooking 7 100 203 (march 26) (march 30) pending)
          < checkInDate (sampleBooking 7 100 200 (march 10) (march 20) pending)
          ∨ checkOutDate (sampleBooking 7 100 200 (march 10) (march 20) pending)
            < checkInDate (sampleBooking 7 100 203 (march 26) (march 30) pending)) as H.
  { apply (accept_leaves_no_competing_pending (march 2) true ownerToken 1 None None
             pendingDb (sampleBooking 7 100 200 (march 10) (march 20) pending) 4
             (sampleBooking 7 100 203 (march 26) (march 30) pending)).
    - vm_compute. reflexivity.
    - vm_compute. reflexivity.
    - vm_compute. reflexivity.
    - discriminate.
    - reflexivity.
    - reflexivity. }
  destruct H as [H | H]; [right | left]; exact H.
Defined.

(** X8: an owner action never touches the houses or the users, and of the
    bookings other than the one it names it can only rewrite pending ones (the
    requests an accept rejects): a booking under another id whose status is
    not pending is left as it was, whatever the action and its outcome. *)
Theorem owner_action_spares_settled_bookings
    now notified decoded bookingId action reason notes db j b :
  bookings db !! j = Some b →
  bookingId ≠ Some j →
  status b ≠ pending →
  bookings (ownerBookingsPut now notified decoded bookingId action reason notes db).2 !! j
    = Some b ∧
  houses (ownerBookingsPut now notified decoded bookingId action reason notes db).2
    = houses db ∧
  users (ownerBookingsPut now notified decoded bookingId action reason notes db).2
    = users db.
Proof.
  intros Hb Hother Hst.
  destruct (ownerBookingsPut_cases now notified decoded bookingId action reason notes db)
    as [[-> _] | (tok & id & A & _ & -> & _ & _ & _ & _ & _ & Hwrite)]; [done|].
  assert (j ≠ id) as Hne by congruence.
  destruct Hwrite as [(_ & _ & ->) | (_ & ->)]; simpl; (split; [|done]).
  - rewrite lookup_cascade, lookup_insert_ne, Hb by done. simpl.
    replace (overlapQuery id A [pending] j b) with false; [done|].
    symmetry. apply not_true_iff_false.
    rewrite overlapQuery_spec, list_elem_of_singleton. tauto.
  - by rewrite lookup_insert_ne.
Qed.

Lemma owner_action_spares_settled_bookings_witness :
  bookings (ownerBookingsPut (march 2) true (Some ownerToken) (Some 5%N) "accept"
              None None settledDb).2 !! 4%N
  = Some (sampleBooking 7 100 200 (march 10) (march 15) confirmed).
Proof.
  apply (owner_action_spares_settled_bookings (march 2) true (Some ownerToken) (Some 5%N)
           "accept" None None settledDb 4
           (sampleBooking 7 100 200 (march 10) (march 15) confirmed)).
  - vm_compute. reflexivity.
  - discriminate.
  - discriminate.
Defined.

(** ** Booking requests: availability *)

(** What a booking request answered with 201 went through, and what it
    wrote. *)
Lemma bookingRequestPost_created now addMonths decoded rq newId db :
  statusCode (bookingRequestPost now addMonths decoded rq newId db).1 = 201 →
  ∃ tok hid checkIn n house,
    decoded = Some tok ∧ role tok = "renter" ∧
    rq_houseId rq = Some hid ∧ moveInDate rq = Some checkIn ∧
    duration rq = Some n ∧ n ≠ 0 ∧
    findBookable hid (houses db) = Some house ∧
    startOfDay now ≤ checkIn ∧
    find (availabilityQuery hid checkIn
            (computeCheckOut addMonths checkIn n (durationType rq))) (bookings db) = [] ∧
    bookings db !! newId = None ∧
    (bookingRequestPost now addMonths decoded rq newId db).2 =
      mkDb (<[newId := newBooking hid (house_ownerId house) (userId tok) checkIn
                         (computeCheckOut addMonths checkIn n (durationType rq)) now]>
              (bookings db))
        (houses db) (users db).
Proof.
  unfold bookingRequestPost.
  destruct decoded as [tok|]; [|done].
  case_bool_decide as Hrole; [done|].
  destruct (rq_houseId rq) as [hid|]; [|done].
  destruct (moveInDate rq) as [checkIn|]; [|done].
  destruct (duration rq) as [n|]; simpl; [|done].
  destruct (n =? 0) eqn:Hn; [done|]. apply Z.eqb_neq in Hn.
  destruct (findBookable hid (houses db)) as [house|] eqn:Hhouse; [|done].
  destruct (checkIn <? startOfDay now) eqn:Hpast; [done|]. apply Z.ltb_ge in Hpast.
  destruct (find _ (bookings db)) as [|existing l] eqn:Hfree; [|done].
  case_bool_decide as Huser; [|done].
  destruct (insertOne _ _ _) as [inserted|] eqn:Hins; [|done].
  apply insertOne_Some in Hins as [Hfresh ->].
  intros _. exists tok, hid, checkIn, n, house. done.
Qed.

(** X9: a booking request answered with 201 blocks its own repetition: the
    same request sent again (whatever the clock and the new id), for a range
    whose check-out is not before its check-in and a move-in date still not
    before today, is answered with 409, naming the dates just booked, and
    writes nothing. *)
Theorem repeated_request_is_refused now later addMonths decoded rq newId newId' db checkIn n :
  statusCode (bookingRequestPost now addMonths decoded rq newId db).1 = 201 →
  moveInDate rq = Some checkIn →
  duration rq = Some n →
  checkIn ≤ computeCheckOut addMonths checkIn n (durationType rq) →
  startOfDay later ≤ checkIn →
  bookingRequestPost later addMonths decoded rq newId'
    (bookingRequestPost now addMonths decoded rq newId db).2
  = (mkResponse 409
       (ConflictDatesBody "Property not available for selected dates" checkIn
          (computeCheckOut addMonths checkIn n (durationType rq))),
     (bookingRequestPost now addMonths decoded rq newId db).2).
Proof.
  intros Hok Hin Hdur Hrange Hlater.
  destruct (bookingRequestPost_created now addMonths decoded rq newId db Hok)
    as (tok & hid & checkIn' & n' & house & -> & Hrole & Hhid & Hin' & Hdur' & Hn & Hhouse
        & _ & Hfree & Hfresh & ->).
  rewrite Hin in Hin'. injection Hin' as <-. rewrite Hdur in Hdur'. injection Hdur' as <-.
  set (checkOut := computeCheckOut addMonths checkIn n (durationType rq)) in *.
  set (doc := newBooking hid (house_ownerId house) (userId tok) checkIn checkOut now).
  unfold bookingRequestPost.
  rewrite bool_decide_eq_false_2 by (intros H; by apply H).
  rewrite Hhid, Hin, Hdur. simpl. rewrite (proj2 (Z.eqb_neq n 0)) by done.
  rewrite Hhouse, (proj2 (Z.ltb_ge _ _)) by done. fold checkOut.
  rewrite find_nil in Hfree.
  destruct (find (availabilityQuery hid checkIn checkOut) (<[newId := doc]> (bookings db)))
    as [|[i existing] l] eqn:Hfind.
  - exfalso. rewrite find_nil in Hfind.
    specialize (Hfind newId doc (lookup_insert_eq _ _ _)).
    apply not_true_iff_false in Hfind. apply Hfind, availabilityQuery_spec.
    simpl. rewrite !elem_of_cons. repeat split; try done; try tauto; lia.
  - assert ((i, existing) ∈ find (availabilityQuery hid checkIn checkOut)
                                (<[newId := doc]> (bookings db))) as Hmem
      by (rewrite Hfind; left).
    apply elem_of_find in Hmem as [Hi Hq]. simpl.
    destruct (decide (i = newId)) as [->|Hne].
    + rewrite lookup_insert_eq in Hi. by injection Hi as <-.
    + rewrite lookup_insert_ne in Hi by done.
      rewrite (Hfree i existing Hi) in Hq. discriminate Hq.
Qed.

Lemma repeated_request_is_refused_witness :
  bookingRequestPost (march 2) (λ d n, d + n * 30 * msPerDay)
    (Some renterToken) (mkRequestBody (Some 7%N) (Some (march 10)) (Some 5) "days") 2
    (bookingRequestPost (march 1) (λ d n, d + n * 30 * msPerDay)
       (Some renterToken) (mkRequestBody (Some 7%N) (Some (march 10)) (Some 5) "days")
       1 emptyDb).2
  = (mkResponse 409
       (ConflictDatesBody "Property not available for selected dates"
          (march 10) (march 15)),
     (bookingRequestPost (march 1) (λ d n, d + n * 30 * msPerDay)
       (Some renterToken) (mkRequestBody (Some 7%N) (Some (march 10)) (Some 5) "days")
       1 emptyDb).2).
Proof.
  apply (repeated_request_is_refused (march 1) (march 2) (λ d n, d + n * 30 * msPerDay)
           (Some renterToken)
           (mkRequestBody (Some 7%N) (Some (march 10)) (Some 5) "days")
           1 2 emptyDb (march 10) 5).
  - vm_compute. reflexivity.
  - reflexivity.
  - reflexivity.
  - vm_compute. discriminate.
  - vm_compute. discriminate.
Defined.

(** X10: a well-formed booking request for a bookable house, with a move-in
    date not before today, is answered with 409 exactly when some booking of
    the house that is pending, confirmed or active meets the closed range
    clause for the requested range; here a pending request of another renter
    blocks as a confirmed stay does.  The 409 writes nothing. *)
Theorem request_refused_iff_open_booking_meets_range
    now addMonths tok rq newId db hid checkIn n house :
  role tok = "renter" →
  rq_houseId rq = Some hid →
  moveInDate rq = Some checkIn →
  duration rq = Some n →
  n ≠ 0 →
  findBookable hid (houses db) = Some house →
  startOfDay now ≤ checkIn →
  (statusCode (bookingRequestPost now addMonths (Some tok) rq newId db).1 = 409 ↔
   ∃ i b, bookings db !! i = Some b ∧ houseId b = hid ∧
          status b ∈ [pending; confirmed; active] ∧
          checkInDate b ≤ computeCheckOut addMonths checkIn n (durationType rq) ∧
          checkIn ≤ checkOutDate b) ∧
  (statusCode (bookingRequestPost now addMonths (Some tok) rq newId db).1 = 409 →
   (bookingRequestPost now addMonths (Some tok) rq newId db).2 = db).
Proof.
  intros Hrole Hhid Hin Hdur Hn Hhouse Htoday.
  unfold bookingRequestPost.
  rewrite bool_decide_eq_false_2 by (intros H; by apply H).
  rewrite Hhid, Hin, Hdur. simpl. rewrite (proj2 (Z.eqb_neq n 0)) by done.
  rewrite Hhouse, (proj2 (Z.ltb_ge _ _)) by done.
  set (checkOut := computeCheckOut addMonths checkIn n (durationType rq)).
  destruct (find (availabilityQuery hid checkIn checkOut) (bookings db))
    as [|[i existing] l] eqn:Hfind.
  - rewrite find_nil in Hfind.
    assert (∀ r : Response * Db, statusCode r.1 ≠ 409 →
              (statusCode r.1 = 409 ↔
               ∃ i b, bookings db !! i = Some b ∧ houseId b = hid ∧
                      status b ∈ [pending; confirmed; active] ∧
                      checkInDate b ≤ checkOut ∧ checkIn ≤ checkOutDate b)
              ∧ (statusCode r.1 = 409 → r.2 = db)) as Hno.
    { intros r Hr. split; [|done]. split; [done|].
      intros (i & b & Hb & Hq). specialize (Hfind i b Hb).
      apply not_true_iff_false in Hfind. exfalso. by apply Hfind, availabilityQuery_spec. }
    apply Hno. case_bool_decide; [|done]. by destruct (insertOne _ _ _).
  - simpl. split; [|done]. split; [|done]. intros _.
    assert ((i, existing) ∈ find (availabilityQuery hid checkIn checkOut) (bookings db))
      as Hmem by (rewrite Hfind; left).
    apply elem_of_find in Hmem as [Hi Hq]. apply availabilityQuery_spec in Hq.
    exists i, existing. tauto.
Qed.

Lemma request_refused_iff_open_booking_meets_range_witness :
  statusCode
    (bookingRequestPost (march 2) (λ d n, d + n * 30 * msPerDay) (Some renterToken)
       (mkRequestBody (Some 7%N) (Some (march 25)) (Some 1) "days") 9 pendingDb).1 = 409.
Proof.
  destruct (request_refused_iff_open_booking_meets_range (march 2)
              (λ d n, d + n * 30 * msPerDay) renterToken
              (mkRequestBody (Some 7%N) (Some (march 25)) (Some 1) "days") 9 pendingDb
              7 (march 25) 1 sampleHouse) as [[_ Hrefused] _].
  - reflexivity.
  - reflexivity.
  - reflexivity.
  - reflexivity.
  - discriminate.
  - vm_compute. reflexivity.
  - vm_compute. discriminate.
  - apply Hrefused.
    exists 2%N, (sampleBooking 7 100 201 (march 20) (march 25) pending).
    split; [vm_compute; reflexivity|]. split; [reflexivity|].
    split; [left|]. split; vm_compute; discriminate.
Defined.

(** ** The renter's PUT *)

(** X11: the renter's PUT is scoped to the caller's own bookings: when the
    store holds no booking with the requested id whose renter is the caller,
    the answer is 404 and nothing is written, whatever action the body names
    (the lookup comes before the action is examined). *)
Theorem renter_update_scoped_to_renter now tok id rq db :
  role tok = "renter" →
  (∀ b, bookings db !! id = Some b → renterId b ≠ userId tok) →
  userBookingsPut now (Some tok) (Some id) rq db
  = (mkRenterResponse 404 (RenterError "Booking not found"), db).
Proof.
  intros Hrole Hnone. unfold userBookingsPut.
  rewrite bool_decide_eq_false_2 by (intros H; by apply H).
  apply findRented_None in Hnone. by rewrite Hnone.
Qed.

Lemma renter_update_scoped_to_renter_witness :
  userBookingsPut (march 2) (Some renterToken) (Some 5%N)
    (mkRenterUpdate "no such action" None None None) settledDb
  = (mkRenterResponse 404 (RenterError "Booking not found"), settledDb).
Proof.
  apply renter_update_scoped_to_renter.
  - reflexivity.
  - intros b Hb. vm_compute in Hb. injection Hb as <-. vm_compute. discriminate.
Defined.

(** X12: a renter's cancel of an own booking is refused (400, nothing
    written) when the booking is cancelled or completed, and succeeds from
    every other status, rejected included: the booking is then stored as
    cancelled with the given reason, its dates, house and [statusHistory] as
    they were (no history entry is pushed), and no other booking changes. *)
Theorem renter_cancel now tok id rq db b :
  role tok = "renter" →
  bookings db !! id = Some b →
  renterId b = userId tok →
  ru_action rq = "cancel" →
  (status b = cancelled ∨ status b = completed →
   (userBookingsPut now (Some tok) (Some id) rq db).2 = db ∧
   r_statusCode (userBookingsPut now (Some tok) (Some id) rq db).1 = 400) ∧
  (status b ≠ cancelled → status b ≠ completed →
   r_statusCode (userBookingsPut now (Some tok) (Some id) rq db).1 = 200 ∧
   ∃ b', bookings (userBookingsPut now (Some tok) (Some id) rq db).2 !! id = Some b' ∧
         status b' = cancelled ∧ cancellationReason b' = ru_reason rq ∧
         cancelledAt b' = Some now ∧
         statusHistory b' = statusHistory b ∧
         houseId b' = houseId b ∧
         checkInDate b' = checkInDate b ∧ checkOutDate b' = checkOutDate b ∧
         ∀ j, j ≠ id →
           bookings (userBookingsPut now (Some tok) (Some id) rq db).2 !! j
           = bookings db !! j).
Proof.
  intros Hrole Hb Hrenter Haction.
  unfold userBookingsPut, updateRented.
  rewrite bool_decide_eq_false_2 by (intros H; by apply H).
  rewrite (proj2 (findRented_Some id (userId tok) (bookings db) b)) by done.
  destruct (decide (ru_action rq = "cancel")); [|done].
  split.
  - intros [Hst | Hst]; rewrite Hst; done.
  - intros Hnc Hnd.
    destruct (decide (status b = cancelled)); [done|].
    destruct (decide (status b = completed)); [done|].
    simpl. split; [done|]. eexists. split; [apply lookup_insert_eq|].
    repeat (split; [done|]). intros j Hne. by rewrite lookup_insert_ne.
Qed.

Lemma renter_cancel_witness :
  ∃ b', bookings
          (userBookingsPut (march 2) (Some (mkToken 201 "renter")) (Some 2%N)
             (mkRenterUpdate "cancel" None None None) settledDb).2 !! 2%N = Some b' ∧
        status b' = cancelled.
Proof.
  destruct (renter_cancel (march 2) (mkToken 201 "renter") 2
              (mkRenterUpdate "cancel" None None None) settledDb
              (sampleBooking 7 100 201 (march 6) (march 8) rejected))
    as [_ Hcancel].
  - reflexivity.
  - vm_compute. reflexivity.
  - reflexivity.
  - reflexivity.
  - destruct Hcancel as (_ & b' & Hstored & Hst & _); [discriminate..|].
    exists b'. split; [exact Hstored | exact Hst].
Defined.

(** X13: a renter's change of dates is refused (400, nothing written) for a
    booking that is not pending; for a pending booking, with both dates given,
    it stores the dates as they come and keeps the booking pending.  No
    availability is checked and the two dates are not compared: the statement
    holds whatever the other bookings of the store are. *)
Theorem renter_update_dates now tok id rq db b checkIn checkOut :
  role tok = "renter" →
  bookings db !! id = Some b →
  renterId b = userId tok →
  ru_action rq = "update_dates" →
  ru_checkInDate rq = Some checkIn →
  ru_checkOutDate rq = Some checkOut →
  (status b ≠ pending →
   userBookingsPut now (Some tok) (Some id) rq db
   = (mkRenterResponse 400 (RenterError "Can only update dates for pending bookings"),
      db)) ∧
  (status b = pending →
   r_statusCode (userBookingsPut now (Some tok) (Some id) rq db).1 = 200 ∧
   ∃ b', bookings (userBookingsPut now (Some tok) (Some id) rq db).2 !! id = Some b' ∧
         checkInDate b' = checkIn ∧ checkOutDate b' = checkOut ∧
         status b' = pending ∧ houseId b' = houseId b ∧
         ∀ j, j ≠ id →
           bookings (userBookingsPut now (Some tok) (Some id) rq db).2 !! j
           = bookings db !! j).
Proof.
  intros Hrole Hb Hrenter Haction Hin Hout.
  unfold userBookingsPut, updateRented.
  rewrite bool_decide_eq_false_2 by (intros H; by apply H).
  rewrite (proj2 (findRented_Some id (userId tok) (bookings db) b)) by done.
  rewrite Haction, Hin, Hout. simpl.
  split.
  - intros Hst. by destruct (decide (status b ≠ pending)).
  - intros Hst. destruct (decide (status b ≠ pending)); [done|].
    simpl. split; [done|]. eexists. split; [apply lookup_insert_eq|].
    repeat (split; [done|]). intros j Hne. by rewrite lookup_insert_ne.
Qed.

Lemma renter_update_dates_witness :
  ∃ b', bookings
          (userBookingsPut (march 2) (Some (mkToken 201 "renter")) (Some 5%N)
             (mkRenterUpdate "update_dates" None (Some (march 14)) (Some (march 12)))
             settledDb).2 !! 5%N = Some b' ∧
        checkInDate b' = march 14 ∧ checkOutDate b' = march 12.
Proof.
  destruct (renter_update_dates (march 2) (mkToken 201 "renter") 5
              (mkRenterUpdate "update_dates" None (Some (march 14)) (Some (march 12)))
              settledDb (sampleBooking 7 100 201 (march 20) (march 25) pending)
              (march 14) (march 12)) as [_ Hupdate].
  - reflexivity.
  - vm_compute. reflexivity.
  - reflexivity.
  - reflexivity.
  - reflexivity.
  - reflexivity.
  - destruct Hupdate as (_ & b' & Hstored & Hin & Hout & _); [reflexivity|].
    exists b'. split; [exact Hstored|]. split; [exact Hin | exact Hout].
Defined.

(** ** Deleting a house *)

Lemma countDocuments_zero {A} (q : N → A → bool) (m : gmap N A) :
  countDocuments q m = 0%nat ↔ ∀ i d, m !! i = Some d → q i d = false.
Proof.
  unfold countDocuments. rewrite <- find_nil. split.
  - by intros ?%nil_length_inv.
  - by intros ->.
Qed.

(** The two creation handlers: nothing is written and the answer is not
    201, or one pending document is inserted under a fresh id, for a house
    that is bookable. *)
Lemma bookingRequestPost_outcome now addMonths decoded rq newId db :
  let r := bookingRequestPost now addMonths decoded rq newId db in
  (r.2 = db ∧ statusCode r.1 ≠ 201) ∨
  ∃ hid house doc,
    rq_houseId rq = Some hid ∧ findBookable hid (houses db) = Some house ∧
    houseId doc = hid ∧ status doc = pending ∧ bookings db !! newId = None ∧
    r.2 = mkDb (<[newId := doc]> (bookings db)) (houses db) (users db).
Proof.
  unfold bookingRequestPost.
  repeat (case_match; simpl; try (by left)).
  match goal with
  | H : insertOne _ _ _ = Some _ |- _ => apply insertOne_Some in H as [Hfresh ->]
  end.
  right. eexists _, _, _. repeat split; eauto.
Qed.

Lemma userBookingsPost_outcome now decoded rq newId db :
  let r := userBookingsPost now decoded rq newId db in
  (r.2 = db ∧ statusCode r.1 ≠ 201) ∨
  ∃ hid house doc,
    cb_houseId rq = Some hid ∧ findBookable hid (houses db) = Some house ∧
    houseId doc = hid ∧ status doc = pending ∧ bookings db !! newId = None ∧
    r.2 = mkDb (<[newId := doc]> (bookings db)) (houses db) (users db).
Proof.
  unfold userBookingsPost.
  repeat (case_match; simpl; try (by left)).
  match goal with
  | H : insertOne _ _ _ = Some _ |- _ => apply insertOne_Some in H as [Hfresh ->]
  end.
  right. eexists _, _, _. repeat split; eauto.
Qed.

Lemma findBookable_deleted hid h (m : gmap N House) :
  m !! hid = Some h → house_status h = "deleted" → findBookable hid m = None.
Proof. intros Hh Hst. unfold findBookable. by rewrite Hh, Hst. Qed.

Lemma houseDetailsGet_houses now houseId decoded db h :
  houses (houseDetailsGet now houseId decoded db).2 !! h =
    if decide (houseId = Some (Some h))
    then recordView now decoded <$> houses db !! h
    else houses db !! h.
Proof.
  destruct houseId as [[hid|]|]; [|by rewrite decide_False..].
  destruct (houses db !! hid) as [stored|] eqn:Hstored.
  - destruct (houseDetailsGet_found now hid decoded db stored Hstored) as [-> _].
    cbn [snd houses]. destruct (decide (Some (Some hid) = Some (Some h))) as [[= <-]|Hne].
    + by rewrite lookup_insert_eq, Hstored.
    + rewrite lookup_insert_ne; congruence.
  - assert ((houseDetailsGet now (Some (Some hid)) decoded db).2 = db) as ->
      by (unfold houseDetailsGet; by rewrite Hstored).
    destruct (decide _) as [[= <-]|]; [by rewrite Hstored|done].
Qed.

(** What one request does to the houses and to the set of bookings: a house
    stored as deleted and inactive stays so, and a booking that was not there
    is for a house that was bookable. *)
Lemma anyStep_houses db db' :
  anyStep db db' →
  (∀ hid h, houses db !! hid = Some h → house_status h = "deleted" → isActive h = false →
     ∃ h', houses db' !! hid = Some h' ∧ house_status h' = "deleted" ∧
           isActive h' = false) ∧
  (∀ j b', bookings db !! j = None → bookings db' !! j = Some b' →
     ∃ house, findBookable (houseId b') (houses db) = Some house).
Proof.
  assert (∀ db1, houses db1 = houses db →
            ∀ hid h, houses db !! hid = Some h → house_status h = "deleted" →
              isActive h = false →
              ∃ h', houses db1 !! hid = Some h' ∧ house_status h' = "deleted" ∧
                    isActive h' = false) as Hkept.
  { intros db1 -> hid h Hh Hst Hact. by exists h. }
  assert (∀ db1 newId,
            (db1 = db ∨
             ∃ hid house doc,
               findBookable hid (houses db) = Some house ∧ houseId doc = hid ∧
               db1 = mkDb (<[newId := doc]> (bookings db)) (houses db) (users db)) →
            (∀ hid h, houses db !! hid = Some h → house_status h = "deleted" →
               isActive h = false →
               ∃ h', houses db1 !! hid = Some h' ∧ house_status h' = "deleted" ∧
                     isActive h' = false) ∧
            (∀ j b', bookings db !! j = None → bookings db1 !! j = Some b' →
               ∃ house, findBookable (houseId b') (houses db) = Some house)) as Hcreate.
  { intros db1 newId [-> | (hid & house & doc & Hbookable & Hdoc & ->)].
    - split; [by apply Hkept|]. intros j b' Hnone Hsome. congruence.
    - split; [by apply Hkept|]. intros j b' Hnone Hsome. cbn [bookings] in Hsome.
      destruct (decide (j = newId)) as [->|Hne].
      + rewrite lookup_insert_eq in Hsome. injection Hsome as <-.
        rewrite Hdoc. by exists house.
      + rewrite lookup_insert_ne in Hsome by done. congruence. }
  intros [db1 [now addMonths decoded rq newId | now decoded rq newId
              | now notified decoded bookingId action reason notes]
         | now decoded bookingId rq | now decoded houseId rq | now houseId decoded].
  - apply (Hcreate _ newId).
    destruct (bookingRequestPost_outcome now addMonths decoded rq newId db)
      as [[-> _] | (hid & house & doc & _ & ? & ? & _ & _ & ->)]; [by left|].
    right. by exists hid, house, doc.
  - apply (Hcreate _ newId).
    destruct (userBookingsPost_outcome now decoded rq newId db)
      as [[-> _] | (hid & house & doc & _ & ? & ? & _ & _ & ->)]; [by left|].
    right. by exists hid, house, doc.
  - destruct (ownerBookingsPut_cases now notified decoded bookingId action reason notes db)
      as [[-> _] | (tok & id & A & _ & _ & _ & Hfound & _ & _ & _ & Hwrite)].
    { split; [by apply Hkept|]. intros j b' Hnone Hsome. congruence. }
    apply findOwned_Some in Hfound as [Hfound _].
    destruct Hwrite as [(_ & _ & ->) | (_ & ->)];
      (split; [by apply Hkept|]); intros j b' Hnone Hsome; cbn [bookings] in Hsome.
    + rewrite lookup_cascade in Hsome.
      destruct (decide (j = id)) as [->|Hne]; [congruence|].
      rewrite lookup_insert_ne, Hnone in Hsome by done. done.
    + destruct (decide (j = id)) as [->|Hne]; [congruence|].
      rewrite lookup_insert_ne in Hsome by done. congruence.
  - destruct (userBookingsPut_cases now decoded bookingId rq db)
      as [[-> _] | (tok & id & b & _ & _ & _ & Hb & _ & Hwrite)].
    { split; [by apply Hkept|]. intros j b' Hnone Hsome. congruence. }
    destruct Hwrite as [(_ & _ & _ & ->) | (checkIn & checkOut & _ & _ & _ & _ & ->)];
      (split; [by apply Hkept|]); intros j b' Hnone Hsome; cbn [snd bookings] in Hsome;
      (destruct (decide (j = id)) as [->|Hne]; [congruence|]);
      rewrite lookup_insert_ne in Hsome by done; congruence.
  - destruct (houseDelete_cases now decoded houseId rq db)
      as [[-> _] | (tok & hid & existing & _ & _ & Hh & _ & _ & Hhouses & _ & Hwrite)].
    { split; [by apply Hkept|]. intros j b' Hnone Hsome. congruence. }
    split.
    + intros hid' h Hh' Hst Hact. rewrite Hhouses.
      destruct (decide (hid' = hid)) as [->|Hne].
      * rewrite lookup_insert_eq. by eexists.
      * rewrite lookup_insert_ne by done. by exists h.
    + intros j b' Hnone Hsome.
      destruct Hwrite as [[_ Hsame] | (_ & _ & Hupd)].
      * rewrite Hsame in Hsome. congruence.
      * rewrite Hupd, lookup_updateMany, Hnone in Hsome. done.
  - split.
    + intros hid h Hh Hst Hact. rewrite houseDetailsGet_houses, Hh.
      destruct (decide _); by eexists.
    + intros j b' Hnone Hsome. rewrite houseDetailsGet_bookings in Hsome. congruence.
Qed.

Lemma anyStep_closedHouse db db' hid :
  anyStep db db' → closedHouse hid db → closedHouse hid db'.
Proof.
  intros Hstep [(h & Hh & Hst & Hact) Hended].
  destruct (anyStep_houses db db' Hstep) as [Hkept Hnew].
  split; [by apply (Hkept hid h)|].
  intros j b' Hb' Hhouse.
  destruct (anyStep_document db db' Hstep) as [target Hdelta].
  specialize (Hdelta j). rewrite Hb' in Hdelta.
  destruct (bookings db !! j) as [b|] eqn:Hb.
  - destruct Hdelta as (Hsame & _ & _ & Hcase).
    assert (status b ∉ [pending; confirmed; active]) as Hb_ended
      by (apply (Hended j b Hb); congruence).
    rewrite !elem_of_cons, elem_of_nil in *.
    destruct Hcase as [-> | [(_ & _ & Hto & _) | [(Hp & _) | (Hp & _)]]];
      [done| |tauto..].
    intuition congruence.
  - destruct (Hnew j b' Hb Hb') as [house Hbookable].
    rewrite Hhouse, (findBookable_deleted hid h _ Hh Hst) in Hbookable. done.
Qed.

Lemma reachable_closedHouse db db' hid :
  rtc anyStep db db' → closedHouse hid db → closedHouse hid db'.
Proof.
  induction 1 as [|db1 db2 db3 Hstep _ IH]; [done|].
  intros Hclosed. by apply IH, (anyStep_closedHouse db1).
Qed.

(** X14: a deletion answered with 200 closes the house for good.  The house
    is still stored, with status deleted and inactive (a soft delete); none
    of its bookings is pending, confirmed or active; the bookings of other
    houses are as they were.  And whatever requests are served afterwards
    (booking requests, bookings created from the renter's profile, owner
    actions, the renter's cancel and change of dates, deletions, readings of
    house details), the house stays deleted and inactive, none of its
    bookings is pending, confirmed or active, and neither a booking request
    nor a booking created from the profile is answered with 201 for it. *)
Theorem house_delete_closes_the_house now decoded rq db hid :
  d_statusCode (houseDelete now decoded (Some hid) rq db).1 = 200 →
  (∃ h, houses (houseDelete now decoded (Some hid) rq db).2 !! hid = Some h ∧
        house_status h = "deleted" ∧ isActive h = false) ∧
  (∀ j b, bookings (houseDelete now decoded (Some hid) rq db).2 !! j = Some b →
          houseId b = hid → status b ∉ [pending; confirmed; active]) ∧
  (∀ j b, bookings db !! j = Some b → houseId b ≠ hid →
          bookings (houseDelete now decoded (Some hid) rq db).2 !! j = Some b) ∧
  (∀ db', rtc anyStep (houseDelete now decoded (Some hid) rq db).2 db' →
     (∃ h, houses db' !! hid = Some h ∧
           house_status h = "deleted" ∧ isActive h = false) ∧
     (∀ j b, bookings db' !! j = Some b → houseId b = hid →
             status b ∉ [pending; confirmed; active]) ∧
     (∀ later addMonths renter request newId,
        rq_houseId request = Some hid →
        statusCode (bookingRequestPost later addMonths renter request newId db').1
        ≠ 201) ∧
     (∀ later renter request newId,
        cb_houseId request = Some hid →
        statusCode (userBookingsPost later renter request newId db').1 ≠ 201)).
Proof.
  intros Hok.
  destruct (houseDelete_cases now decoded (Some hid) rq db)
    as [[_ Hfail] | (tok & hid' & h & _ & [= <-] & Hh & _ & _ & Hhouses & _ & Hwrite)];
    [done|].
  assert (closedHouse hid (houseDelete now decoded (Some hid) rq db).2) as Hclosed.
  { split.
    - rewrite Hhouses, lookup_insert_eq. by eexists.
    - intros j b Hb Hhouse Hopen.
      destruct Hwrite as [[Hzero Hsame] | (_ & _ & Hupd)].
      + rewrite Hsame in Hb. rewrite countDocuments_zero in Hzero.
        specialize (Hzero j b Hb). apply not_true_iff_false in Hzero.
        by apply Hzero, openQuery_spec.
      + rewrite Hupd, lookup_updateMany in Hb.
        destruct (bookings db !! j) as [b0|]; [|done]. simpl in Hb.
        destruct (openQuery hid j b0) eqn:Hq; injection Hb as <-.
        * simpl in Hopen. rewrite !elem_of_cons, elem_of_nil in Hopen.
          intuition congruence.
        * apply not_true_iff_false in Hq. by apply Hq, openQuery_spec. }
  split; [apply Hclosed|]. split; [apply Hclosed|]. split.
  - intros j b Hb Hhouse.
    destruct Hwrite as [[_ ->] | (_ & _ & ->)]; [done|].
    rewrite lookup_updateMany, Hb. simpl.
    replace (openQuery hid j b) with false; [done|].
    symmetry. apply not_true_iff_false. rewrite openQuery_spec. tauto.
  - intros db' Hreach.
    destruct (reachable_closedHouse _ db' hid Hreach Hclosed)
      as [(h' & Hh' & Hst' & Hact') Hended].
    split; [by exists h'|]. split; [done|]. split.
    + intros later addMonths renter request newId Hreq Hcreated.
      destruct (bookingRequestPost_outcome later addMonths renter request newId db')
        as [[_ Hno] | (hid1 & house & doc & Hhid & Hbookable & _)]; [done|].
      rewrite Hreq in Hhid. injection Hhid as <-.
      by rewrite (findBookable_deleted hid h' _ Hh' Hst') in Hbookable.
    + intros later renter request newId Hreq Hcreated.
      destruct (userBookingsPost_outcome later renter request newId db')
        as [[_ Hno] | (hid1 & house & doc & Hhid & Hbookable & _)]; [done|].
      rewrite Hreq in Hhid. injection Hhid as <-.
      by rewrite (findBookable_deleted hid h' _ Hh' Hst') in Hbookable.
Qed.

Lemma house_delete_closes_the_house_witness :
  ∃ h, houses houseDeleted !! 7%N = Some h ∧
       house_status h = "deleted" ∧ isActive h = false.
Proof.
  destruct (house_delete_closes_the_house (march 3) (Some adminToken)
              (mkDeleteRequest true None) renterCancelled 7) as (Hsoft & _).
  - vm_compute. reflexivity.
  - exact Hsoft.
Defined.

(** X15: a house that still has a pending, confirmed or active booking is
    deleted only by an admin who sets [forceDelete]; its owner is refused, and
    so is an admin who does not force the deletion. *)
Theorem open_bookings_block_deletion now tok rq db hid j b :
  bookings db !! j = Some b →
  houseId b = hid →
  status b ∈ [pending; confirmed; active] →
  d_statusCode (houseDelete now (Some tok) (Some hid) rq db).1 = 200 →
  role tok = "admin" ∧ forceDelete rq = true ∧
  ∃ b', bookings (houseDelete now (Some tok) (Some hid) rq db).2 !! j = Some b' ∧
        status b' = cancelled ∧ cancelledBy b' = Some (userId tok).
Proof.
  intros Hb Hhouse Hopen Hok.
  destruct (houseDelete_cases now (Some tok) (Some hid) rq db)
    as [[_ Hfail] | (tok' & hid' & h & [= <-] & [= <-] & _ & _ & _ & _ & _ & Hwrite)];
    [done|].
  assert (openQuery hid j b = true) as Hq by (by apply openQuery_spec).
  destruct Hwrite as [[Hzero _] | (Hadmin & Hforce & Hupd)].
  - rewrite countDocuments_zero in Hzero. rewrite (Hzero j b Hb) in Hq. discriminate Hq.
  - repeat (split; [done|]). rewrite Hupd, lookup_updateMany, Hb. simpl. rewrite Hq.
    by eexists.
Qed.

Lemma open_bookings_block_deletion_witness :
  role adminToken = "admin" ∧
  ∃ b', bookings houseDeleted !! 5%N = Some b' ∧ status b' = cancelled.
Proof.
  destruct (open_bookings_block_deletion (march 3) adminToken (mkDeleteRequest true None)
              renterCancelled 7 5 (sampleBooking 7 100 201 (march 20) (march 25) pending))
    as (Hadmin & _ & b' & Hstored & Hst & _).
  - vm_compute. reflexivity.
  - reflexivity.
  - left.
  - vm_compute. reflexivity.
  - split; [exact Hadmin|]. exists b'. split; [exact Hstored | exact Hst].
Defined.

(** ** house-details: views and the calendar *)

(** X16: a house that is not listed (not approved, not active or not
    available) is answered with 404 to a caller who is neither owner nor
    admin, and the view is recorded all the same: the stored house has one
    more view and one more [viewedBy] entry. *)
Theorem hidden_house_view_is_counted now hid decoded db stored :
  houses db !! hid = Some stored →
  (∀ tok, decoded = Some tok → role tok ≠ "owner" ∧ role tok ≠ "admin") →
  house_status stored ≠ "approved" ∨ isActive stored = false ∨ isAvailable stored = false →
  (houseDetailsGet now (Some (Some hid)) decoded db).1
    = mkResponse 404 (ErrorBody "Property not available") ∧
  ∃ h, houses (houseDetailsGet now (Some (Some hid)) decoded db).2 !! hid = Some h ∧
       views h = views stored + 1 ∧
       length (viewedBy h) = S (length (viewedBy stored)).
Proof.
  intros Hstored Hrole Hhidden. unfold houseDetailsGet. rewrite Hstored.
  assert (match decoded with
          | Some tok => bool_decide (role tok = "owner" ∨ role tok = "admin")
          | None => false
          end = false) as ->.
  { destruct decoded as [tok|]; [|done]. apply bool_decide_eq_false.
    destruct (Hrole tok eq_refl). tauto. }
  assert (bool_decide (house_status (recordView now decoded stored) = "approved")
          && isActive (recordView now decoded stored)
          && isAvailable (recordView now decoded stored) = false) as ->.
  { simpl. destruct Hhidden as [H | [-> | ->]].
    - by rewrite (bool_decide_eq_false_2 _ H).
    - by rewrite andb_false_r.
    - by rewrite andb_false_r. }
  simpl. split; [done|]. rewrite lookup_insert_eq. eexists. split; [done|].
  simpl. split; [done|]. rewrite length_app. simpl. lia.
Qed.

Lemma hidden_house_view_is_counted_witness :
  ∃ h, houses (houseDetailsGet (march 4) (Some (Some 7%N)) (Some renterToken)
                 houseDeleted).2 !! 7%N = Some h ∧
       views h = 0 + 1.
Proof.
  destruct (hidden_house_view_is_counted (march 4) 7 (Some renterToken) houseDeleted
              (softDelete sampleHouse)) as (_ & h & Hstored & Hviews & _).
  - vm_compute. reflexivity.
  - intros tok [= <-]. split; discriminate.
  - left. discriminate.
  - exists h. split; [exact Hstored | exact Hviews].
Defined.


(** ** recommendations: the diversity pass *)

(** The loop extends [finalRecs] by a sublist of the recommendations it is
    given, and stops at [limit] elements when it starts below [limit]. *)
Lemma diversifyLoop_extends limit recs :
  ∀ propertyTypeCount finalRecs,
    ∃ kept,
      diversifyLoop limit recs propertyTypeCount finalRecs = (finalRecs ++ kept)%list ∧
      kept `sublist_of` recs ∧
      (Z.of_nat (length finalRecs) < limit →
       Z.of_nat (length (finalRecs ++ kept)%list) ≤ limit).
Proof.
  induction recs as [|rec rest IH]; intros counts acc; simpl.
  - exists []. rewrite app_nil_r. split; [done|]. split; [done|]. lia.
  - case_bool_decide as Hcount.
    + destruct (Z.of_nat (length (acc ++ [rec])) >=? limit) eqn:Hfull.
      * exists [rec]. split; [done|]. split; [by apply sublist_skip, sublist_nil_l|].
        rewrite length_app. simpl. lia.
      * destruct (IH (<[propertyType rec := S (default 0%nat (counts !! propertyType rec))]>
                        counts) (acc ++ [rec])%list) as (kept & -> & Hsub & Hlen).
        exists (rec :: kept). rewrite <- app_assoc. simpl.
        split; [done|]. split; [by apply sublist_skip|].
        intros _.
        replace (acc ++ rec :: kept)%list with ((acc ++ [rec]) ++ kept)%list
          by (by rewrite <- app_assoc).
        apply Hlen. rewrite Z.geb_leb in Hfull. apply Z.leb_gt in Hfull. lia.
    + destruct (Z.of_nat (length acc) >=? limit) eqn:Hfull.
      * exists []. rewrite app_nil_r. split; [done|].
        split; [apply sublist_nil_l|]. lia.
      * destruct (IH (<[propertyType rec := default 0%nat (counts !! propertyType rec)]>
                        counts) acc) as (kept & -> & Hsub & Hlen).
        exists kept. split; [done|]. split; [by apply sublist_cons|done].
Qed.

(** The best-scored recommendation is always kept, and kept first. *)
Lemma diversifyLoop_head limit rec rest :
  ∃ kept, diversifyLoop limit (rec :: rest) ∅ [] = rec :: kept ∧
          (limit ≤ 0 → kept = []).
Proof.
  simpl. rewrite lookup_empty. simpl.
  destruct (Z.of_nat 1 >=? limit) eqn:Hfull.
  - by exists [].
  - destruct (diversifyLoop_extends limit rest (<[propertyType rec := 1%nat]> ∅) [rec])
      as (kept & -> & _).
    exists kept. split; [done|]. intros Hlimit.
    rewrite Z.geb_leb in Hfull. apply Z.leb_gt in Hfull. lia.
Qed.

Lemma chosen_true finalRecs rec :
  chosen finalRecs rec = true ↔ rec_id rec ∈ rec_id <$> finalRecs.
Proof.
  unfold chosen. rewrite existsb_exists, list_elem_of_fmap. split.
  - intros (f & Hin & Hid). apply bool_decide_eq_true in Hid.
    exists f. by rewrite <- list_elem_of_In in Hin.
  - intros (f & Hid & Hin). exists f. rewrite <- list_elem_of_In.
    split; [done|]. by apply bool_decide_eq_true.
Qed.

Lemma list_filter_sublist {A} (f : A → bool) (l : list A) :
  List.filter f l `sublist_of` l.
Proof.
  induction l as [|x l IH]; simpl; [done|].
  destruct (f x); [by apply sublist_skip|by apply sublist_cons].
Qed.

(** Filtering out a sublist of a list without repeated ids leaves the
    others, all of them. *)
Lemma filter_not_chosen_length finalRecs sortedRecs :
  finalRecs `sublist_of` sortedRecs →
  NoDup (rec_id <$> sortedRecs) →
  length (List.filter (λ rec, negb (chosen finalRecs rec)) sortedRecs)
  = (length sortedRecs - length finalRecs)%nat.
Proof.
  induction 1 as [|x F l Hsub IH|x F l Hsub IH]; intros Hnd; [done| |].
  - apply NoDup_cons in Hnd as [Hx Hnd]. simpl.
    rewrite (bool_decide_eq_true_2 (rec_id x = rec_id x)) by done. simpl.
    rewrite <- IH by done. f_equal. apply filter_ext_in. intros y Hy.
    rewrite <- list_elem_of_In in Hy. f_equal.
    rewrite bool_decide_eq_false_2; [done|].
    intros Heq. apply Hx. rewrite Heq. by apply list_elem_of_fmap_2.
  - apply NoDup_cons in Hnd as [Hx Hnd]. simpl.
    replace (chosen F x) with false.
    2:{ symmetry. apply not_true_iff_false. rewrite chosen_true. intros Hin.
        apply Hx. apply list_elem_of_fmap in Hin as (f & -> & Hf).
        apply list_elem_of_fmap_2. by apply (elem_of_sublist F l). }
    simpl. rewrite IH by done. apply sublist_length in Hsub. lia.
Qed.

(** X18: the diversity pass of the hybrid recommendations never costs a
    recommendation.  From scored recommendations with distinct ids and a
    limit of at least 1 it returns exactly min(limit, n) of them, each at most
    once, the best-scored one first; the cap of two per property type only
    decides which come early.  With a limit of 0 or less it returns the first
    recommendation alone. *)
Theorem diversify_keeps_count limit sortedRecs :
  NoDup (rec_id <$> sortedRecs) →
  (1 ≤ limit →
   length (diversify limit sortedRecs) = (Z.to_nat limit `min` length sortedRecs)%nat) ∧
  (limit ≤ 0 → diversify limit sortedRecs = take 1 sortedRecs) ∧
  NoDup (rec_id <$> diversify limit sortedRecs) ∧
  (∀ rec, rec ∈ diversify limit sortedRecs → rec ∈ sortedRecs) ∧
  head (diversify limit sortedRecs) = head sortedRecs.
Proof.
  intros Hnd. unfold diversify.
  destruct (diversifyLoop_extends limit sortedRecs ∅ []) as (F & HF & Hsub & Hlen).
  rewrite HF. simpl in *.
  set (remaining :=
         take (Z.to_nat (limit - Z.of_nat (length F)))
           (List.filter (λ rec, negb (chosen F rec)) sortedRecs)).
  assert (length F ≤ length sortedRecs)%nat as HlenF by (by apply sublist_length).
  assert (NoDup (rec_id <$> F)) as HndF
    by (eapply sublist_NoDup; [exact Hnd|by apply fmap_sublist]).
  assert (head F = head sortedRecs ∧ (limit ≤ 0 → F = take 1 sortedRecs))
    as [Hhead Hone].
  { destruct sortedRecs as [|rec rest]; [by apply sublist_nil_r in Hsub as ->|].
    destruct (diversifyLoop_head limit rec rest) as (kept & Hk & Hnone).
    rewrite HF in Hk. rewrite Hk. split; [done|].
    intros Hlimit. by rewrite (Hnone Hlimit). }
  split; [|split; [|split; [|split]]].
  - intros Hlimit. destruct (Z.of_nat (length F) <? limit) eqn:Hshort.
    + apply Z.ltb_lt in Hshort. subst remaining.
      rewrite length_app, length_take, filter_not_chosen_length by done. lia.
    + apply Z.ltb_ge in Hshort. specialize (Hlen ltac:(lia)). lia.
  - intros Hlimit. rewrite (proj2 (Z.ltb_ge _ _)) by lia. by apply Hone.
  - destruct (Z.of_nat (length F) <? limit); [|done].
    rewrite fmap_app. apply NoDup_app. split; [done|]. split.
    + intros i HiF Hirem. apply list_elem_of_fmap in Hirem as (rec & -> & Hrec).
      subst remaining. apply elem_of_take in Hrec as (k & Hrec & _).
      apply list_elem_of_lookup_2, list_elem_of_In, filter_In in Hrec as [_ Hrec].
      apply negb_true_iff, not_true_iff_false in Hrec. by apply Hrec, chosen_true.
    + eapply sublist_NoDup; [exact Hnd|]. apply fmap_sublist. subst remaining.
      etrans; [apply sublist_take|]. apply list_filter_sublist.
  - intros rec Hrec.
    destruct (Z.of_nat (length F) <? limit); [|by apply (elem_of_sublist F)].
    apply elem_of_app in Hrec as [Hrec | Hrec]; [by apply (elem_of_sublist F)|].
    subst remaining. apply elem_of_take in Hrec as (k & Hrec & _).
    apply list_elem_of_lookup_2, list_elem_of_In, filter_In in Hrec as [Hrec _].
    by apply list_elem_of_In.
  - destruct (Z.of_nat (length F) <? limit); [|done].
    destruct F as [|f F']; [|done].
    destruct sortedRecs as [|rec rest]; [|discriminate Hhead].
    subst remaining. simpl. by rewrite take_nil.
Qed.

Lemma diversify_keeps_count_witness :
  length (diversify 3 [mkRec 1 "house"; mkRec 2 "house"; mkRec 3 "house";
                        mkRec 4 "villa"]) = 3%nat.
Proof.
  destruct (diversify_keeps_count 3 [mkRec 1 "house"; mkRec 2 "house"; mkRec 3 "house";
                                     mkRec 4 "villa"]) as (Hcount & _).
  - simpl. repeat (apply NoDup_cons; split; [set_solver|]). apply NoDup_nil_2.
  - apply Hcount. lia.
Defined.

(** ** The admin login *)

Section AdminLoginFacts.
Import AdminLogin.
Implicit Types (users : gmap N Account) (admin : Account) (e p ip : string).
Implicit Types (compare : string → string → bool) (toLowerCase : string → string).

Lemma findOne_Some {A} (q : N → A → bool) (m : gmap N A) i a :
  findOne q m = Some (i, a) → m !! i = Some a ∧ q i a = true.
Proof.
  intros Hhead. apply head_Some_elem_of in Hhead. by apply elem_of_find in Hhead.
Qed.

Lemma findOne_unique {A} (q : N → A → bool) (m : gmap N A) i a :
  m !! i = Some a → q i a = true →
  (∀ j b, m !! j = Some b → q j b = true → j = i) →
  findOne q m = Some (i, a).
Proof.
  intros Hi Hq Huniq. unfold findOne.
  destruct (find q m) as [|[j b] l] eqn:Hfind.
  - assert ((i, a) ∈ find q m) as Hin by (by apply elem_of_find).
    rewrite Hfind in Hin. by apply not_elem_of_nil in Hin.
  - assert ((j, b) ∈ find q m) as Hin by (rewrite Hfind; left).
    apply elem_of_find in Hin as [Hj Hqb].
    assert (j = i) as -> by eauto. simpl. congruence.
Qed.

Lemma minutesLeft_bounds now l :
  now < l →
  1 ≤ minutesLeft now l ∧ (l - now ≤ 30 * 60000 → minutesLeft now l ≤ 30).
Proof.
  unfold minutesLeft. intros Hlt. Z.div_mod_to_equations. lia.
Qed.

Lemma handler_found compare toLowerCase now ip e p users id admin :
  e ≠ "" → p ≠ "" →
  findOne (adminQuery (toLowerCase e)) users = Some (id, admin) →
  handler compare toLowerCase now ip (Some e) (Some p) users =
    if attemptsReached admin then
      if stillLocked now admin then
        (failed 423 "Account locked"
           (Some ("Too many failed login attempts. Please try again in "
                  ++ pretty (minutesLeft now (default 0 (lockoutTime admin)))
                  ++ " minutes.")),
         users)
      else verifyPassword compare now ip id admin p (updateOne id resetAttempts users)
    else verifyPassword compare now ip id admin p users.
Proof.
  intros He Hp Hfind. unfold handler, missing.
  rewrite !bool_decide_eq_false_2 by done. simpl. by rewrite Hfind.
Qed.

Lemma handler_locked compare toLowerCase now ip e p users id admin n t :
  e ≠ "" → p ≠ "" →
  findOne (adminQuery (toLowerCase e)) users = Some (id, admin) →
  loginAttempts admin = Some n → 5 ≤ n →
  lastFailedLogin admin = Some t → now < t + 30 * 60000 →
  handler compare toLowerCase now ip (Some e) (Some p) users =
    (failed 423 "Account locked"
       (Some ("Too many failed login attempts. Please try again in "
              ++ pretty (minutesLeft now (t + 30 * 60000)) ++ " minutes.")),
     users).
Proof.
  intros He Hp Hfind Hn Hmax Ht Hnow.
  rewrite (handler_found _ _ _ _ _ _ _ _ _ He Hp Hfind).
  unfold attemptsReached, stillLocked, lockoutTime.
  rewrite Hn, Ht. cbn [fmap option_fmap option_map default].
  unfold MAX_LOGIN_ATTEMPTS, LOCKOUT_DURATION_MINUTES.
  by rewrite (proj2 (Z.leb_le _ _) Hmax), (proj2 (Z.ltb_lt _ _) Hnow).
Qed.



Lemma attemptsReached_below admin :
  default 0 (loginAttempts admin) < 5 → attemptsReached admin = false.
Proof.
  unfold attemptsReached, MAX_LOGIN_ATTEMPTS.
  destruct (loginAttempts admin) as [n|]; simpl; [|done].
  intros Hn. apply Z.leb_gt. lia.
Qed.

(** A wrong password on an account that is neither locked, suspended nor
    inactive. *)
Lemma failed_attempt compare toLowerCase now ip e p users id admin :
  e ≠ "" → p ≠ "" →
  users !! id = Some admin →
  adminQuery (toLowerCase e) id admin = true →
  (∀ j b, users !! j = Some b → adminQuery (toLowerCase e) j b = true → j = id) →
  isSuspended admin = false → isActive admin = true →
  default 0 (loginAttempts admin) < 5 →
  compare p (password admin) = false →
  (handler compare toLowerCase now ip (Some e) (Some p) users).2 !! id
    = Some (failedLogin now admin) ∧
  ∀ j, j ≠ id →
    (handler compare toLowerCase now ip (Some e) (Some p) users).2 !! j = users !! j.
Proof.
  intros He Hp Hid Hq Huniq Hsusp Hact Hbelow Hwrong.
  rewrite (handler_found _ _ _ _ _ _ _ _ _ He Hp (findOne_unique _ _ _ _ Hid Hq Huniq)).
  rewrite (attemptsReached_below _ Hbelow).
  unfold verifyPassword. rewrite Hsusp, Hact, Hwrong. cbn [negb snd]. unfold updateOne.
  split.
  - by rewrite lookup_alter_eq, Hid.
  - intros j Hj. by rewrite lookup_alter_ne.
Qed.

Lemma failed_attempts compare toLowerCase ip e id rest :
  e ≠ "" →
  ∀ x users admin,
  users !! id = Some admin →
  adminQuery (toLowerCase e) id admin = true →
  (∀ j b, users !! j = Some b → adminQuery (toLowerCase e) j b = true → j = id) →
  isSuspended admin = false → isActive admin = true →
  Forall (λ y, y.2 ≠ "" ∧ compare y.2 (password admin) = false) (x :: rest) →
  default 0 (loginAttempts admin) + Z.of_nat (length (x :: rest)) ≤ 5 →
  ∃ a, attempts compare toLowerCase ip e (x :: rest) users !! id = Some a ∧
       sameIdentity admin a ∧
       loginAttempts a
         = Some (default 0 (loginAttempts admin) + Z.of_nat (length (x :: rest))) ∧
       lastFailedLogin a = fst <$> last (x :: rest) ∧
       ∀ j, j ≠ id →
         attempts compare toLowerCase ip e (x :: rest) users !! j = users !! j.
Proof.
  intros He. induction rest as [|y rest IH];
    intros x users admin Hid Hq Huniq Hsusp Hact Hwrong Hbound.
  - apply Forall_cons in Hwrong as [[Hp Hw] _]. simpl in Hbound.
    destruct (failed_attempt compare toLowerCase x.1 ip e x.2 users id admin)
      as [Hnew Hother]; try done; [lia|].
    exists (failedLogin x.1 admin). unfold attempts. cbn [foldl].
    split; [done|]. split; [done|]. split; [done|]. split; [done|]. done.
  - apply Forall_cons in Hwrong as [[Hp Hw] Hrest].
    assert (Z.of_nat (length (x :: y :: rest)) = 1 + Z.of_nat (length (y :: rest)))
      as Hlen by (cbn [length]; lia).
    destruct (failed_attempt compare toLowerCase x.1 ip e x.2 users id admin)
      as [Hnew Hother]; try done; [cbn [length] in *; lia|].
    destruct (IH y _ (failedLogin x.1 admin) Hnew) as (a & Ha & Hsame & Hn & Hlast & Hframe).
    + done.
    + intros j b Hj Hqb. destruct (decide (j = id)) as [|Hne]; [done|].
      rewrite Hother in Hj by done. eauto.
    + done.
    + done.
    + done.
    + cbn [failedLogin loginAttempts default]. change (Datatypes.id ?z) with z. lia.
    + exists a. unfold attempts in *. cbn [foldl] in *.
      split; [done|]. split; [done|]. split.
      { rewrite Hn. cbn [failedLogin loginAttempts default]. change (Datatypes.id ?z) with z.
        f_equal. lia. }
      split; [by rewrite last_cons_cons|].
      intros j Hj. by rewrite Hframe, Hother.
Qed.

(** X22: failed attempts add up to a lockout.  An admin account that is
    neither suspended nor inactive, the only one of its email, with fewer than
    five failures on record: after as many wrong passwords in a row as are
    missing to five, at whatever times, the account has five failures on
    record, the last at the time of the last attempt, and for the next 30
    minutes a login is answered 423 and changes nothing, whatever the
    password. *)
Theorem five_failures_lock_the_account
    compare toLowerCase ip e users id admin tries t p' now p :
  e ≠ "" → p ≠ "" →
  users !! id = Some admin →
  adminQuery (toLowerCase e) id admin = true →
  (∀ j b, users !! j = Some b → adminQuery (toLowerCase e) j b = true → j = id) →
  isSuspended admin = false → isActive admin = true →
  Forall (λ y, y.2 ≠ "" ∧ compare y.2 (password admin) = false) tries →
  Z.of_nat (length tries) = 5 - default 0 (loginAttempts admin) →
  last tries = Some (t, p') →
  now < t + 30 * 60000 →
  (∃ a, attempts compare toLowerCase ip e tries users !! id = Some a ∧
        loginAttempts a = Some 5 ∧ lastFailedLogin a = Some t) ∧
  l_statusCode
    (handler compare toLowerCase now ip (Some e) (Some p)
       (attempts compare toLowerCase ip e tries users)).1 = 423 ∧
  (handler compare toLowerCase now ip (Some e) (Some p)
     (attempts compare toLowerCase ip e tries users)).2
  = attempts compare toLowerCase ip e tries users.
Proof.
  intros He Hp Hid Hq Huniq Hsusp Hact Hwrong Hlen Hlast Hnow.
  destruct tries as [|x rest]; [done|].
  destruct (failed_attempts compare toLowerCase ip e id rest He x users admin)
    as (a & Ha & Hsame & Hn & Ht & Hframe); try done; [lia|].
  rewrite Hlast in Ht. cbn [fmap option_fmap option_map fst] in Ht.
  assert (loginAttempts a = Some 5) as Hfive by (rewrite Hn; f_equal; lia).
  split; [by exists a|].
  destruct Hsame as (Hemail & Hrole & _).
  assert (findOne (adminQuery (toLowerCase e))
            (attempts compare toLowerCase ip e (x :: rest) users) = Some (id, a))
    as Hfind.
  { apply findOne_unique; [done| |].
    - unfold adminQuery in *. by rewrite Hemail, Hrole.
    - intros j b Hj Hqb. destruct (decide (j = id)) as [|Hne]; [done|].
      rewrite Hframe in Hj by done. eauto. }
  by rewrite (handler_locked _ _ _ _ _ _ _ _ _ 5 t He Hp Hfind Hfive ltac:(lia) Ht Hnow).
Qed.

Lemma five_failures_lock_the_account_witness :
  l_statusCode
    (handler sampleCompare sampleLower (march 1 + 600000) "10.0.0.1"
       (Some "root@rentzone.lk") (Some "secret")
       (attempts sampleCompare sampleLower "10.0.0.1" "root@rentzone.lk"
          [(march 1, "a"); (march 1 + 1, "b"); (march 1 + 2, "c")]
          (sampleUsers (Some 2) None))).1 = 423.
Proof.
  refine (proj1 (proj2 (five_failures_lock_the_account sampleCompare sampleLower
           "10.0.0.1" "root@rentzone.lk" (sampleUsers (Some 2) None) 900
           (sampleAdmin (Some 2) None)
           [(march 1, "a"); (march 1 + 1, "b"); (march 1 + 2, "c")]
           (march 1 + 2) "c" (march 1 + 600000) "secret" _ _ _ _ _ _ _ _ _ _ _))).
  - discriminate.
  - discriminate.
  - vm_compute. reflexivity.
  - vm_compute. reflexivity.
  - intros j b Hj _. unfold sampleUsers in Hj.
    apply lookup_singleton_Some in Hj. by destruct Hj.
  - reflexivity.
  - reflexivity.
  - repeat constructor; simpl; discriminate.
  - vm_compute. reflexivity.
  - reflexivity.
  - vm_compute. reflexivity.
Defined.

(** X23: the warning [Account will be locked] is also given with four
    attempts left.  A wrong password for an account that is neither suspended
    nor inactive, and either has no [loginAttempts] field yet or comes out of
    an expired lockout: the answer is computed from the document as it was
    read, the stored counter is 1 afterwards. *)
Theorem lock_warning_with_attempts_left
    compare toLowerCase now ip e p users id admin :
  e ≠ "" → p ≠ "" →
  findOne (adminQuery (toLowerCase e)) users = Some (id, admin) →
  isSuspended admin = false → isActive admin = true →
  compare p (password admin) = false →
  loginAttempts admin = None
  ∨ (attemptsReached admin = true ∧ stillLocked now admin = false) →
  (handler compare toLowerCase now ip (Some e) (Some p) users).1
    = failed 401 "Invalid credentials"
        (Some "Invalid password. Account will be locked.") ∧
  ∃ a, (handler compare toLowerCase now ip (Some e) (Some p) users).2 !! id = Some a ∧
       loginAttempts a = Some 1.
Proof.
  intros He Hp Hfind Hsusp Hact Hwrong Hcase.
  rewrite (handler_found _ _ _ _ _ _ _ _ _ He Hp Hfind).
  apply findOne_Some in Hfind as [Hid _].
  unfold verifyPassword, updateOne. rewrite Hsusp, Hact, Hwrong. cbn [negb].
  destruct Hcase as [Hnone | [Hreached Hexpired]].
  - unfold attemptsReached, remainingAttempts. rewrite Hnone. cbn [fst snd].
    split; [done|]. exists (failedLogin now admin).
    rewrite lookup_alter_eq, Hid. split; [done|].
    cbn [failedLogin loginAttempts]. by rewrite Hnone.
  - rewrite Hreached, Hexpired. cbn [fst snd]. split.
    + unfold attemptsReached, MAX_LOGIN_ATTEMPTS in Hreached.
      unfold remainingAttempts, MAX_LOGIN_ATTEMPTS.
      destruct (loginAttempts admin) as [n|]; [|done].
      apply Z.leb_le in Hreached. cbn [fmap option_fmap option_map].
      unfold invalidPasswordMessage.
      by rewrite (proj2 (Z.ltb_ge 0 (5 - (n + 1))) ltac:(lia)).
    + exists (failedLogin now (resetAttempts admin)).
      by rewrite !lookup_alter_eq, Hid.
Qed.

Lemma lock_warning_with_attempts_left_witness :
  (handler sampleCompare sampleLower (march 2) "10.0.0.1"
     (Some "root@rentzone.lk") (Some "guess")
     (sampleUsers (Some 5) (Some (march 1)))).1
    = failed 401 "Invalid credentials"
        (Some "Invalid password. Account will be locked.") ∧
  ∃ a, (handler sampleCompare sampleLower (march 2) "10.0.0.1"
          (Some "root@rentzone.lk") (Some "guess")
          (sampleUsers (Some 5) (Some (march 1)))).2 !! 900%N = Some a ∧
       loginAttempts a = Some 1.
Proof.
  apply (lock_warning_with_attempts_left sampleCompare sampleLower (march 2)
           "10.0.0.1" "root@rentzone.lk" "guess"
           (sampleUsers (Some 5) (Some (march 1))) 900
           (sampleAdmin (Some 5) (Some (march 1)))).
  - discriminate.
  - discriminate.
  - vm_compute. reflexivity.
  - reflexivity.
  - reflexivity.
  - vm_compute. reflexivity.
  - right. split; vm_compute; reflexivity.
Defined.

Lemma handler_store compare toLowerCase now ip (oe op : option string) users :
  ∃ id u, (∀ a, sameIdentity a (u a)) ∧
    (handler compare toLowerCase now ip oe op users).2 = alter u id users.
Proof.
  assert (∃ (id : N) (u : Account → Account),
            (∀ a, sameIdentity a (u a)) ∧ users = alter u id users) as Hsame.
  { exists 0%N, (λ a, a). split; [done|]. by rewrite alter_id. }
  assert (∀ id u, (∀ a, sameIdentity a (u a)) →
            ∀ users' r, users' = alter u id users →
            ∃ id' u', (∀ a, sameIdentity a (u' a)) ∧
              (verifyPassword compare now ip id r
                 (default "" op) users').2 = alter u' id' users) as Hverify.
  { intros id u Hu users' r ->. unfold verifyPassword, updateOne.
    destruct (isSuspended r); [by exists id, u|].
    destruct (negb (isActive r)); [by exists id, u|].
    destruct (negb _); cbn [snd].
    - exists id, (failedLogin now ∘ u). split; [|by rewrite alter_alter_eq].
      intros a. destruct (Hu a) as (? & ? & ? & ? & ?). by repeat split.
    - exists id, (successfulLogin now ip ∘ u). split; [|by rewrite alter_alter_eq].
      intros a. destruct (Hu a) as (? & ? & ? & ? & ?). by repeat split. }
  unfold handler. destruct oe as [e|], op as [p|]; try done.
  destruct (missing (Some e) || missing (Some p)); [done|].
  destruct (findOne _ users) as [[id admin]|]; [|done].
  destruct (attemptsReached admin).
  - destruct (stillLocked now admin); [done|].
    apply (Hverify id resetAttempts); [done|done].
  - apply (Hverify id (λ a, a)); [done|]. by rewrite alter_id.
Qed.

(** X24: a login attempt, whatever it is answered, touches at most one
    account, creates and removes none, and leaves every account its email,
    role, password, suspension and activity. *)
Theorem login_touches_one_account compare toLowerCase now ip (oe op : option string) users :
  ∃ id, ∀ j,
    (j ≠ id →
     (handler compare toLowerCase now ip oe op users).2 !! j = users !! j) ∧
    option_Forall2 sameIdentity (users !! j)
      ((handler compare toLowerCase now ip oe op users).2 !! j).
Proof.
  destruct (handler_store compare toLowerCase now ip oe op users)
    as (id & u & Hu & ->).
  exists id. intros j. split.
  - intros Hj. by rewrite lookup_alter_ne.
  - destruct (decide (j = id)) as [->|Hj].
    + rewrite lookup_alter_eq. destruct (users !! id); constructor. apply Hu.
    + rewrite lookup_alter_ne by done.
      destruct (users !! j); constructor. by repeat split.
Qed.

End AdminLoginFacts.

(** ** The user's profile *)

Section UserProfileFacts.
Import UserProfile.
Implicit Types (users : gmap N User) (u : User) (b : Body) (uf : UpdateFields).
Implicit Types (compare : string → string → bool) (hash : string → string).
Implicit Types (length : string → Z).

Lemma update_cases now uid uf users :
  (update now uid uf users).2 = users
  ∨ ∃ u, users !! uid = Some u ∧ noKeys uf = false ∧
      update now uid uf users
      = (mkProfileResponse 200
           (ProfileOk "Profile updated successfully" (userResponse uid (set now uf u))),
         <[uid := set now uf u]> users).
Proof.
  unfold update. destruct (noKeys uf); [by left|].
  destruct (users !! uid) as [u|]; [|by left].
  right. by exists u.
Qed.

(** The outcomes of a PUT as far as the store goes: nothing, or one [$set]
    on the caller's document, with a password only after the three checks. *)
Lemma profilePut_cases compare hash length now auth body users :
  (profilePut compare hash length now auth body users).2 = users
  ∨ ∃ uid b u uf,
      auth = Verified uid ∧ body = Some b ∧ users !! uid = Some u ∧
      (profilePut compare hash length now auth body users).2
        = <[uid := set now uf u]> users ∧
      (uf = allowed b
       ∨ ∃ c n, currentPassword b = Some c ∧ newPassword b = Some n ∧
           compare c (password u) = true ∧ 8 ≤ length n ∧
           compare n (password u) = false ∧
           uf = withPassword (hash n) (allowed b)).
Proof.
  destruct auth as [| | | |uid]; try by left.
  destruct body as [b|]; [|by left]. cbn [profilePut].
  destruct (truthy (currentPassword b) && truthy (newPassword b)) eqn:Hboth.
  - destruct (users !! uid) as [u|] eqn:Hu; [|by left].
    destruct (compare _ (password u)) eqn:Hcur; cbn [negb]; [|by left].
    destruct (length _ <? 8) eqn:Hlen; [by left|].
    destruct (compare (default "" (newPassword b)) (password u)) eqn:Hnew; [by left|].
    destruct (update_cases now uid
                (withPassword (hash (default "" (newPassword b))) (allowed b)) users)
      as [Hsame | (u0 & Hu0 & _ & Heq)]; [by left|].
    right. exists uid, b, u, (withPassword (hash (default "" (newPassword b))) (allowed b)).
    rewrite Heq. assert (u0 = u) as -> by congruence.
    split; [done|]. split; [done|]. split; [done|]. split; [done|]. right.
    apply andb_true_iff in Hboth as [Hc Hn].
    destruct (currentPassword b) as [c|]; [|done].
    destruct (newPassword b) as [n|]; [|done].
    exists c, n. apply Z.ltb_ge in Hlen. by repeat split.
  - destruct (truthy (newPassword b) && negb (truthy (currentPassword b))); [by left|].
    destruct (update_cases now uid (allowed b) users)
      as [Hsame | (u & Hu & _ & Heq)]; [by left|].
    right. exists uid, b, u, (allowed b). rewrite Heq. by repeat split; try left.
Qed.

(** X25: a profile update changes a stored password only for the caller,
    and only when the body gives the current password, [bcrypt.compare]
    accepts it, and the new password has at least 8 characters and is not the
    current one; the password stored is then the hash of the new one. *)
Theorem password_changes_only_with_current_password
    compare hash length now auth body users id u u' :
  users !! id = Some u →
  (profilePut compare hash length now auth body users).2 !! id = Some u' →
  password u' ≠ password u →
  ∃ b c n,
    auth = Verified id ∧ body = Some b ∧
    currentPassword b = Some c ∧ newPassword b = Some n ∧
    compare c (password u) = true ∧ 8 ≤ length n ∧
    compare n (password u) = false ∧ password u' = hash n.
Proof.
  intros Hu Hu' Hchanged.
  destruct (profilePut_cases compare hash length now auth body users)
    as [Hsame | (uid & b & u0 & uf & -> & -> & Hu0 & Heq & Huf)].
  - rewrite Hsame in Hu'. congruence.
  - rewrite Heq in Hu'. destruct (decide (id = uid)) as [->|Hne].
    + rewrite lookup_insert_eq in Hu'. assert (u0 = u) as -> by congruence.
      injection Hu' as <-.
      destruct Huf as [-> | (c & n & Hc & Hn & Hcur & Hlen & Hnew & ->)].
      * by destruct Hchanged.
      * exists b, c, n. by repeat split.
    + rewrite lookup_insert_ne in Hu' by done. congruence.
Qed.

Lemma password_changes_only_with_current_password_witness :
  ∃ b c n,
    Verified 200 = Verified 200 ∧
    Some (passwordOnly "password1" "password2") = Some b ∧
    currentPassword b = Some c ∧ newPassword b = Some n ∧
    sampleCompare c (password (sampleUser false)) = true ∧ 8 ≤ sampleLength n ∧
    sampleCompare n (password (sampleUser false)) = false ∧
    password (set (march 1) (withPassword "password2" (allowed (passwordOnly "password1" "password2")))
                (sampleUser false)) = sampleHash n.
Proof.
  apply (password_changes_only_with_current_password sampleCompare sampleHash
           sampleLength (march 1) (Verified 200)
           (Some (passwordOnly "password1" "password2")) (sampleUsers false) 200
           (sampleUser false)).
  - vm_compute. reflexivity.
  - vm_compute. reflexivity.
  - vm_compute. discriminate.
Defined.

(** X26: a profile update, whatever it is answered, changes at most the
    caller's own document, creates and removes none, and leaves every user
    their email, role, suspension and activity. *)
Theorem profile_update_touches_own_document
    compare hash length now auth body users j :
  (auth ≠ Verified j →
   (profilePut compare hash length now auth body users).2 !! j = users !! j) ∧
  option_Forall2 sameAccount (users !! j)
    ((profilePut compare hash length now auth body users).2 !! j).
Proof.
  destruct (profilePut_cases compare hash length now auth body users)
    as [-> | (uid & b & u & uf & -> & -> & Hu & -> & _)].
  - split; [done|]. destruct (users !! j); constructor. by repeat split.
  - destruct (decide (j = uid)) as [->|Hne].
    + split; [done|]. rewrite lookup_insert_eq, Hu. constructor. by repeat split.
    + rewrite lookup_insert_ne by done. split; [done|].
      destruct (users !! j); constructor. by repeat split.
Qed.

(** X27: the status check of GET is not made by PUT.  A suspended user is
    refused their own profile with 403, while the same token updates it: a
    body with a first name and no new password is answered 200 and written,
    and the user is suspended as before. *)
Theorem suspended_user_can_still_update
    compare hash length now id u b f users :
  users !! id = Some u →
  isSuspended u = true →
  b_firstName b = Some f →
  truthy (newPassword b) = false →
  p_statusCode (profileGet (Verified id) users) = 403 ∧
  p_statusCode (profilePut compare hash length now (Verified id) (Some b) users).1 = 200 ∧
  ∃ u', (profilePut compare hash length now (Verified id) (Some b) users).2 !! id
          = Some u' ∧
        firstName u' = Some f ∧ isSuspended u' = true.
Proof.
  intros Hu Hsusp Hf Hnew. unfold profileGet, profilePut.
  rewrite Hu, Hsusp, Hnew, andb_false_r. cbn [andb p_statusCode refused].
  split; [done|]. unfold update, noKeys.
  cbn [allowed uf_firstName]. rewrite Hf, Hu. cbn [fst snd p_statusCode].
  split; [done|]. exists (set now (allowed b) u). rewrite lookup_insert_eq.
  split; [done|]. cbn [set allowed firstName uf_firstName isSuspended setField].
  by rewrite Hf.
Qed.

Lemma suspended_user_can_still_update_witness :
  p_statusCode (profileGet (Verified 200) (sampleUsers true)) = 403 ∧
  p_statusCode (profilePut sampleCompare sampleHash sampleLength (march 1)
                  (Verified 200) (Some (nameOnly "Sunil")) (sampleUsers true)).1 = 200 ∧
  ∃ u', (profilePut sampleCompare sampleHash sampleLength (march 1)
           (Verified 200) (Some (nameOnly "Sunil")) (sampleUsers true)).2 !! 200%N
          = Some u' ∧
        firstName u' = Some "Sunil" ∧ isSuspended u' = true.
Proof.
  apply (suspended_user_can_still_update sampleCompare sampleHash sampleLength
           (march 1) 200 (sampleUser true) (nameOnly "Sunil") "Sunil"
           (sampleUsers true)).
  - vm_compute. reflexivity.
  - reflexivity.
  - reflexivity.
  - reflexivity.
Defined.

End UserProfileFacts.
